(** * Kakoune terminal UI (src/ncurses_ui.cc): windows, layout, menu, input decoder

    A shallow embedding of [ncurses_ui.cc].  Integers of the source
    ([int], [LineCount], [ColumnCount]) are [Z]; the places where the
    width of the machine integer is observable (the CSI parameter
    accumulator, the conversion to [Codepoint]) carry their wrap-around
    explicitly.  Bytes read from stdin are [Z] values in [0, 256).
    Operations whose C++ behaviour is undefined or throws (indexing a
    vector out of range, dividing by zero, resizing a vector to a negative
    length) return [None].  What the program writes to stdout is not part
    of the model, nor are the assertions ([kak_assert]).  The headers of
    ncurses_ui.cc are not among the sources: what the model takes from them
    is marked as modelled from the spec. *)

From Stdlib Require Import ZArith Lia List String Ascii Bool.
From stdpp Require Import base option list.
Import ListNotations.
Local Open Scope Z_scope.

(** ** Coordinates and rectangles (coord.hh, ncurses_ui.hh) *)

(** Modelled from the spec: coord.hh and ncurses_ui.hh are not among the
    sources.  A [DisplayCoord] is a line and a column, both signed; a
    [Rect] is a position and a size. *)
Record DisplayCoord := mkCoord { line : Z; column : Z }.

Definition coord_zero : DisplayCoord := mkCoord 0 0.

Definition coord_add (a b : DisplayCoord) : DisplayCoord :=
  mkCoord (line a + line b) (column a + column b).

Definition coord_sub (a b : DisplayCoord) : DisplayCoord :=
  mkCoord (line a - line b) (column a - column b).

Definition coord_eqb (a b : DisplayCoord) : bool :=
  (line a =? line b) && (column a =? column b).

(** Modelled from the spec: [operator<] and [operator>] of [DisplayCoord]
    (coord.hh), which [info_show] uses; the order is lexicographic, line
    first. *)
Definition coord_ltb (a b : DisplayCoord) : bool :=
  (line a <? line b) || ((line a =? line b) && (column a <? column b)).

Definition coord_gtb (a b : DisplayCoord) : bool := coord_ltb b a.

Record Rect := mkRect { pos : DisplayCoord; size : DisplayCoord }.

(** ** Faces and atoms *)

(** Modelled from the spec: color.hh, face.hh and display_buffer.hh are
    not among the sources.  A color is a palette index or an RGB triple; a
    face is a foreground, a background and a set of attributes (a flag
    word). *)
Inductive Color :=
| Default | Black | Red | Green | Yellow | Blue | Magenta | Cyan | White
| BrightBlack | BrightRed | BrightGreen | BrightYellow | BrightBlue
| BrightMagenta | BrightCyan | BrightWhite
| RGB (r g b : Z).

Record Face := mkFace { fg : Color; bg : Color; attributes : Z }.

Definition default_Face : Face := mkFace Default Default 0.

(** Modelled from the spec: a [DisplayAtom] (display_buffer.hh) as the UI
    receives it, its content and its face; a [DisplayLine] is a sequence
    of atoms. *)
Record DisplayAtom := mkDisplayAtom { content : string; atom_face : Face }.

Definition DisplayLine := list DisplayAtom.

(** Modelled from the spec: [NCursesUI::Window::Atom] (ncurses_ui.hh), the
    text stored in a window line with its face. *)
Record Atom := mkAtom { text : string; face : Face }.

Definition Line := list Atom.

(** The display primitives the UI calls but does not define: column width
    of a string, the column-to-byte mapping, face merging, trimming of a
    display line and line wrapping. *)
Class DisplayPrimitives := {
  column_length : string -> Z;
  byte_count_to : string -> Z -> Z;
  merge_faces : Face -> Face -> Face;
  trim : DisplayLine -> Z -> Z -> DisplayLine;
  wrap_lines : string -> Z -> list string
}.

(** An instance for plain ASCII text: one column per byte. *)
Definition ascii_column_length (s : string) : Z := Z.of_nat (String.length s).

Definition ascii_merge_faces (base over : Face) : Face :=
  mkFace (match fg over with Default => fg base | c => c end)
         (match bg over with Default => bg base | c => c end)
         (Z.lor (attributes base) (attributes over)).

Fixpoint ascii_trim_atoms (l : DisplayLine) (n : nat) : DisplayLine :=
  match l with
  | [] => []
  | a :: r =>
      let len := String.length (content a) in
      if (len <=? n)%nat then a :: ascii_trim_atoms r (n - len)
      else if (n =? 0)%nat then []
      else [mkDisplayAtom (String.substring 0 n (content a)) (atom_face a)]
  end.

Definition ascii_primitives : DisplayPrimitives := {|
  column_length := ascii_column_length;
  byte_count_to := fun _ n => n;
  merge_faces := ascii_merge_faces;
  trim := fun l _ n => ascii_trim_atoms l (Z.to_nat n);
  wrap_lines := fun s _ => [s]
|}.

(** ** Strings *)

Definition newline : ascii := Ascii.ascii_of_nat 10.

Fixpoint string_back (s : string) : option ascii :=
  match s with
  | EmptyString => None
  | String c EmptyString => Some c
  | String _ r => string_back r
  end.

(** [s.substr(0, s.length() - 1)] *)
Fixpoint string_drop_back (s : string) : string :=
  match s with
  | EmptyString => EmptyString
  | String c EmptyString => EmptyString
  | String c r => String c (string_drop_back r)
  end.

(** [String(c, n)] *)
Fixpoint string_repeat (c : ascii) (n : nat) : string :=
  match n with
  | O => EmptyString
  | S k => String c (string_repeat c k)
  end.

Definition spaces (n : Z) : string := string_repeat " "%char (Z.to_nat n).

(** [text.resize(n, 0)]: truncate to [n] bytes, or pad with NUL bytes. *)
Definition string_resize (s : string) (n : Z) : string :=
  let k := Z.to_nat n in
  (String.substring 0 k s ++ string_repeat Ascii.zero (k - String.length s))%string.

Fixpoint string_has (c : ascii) (s : string) : bool :=
  match s with
  | EmptyString => false
  | String d r => Ascii.eqb c d || string_has c r
  end.

Definition string_empty (s : string) : bool :=
  match s with EmptyString => true | _ => false end.

(** ** Vectors indexed by an [int] *)

Definition at_Z {A} (l : list A) (i : Z) : option A :=
  if i <? 0 then None else l !! Z.to_nat i.

Definition set_at_Z {A} (l : list A) (i : Z) (x : A) : option (list A) :=
  if (0 <=? i) && (i <? Z.of_nat (length l)) then Some (<[Z.to_nat i := x]> l)
  else None.

(** ** Window (ncurses_ui.cc, lines 31-130) *)

(** Modelled from the spec: the members of [NCursesUI::Window] are declared
    in ncurses_ui.hh, which is not among the sources; they are the four the
    functions below use. *)
Record Window := mkWindow {
  win_pos : DisplayCoord;
  win_size : DisplayCoord;
  cursor : DisplayCoord;
  lines : list Line
}.

Definition set_cursor_of (w : Window) (c : DisplayCoord) : Window :=
  mkWindow (win_pos w) (win_size w) c (lines w).

Definition set_lines (w : Window) (l : list Line) : Window :=
  mkWindow (win_pos w) (win_size w) (cursor w) l.

(** [lines.resize(n)]: keep the first [n] lines, append empty ones. *)
Definition resize_lines (l : list Line) (n : nat) : list Line :=
  take n l ++ replicate (n - length l) [].

Definition Window_create (p s : DisplayCoord) (w : Window) : option Window :=
  if line s <? 0 then None
  else Some (mkWindow p s (cursor w) (resize_lines (lines w) (Z.to_nat (line s)))).

Definition Window_destroy (w : Window) : Window :=
  mkWindow coord_zero coord_zero (cursor w) [].

Definition Window_move_cursor (c : DisplayCoord) (w : Window) : Window :=
  set_cursor_of w c.

Definition empty_Window : Window := mkWindow coord_zero coord_zero coord_zero [].

Section Primitives.
Context {prim : DisplayPrimitives}.

(** The total column length of the atoms of a window line. *)
Definition line_columns (l : Line) : Z :=
  fold_right (fun a acc => column_length (text a) + acc) 0 l.

(** Modelled from the spec: [DisplayLine::length] (display_buffer.hh), the
    total column length of the atoms of a display line. *)
Definition DisplayLine_length (l : DisplayLine) : Z :=
  fold_right (fun a acc => column_length (content a) + acc) 0 l.

(** The scan of [clear_line]: the atoms kept (up to the first position at
    which the running column reaches the cursor column) and the column
    reached. *)
Fixpoint clear_scan (l : Line) (col cursor_column : Z) : Line * Z :=
  match l with
  | [] => ([], col)
  | a :: r =>
      if col <? cursor_column then
        let '(kept, c) := clear_scan r (col + column_length (text a)) cursor_column in
        (a :: kept, c)
      else ([], col)
  end.

(** [line.back().text] resized *)
Definition resize_back (l : Line) (f : string -> string) : option Line :=
  match reverse l with
  | [] => None
  | a :: r => Some (reverse (mkAtom (f (text a)) (face a) :: r))
  end.

Definition clear_line (w : Window) : option Window :=
  ln ← at_Z (lines w) (line (cursor w));
  let '(kept, col) := clear_scan ln 0 (column (cursor w)) in
  ln' ← (if col >? column (cursor w) then
           resize_back kept (fun text =>
             let new_length := column_length text - (col - column (cursor w)) in
             string_resize text (byte_count_to text new_length))
         else Some kept);
  ls ← set_at_Z (lines w) (line (cursor w)) ln';
  Some (set_lines w ls).

Definition push_back (atoms : list Atom) (w : Window) : option Window :=
  ln ← at_Z (lines w) (line (cursor w));
  ls ← set_at_Z (lines w) (line (cursor w)) (ln ++ atoms);
  Some (set_lines w ls).

Definition advance_column (n : Z) (w : Window) : Window :=
  set_cursor_of w (mkCoord (line (cursor w)) (column (cursor w) + n)).

(** One iteration of the loop of [draw]. *)
Definition draw_atom (default_face : Face) (atom : DisplayAtom) (w : Window)
  : option Window :=
  let content := content atom in
  if string_empty content then Some w
  else
    let face := merge_faces default_face (atom_face atom) in
    w' ← (if match string_back content with
             | Some c => Ascii.eqb c newline
             | None => false
             end
          then push_back [mkAtom (string_drop_back content) face; mkAtom " " face] w
          else push_back [mkAtom content face] w);
    Some (advance_column (column_length content) w').

Fixpoint draw_atoms (default_face : Face) (atoms : list DisplayAtom) (w : Window)
  : option Window :=
  match atoms with
  | [] => Some w
  | a :: r => w' ← draw_atom default_face a w; draw_atoms default_face r w'
  end.

Definition Window_draw (atoms : list DisplayAtom) (default_face : Face) (w : Window)
  : option Window :=
  w1 ← clear_line w;
  w2 ← draw_atoms default_face atoms w1;
  if column (cursor w2) <? column (win_size w2) then
    push_back [mkAtom (spaces (column (win_size w2) - column (cursor w2))) default_face] w2
  else Some w2.

End Primitives.

(** ** Integer helpers *)

(** Integer division of C++ (truncating); dividing by zero is undefined. *)
Definition cdiv (a b : Z) : option Z :=
  if b =? 0 then None else Some (Z.quot a b).

Definition div_round_up (a b : Z) : option Z :=
  q ← cdiv (a - 1) b; Some (q + 1).

Definition sq (x : Z) : Z := x * x.

(** ** Layout (ncurses_ui.cc, lines 835-874) *)

Definition set_line (p : DisplayCoord) (l : Z) : DisplayCoord := mkCoord l (column p).
Definition set_column (p : DisplayCoord) (c : Z) : DisplayCoord := mkCoord (line p) c.

(** The test of [compute_pos] on the box [p, p + sz] and the rectangle
    [to_avoid]. *)
Definition avoid_test (p sz : DisplayCoord) (to_avoid : Rect) : bool :=
  let to_avoid_end := coord_add (pos to_avoid) (size to_avoid) in
  let end_ := coord_add p sz in
  negb ((line end_ <? line (pos to_avoid)) || (column end_ <? column (pos to_avoid)) ||
        (line p >? line to_avoid_end) || (column p >? column to_avoid_end)).

(** The position [compute_pos] has reached before it looks at [to_avoid]. *)
Definition place_pos (anchor sz : DisplayCoord) (rect : Rect) (prefer_above : bool)
  : DisplayCoord :=
  let p := coord_zero in
  let '(p, prefer_above) :=
    if prefer_above then
      let p := coord_sub anchor (mkCoord (line sz) 0) in
      if line p <? 0 then (p, false) else (p, prefer_above)
    else (p, prefer_above) in
  let rect_end := coord_add (pos rect) (size rect) in
  let p :=
    if negb prefer_above then
      let p := coord_add anchor (mkCoord 1 0) in
      if line p + line sz >? line rect_end
      then set_line p (Z.max (line (pos rect)) (line anchor - line sz))
      else p
    else p in
  if column p + column sz >? column rect_end
  then set_column p (Z.max (column (pos rect)) (column rect_end - column sz))
  else p.

Definition compute_pos (anchor sz : DisplayCoord) (rect to_avoid : Rect)
  (prefer_above : bool) : DisplayCoord :=
  let p := place_pos anchor sz rect prefer_above in
  if negb (coord_eqb (size to_avoid) coord_zero) then
    let to_avoid_end := coord_add (pos to_avoid) (size to_avoid) in
    if avoid_test p sz to_avoid then
      let p := set_line p (Z.min (line (pos to_avoid)) (line anchor) - line sz) in
      if line p <? 0 then set_line p (Z.max (line to_avoid_end) (line anchor))
      else p
    else p
  else p.

(** The closed boxes [a, a + sa] and [b, b + sb] overlap or touch: on each
    axis the two closed intervals meet. *)
Definition boxes_meet_inclusive (a sa b sb : DisplayCoord) : Prop :=
  line b <= line a + line sa /\ line a <= line b + line sb /\
  column b <= column a + column sa /\ column a <= column b + column sb.

(** ** Menu, info box and display state (ncurses_ui.hh) *)

(** Modelled from the spec: the styles and the members of the menu, of the
    info box and of [NCursesUI] are declared in headers that are not among
    the sources; the records below hold the members ncurses_ui.cc uses. *)
Inductive MenuStyle := MenuPrompt | MenuSearch | MenuInline.

Inductive InfoStyle := InfoPrompt | InfoModal | InfoMenuDoc | InfoInlineAbove | InfoInlineBelow.

Definition InfoStyle_eqb (a b : InfoStyle) : bool :=
  match a, b with
  | InfoPrompt, InfoPrompt | InfoModal, InfoModal | InfoMenuDoc, InfoMenuDoc
  | InfoInlineAbove, InfoInlineAbove | InfoInlineBelow, InfoInlineBelow => true
  | _, _ => false
  end.

Record Menu := mkMenu {
  menu_win : Window;
  items : list DisplayLine;
  menu_fg : Face;
  menu_bg : Face;
  menu_anchor : DisplayCoord;
  menu_style : MenuStyle;
  selected_item : Z;
  first_item : Z;
  columns : Z
}.

Record Info := mkInfo {
  info_win : Window;
  title : string;
  info_content : string;
  info_anchor : DisplayCoord;
  info_face : Face;
  info_style : InfoStyle
}.

Record InfoBox := mkInfoBox { box_size : DisplayCoord; contents : list string }.

(** The part of [NCursesUI] that the drawing operations read and write. *)
Record Display := mkDisplay {
  m_window : Window;
  m_menu : Menu;
  m_info : Info;
  m_dimensions : DisplayCoord;
  m_status_on_top : bool;
  m_assistant : list string;
  m_dirty : bool
}.

Definition set_menu_win (m : Menu) (w : Window) : Menu :=
  mkMenu w (items m) (menu_fg m) (menu_bg m) (menu_anchor m) (menu_style m)
         (selected_item m) (first_item m) (columns m).

Definition set_items (m : Menu) (l : list DisplayLine) : Menu :=
  mkMenu (menu_win m) l (menu_fg m) (menu_bg m) (menu_anchor m) (menu_style m)
         (selected_item m) (first_item m) (columns m).

Definition set_menu_look (m : Menu) (fg bg : Face) (style : MenuStyle)
  (anchor : DisplayCoord) : Menu :=
  mkMenu (menu_win m) (items m) fg bg anchor style
         (selected_item m) (first_item m) (columns m).

Definition set_columns (m : Menu) (c : Z) : Menu :=
  mkMenu (menu_win m) (items m) (menu_fg m) (menu_bg m) (menu_anchor m) (menu_style m)
         (selected_item m) (first_item m) c.

Definition set_selection (m : Menu) (selected first : Z) : Menu :=
  mkMenu (menu_win m) (items m) (menu_fg m) (menu_bg m) (menu_anchor m) (menu_style m)
         selected first (columns m).

Definition set_info_win (i : Info) (w : Window) : Info :=
  mkInfo w (title i) (info_content i) (info_anchor i) (info_face i) (info_style i).

Definition set_m_window (d : Display) (w : Window) : Display :=
  mkDisplay w (m_menu d) (m_info d) (m_dimensions d) (m_status_on_top d)
            (m_assistant d) (m_dirty d).

Definition set_m_menu (d : Display) (m : Menu) : Display :=
  mkDisplay (m_window d) m (m_info d) (m_dimensions d) (m_status_on_top d)
            (m_assistant d) (m_dirty d).

Definition set_m_info (d : Display) (i : Info) : Display :=
  mkDisplay (m_window d) (m_menu d) i (m_dimensions d) (m_status_on_top d)
            (m_assistant d) (m_dirty d).

Definition set_m_dimensions (d : Display) (c : DisplayCoord) : Display :=
  mkDisplay (m_window d) (m_menu d) (m_info d) c (m_status_on_top d)
            (m_assistant d) (m_dirty d).

Definition set_m_dirty (d : Display) (b : bool) : Display :=
  mkDisplay (m_window d) (m_menu d) (m_info d) (m_dimensions d) (m_status_on_top d)
            (m_assistant d) b.

(** Modelled from the spec: [Window::operator bool] is declared in
    ncurses_ui.hh, which is not among the sources; a window is present
    iff its size is not zero. *)
Definition Window_present (w : Window) : bool :=
  negb (coord_eqb (win_size w) coord_zero).

Definition Window_rect (w : Window) : Rect := mkRect (win_pos w) (win_size w).

Definition content_line_offset (d : Display) : Z :=
  if m_status_on_top d then 1 else 0.

Definition dimensions (d : Display) : DisplayCoord := m_dimensions d.

Definition height_limit (style : MenuStyle) : Z :=
  match style with
  | MenuInline => 10
  | MenuPrompt => 10
  | MenuSearch => 3
  end.

(** Modelled from the spec: the [DisplayAtom] built from a string
    (display_buffer.hh) has the default face. *)
Definition atom_of (s : string) : DisplayAtom := mkDisplayAtom s default_Face.

Definition on_menu_win (f : Window -> option Window) (d : Display) : option Display :=
  w ← f (menu_win (m_menu d));
  Some (set_m_menu d (set_menu_win (m_menu d) w)).

Definition on_info_win (f : Window -> option Window) (d : Display) : option Display :=
  w ← f (info_win (m_info d));
  Some (set_m_info d (set_info_win (m_info d) w)).

Section Drawing.
Context {prim : DisplayPrimitives}.

(** *** Info-box builder (lines 876-951) *)

Fixpoint repeat_string (s : string) (n : nat) : string :=
  match n with
  | O => EmptyString
  | S k => (s ++ repeat_string s k)%string
  end.

(** [String{dash, n}] *)
Definition dashes (n : Z) : string := repeat_string "─" (Z.to_nat n).

Definition info_box_line (title : string) (wrapped assistant : list string)
  (assistant_size : DisplayCoord) (bubble_width assistant_top_margin i : Z)
  : option string :=
  ln ← (match assistant with
        | [] => Some EmptyString
        | _ =>
            if i >=? assistant_top_margin
            then at_Z assistant (Z.min (i - assistant_top_margin) (line assistant_size - 1))
            else at_Z assistant (line assistant_size - 1)
        end);
  let count := Z.of_nat (length wrapped) in
  if i =? 0 then
    if string_empty title
    then Some (ln ++ "╭─" ++ dashes bubble_width ++ "─╮")%string
    else
      let dash_count := bubble_width - column_length title - 2 in
      let left := dashes (Z.quot dash_count 2) in
      let right := dashes (dash_count - Z.quot dash_count 2) in
      Some (ln ++ "╭─" ++ left ++ "┤" ++ title ++ "├" ++ right ++ "─╮")%string
  else if i <? count + 1 then
    info_line ← at_Z wrapped (i - 1);
    let padding := bubble_width - column_length info_line in
    Some (ln ++ "│ " ++ info_line ++ spaces padding ++ " │")%string
  else if i =? count + 1 then
    Some (ln ++ "╰─" ++ dashes bubble_width ++ "─╯")%string
  else Some ln.

Fixpoint info_box_lines (title : string) (wrapped assistant : list string)
  (assistant_size : DisplayCoord) (bubble_width assistant_top_margin : Z)
  (i : Z) (n : nat) : option (list string) :=
  match n with
  | O => Some []
  | S k =>
      ln ← info_box_line title wrapped assistant assistant_size bubble_width
             assistant_top_margin i;
      r ← info_box_lines title wrapped assistant assistant_size bubble_width
            assistant_top_margin (i + 1) k;
      Some (ln :: r)
  end.

Definition make_info_box (title message : string) (max_width : Z)
  (assistant : list string) : option InfoBox :=
  let assistant_size :=
    match assistant with
    | [] => coord_zero
    | first :: _ => mkCoord (Z.of_nat (length assistant)) (column_length first)
    end in
  let max_bubble_width := max_width - column assistant_size - 6 in
  if max_bubble_width <? 4 then Some (mkInfoBox coord_zero [])
  else
    let wrapped := wrap_lines message max_bubble_width in
    let bubble_width :=
      fold_left (fun w ln => Z.max w (column_length ln)) wrapped
                (column_length title + 2) in
    let line_count := Z.max (line assistant_size - 1) (Z.of_nat (length wrapped) + 2) in
    let assistant_top_margin := Z.quot (line_count - line assistant_size + 1) 2 in
    ls ← info_box_lines title wrapped assistant assistant_size bubble_width
           assistant_top_margin 0 (Z.to_nat line_count);
    Some (mkInfoBox (mkCoord line_count (bubble_width + column assistant_size + 4)) ls).

Definition make_simple_info_box (message : string) (max_width : Z) : InfoBox :=
  fold_left
    (fun box ln =>
       mkInfoBox (mkCoord (line (box_size box) + 1)
                          (Z.max (column_length ln) (column (box_size box))))
                 (contents box ++ [ln]))
    (wrap_lines message max_width) (mkInfoBox coord_zero []).


(** *** Menu and info windows (lines 624-833, 953-1028) *)

Definition info_hide (d : Display) : Display :=
  if negb (Window_present (info_win (m_info d))) then d
  else set_m_dirty (set_m_info d (set_info_win (m_info d) (Window_destroy (info_win (m_info d))))) true.

(** The lines of the info box drawn one by one into the info window. *)
Fixpoint info_draw_lines (box : InfoBox) (face : Face) (ln : Z) (n : nat) (d : Display)
  : option Display :=
  match n with
  | O => Some d
  | S k =>
      txt ← at_Z (contents box) ln;
      d' ← on_info_win (fun w => Window_draw [atom_of txt] face
                                   (Window_move_cursor (mkCoord ln 0) w)) d;
      info_draw_lines box face (ln + 1) k d'
  end.

Definition half (c : DisplayCoord) : DisplayCoord :=
  mkCoord (Z.quot (line c) 2) (Z.quot (column c) 2).

Definition info_show (title content : string) (anchor : DisplayCoord) (face : Face)
  (style : InfoStyle) (d : Display) : option Display :=
  let d := info_hide d in
  let d := set_m_info d (mkInfo (info_win (m_info d)) title content anchor face style) in
  let menu := menu_win (m_menu d) in
  let rect := mkRect (mkCoord (content_line_offset d) 0) (m_dimensions d) in
  let placed : option (option (InfoBox * DisplayCoord)) :=
    match style with
    | InfoPrompt =>
        info_box ← make_info_box title content (column (m_dimensions d)) (m_assistant d);
        let anchor := mkCoord (if m_status_on_top d then 0 else line (m_dimensions d))
                              (column (m_dimensions d) - 1) in
        Some (Some (info_box,
                    compute_pos anchor (box_size info_box) rect (Window_rect menu)
                                (InfoStyle_eqb style InfoInlineAbove)))
    | InfoModal =>
        info_box ← make_info_box title content (column (m_dimensions d)) [];
        Some (Some (info_box,
                    coord_sub (coord_add (pos rect) (half (size rect)))
                              (half (box_size info_box))))
    | InfoMenuDoc =>
        if negb (Window_present menu) then Some None
        else
          let right_max_width :=
            column (m_dimensions d) - (column (win_pos menu) + column (win_size menu)) in
          let left_max_width := column (win_pos menu) in
          let max_width := Z.max right_max_width left_max_width in
          if max_width <? 4 then Some None
          else
            let info_box := make_simple_info_box content max_width in
            let anchor := set_line anchor (line (win_pos menu)) in
            let anchor :=
              if (column (box_size info_box) <=? right_max_width)
                 || (right_max_width >=? left_max_width)
              then set_column anchor (column (win_pos menu) + column (win_size menu))
              else set_column anchor (column (win_pos menu) - column (box_size info_box)) in
            Some (Some (info_box, anchor))
    | _ =>
        let max_width := column (m_dimensions d) - column anchor in
        if max_width <? 4 then Some None
        else
          let info_box := make_simple_info_box content max_width in
          let anchor := compute_pos anchor (box_size info_box) rect (Window_rect menu)
                                    (InfoStyle_eqb style InfoInlineAbove) in
          Some (Some (info_box, set_line anchor (line anchor + content_line_offset d)))
    end in
  p ← placed;
  match p with
  | None => Some d
  | Some (info_box, anchor) =>
      (* The info box does not fit *)
      if coord_ltb anchor (pos rect)
         || coord_gtb (coord_add anchor (box_size info_box))
                      (coord_add (pos rect) (size rect))
      then Some d
      else
        d ← on_info_win (Window_create anchor (box_size info_box)) d;
        d ← info_draw_lines info_box face 0 (Z.to_nat (line (box_size info_box))) d;
        Some (set_m_dirty d true)
  end.

Definition info_reshow (d : Display) : option Display :=
  if Window_present (info_win (m_info d))
  then info_show (title (m_info d)) (info_content (m_info d)) (info_anchor (m_info d))
                 (info_face (m_info d)) (info_style (m_info d)) d
  else Some d.

Definition menu_draw (atoms : list DisplayAtom) (face : Face) (d : Display)
  : option Display :=
  on_menu_win (Window_draw atoms face) d.

Definition menu_move_cursor (c : DisplayCoord) (d : Display) : option Display :=
  on_menu_win (fun w => Some (Window_move_cursor c w)) d.

(** The loop over the items of a horizontal menu; [n] bounds the number of
    iterations by the number of items.  Returns the index reached. *)
Fixpoint draw_menu_items (n : nat) (i pos win_width : Z) (d : Display)
  : option (Z * Display) :=
  match n with
  | O =>
      if (i <? Z.of_nat (length (items (m_menu d)))) && (pos <? win_width)
      then None else Some (i, d)
  | S k =>
      let m := m_menu d in
      if (i <? Z.of_nat (length (items m))) && (pos <? win_width) then
        item ← at_Z (items m) i;
        let item_width := DisplayLine_length item in
        let face := if i =? selected_item m then menu_fg m else menu_bg m in
        d ← menu_draw item face d;
        d ← (if pos + item_width <? win_width
             then menu_draw [atom_of " "] (menu_bg m) d
             else d ← menu_move_cursor (mkCoord 0 (win_width + 2)) d;
                  menu_draw [atom_of "…"] (menu_bg m) d);
        draw_menu_items k (i + 1) (pos + item_width + 1) win_width d
      else Some (i, d)
  end.

(** The geometry of the scrollbar mark of a grid menu (lines 665-677):
    [mark_line] and [mark_height], with the column width and first column
    computed on the way. *)
Record Mark := mkMark { mark_line : Z; mark_height : Z; column_width : Z; first_col : Z }.

Definition menu_mark (m : Menu) : option Mark :=
  let item_count := Z.of_nat (length (items m)) in
  menu_lines ← div_round_up item_count (columns m);
  let win_height := line (win_size (menu_win m)) in
  column_width ← cdiv (column (win_size (menu_win m)) - 1) (columns m);
  h ← div_round_up (sq win_height) menu_lines;
  let mark_height := Z.min h win_height in
  menu_cols ← div_round_up item_count (line (win_size (menu_win m)));
  first_col ← cdiv (first_item m) (line (win_size (menu_win m)));
  mark_line ← cdiv ((win_height - mark_height) * first_col)
                   (Z.max 1 (menu_cols - columns m));
  Some (mkMark mark_line mark_height column_width first_col).

(** The inner loop over the columns of one line of a grid menu. *)
Fixpoint draw_menu_cells (n : nat) (col ln : Z) (mk : Mark) (d : Display)
  : option Display :=
  match n with
  | O => Some d
  | S k =>
      let m := m_menu d in
      let item_count := Z.of_nat (length (items m)) in
      d ← menu_move_cursor (mkCoord ln (col * column_width mk)) d;
      let item_idx := (first_col mk + col) * line (win_size (menu_win m)) + ln in
      let face := if (item_idx <? item_count) && (item_idx =? selected_item m)
                  then menu_fg m else menu_bg m in
      atoms ← (if item_idx <? item_count then at_Z (items m) item_idx else Some []);
      d ← menu_draw atoms face d;
      draw_menu_cells k (col + 1) ln mk d
  end.

Fixpoint draw_menu_lines (n : nat) (ln : Z) (mk : Mark) (d : Display) : option Display :=
  match n with
  | O => Some d
  | S k =>
      let m := m_menu d in
      d ← draw_menu_cells (Z.to_nat (columns m)) 0 ln mk d;
      let is_mark := (ln >=? mark_line mk) && (ln <? mark_line mk + mark_height mk) in
      d ← menu_move_cursor (mkCoord ln (column (win_size (menu_win m)) - 1)) d;
      d ← menu_draw [atom_of (if is_mark then "█" else "░")] (menu_bg m) d;
      draw_menu_lines k (ln + 1) mk d
  end.

Definition draw_menu (d : Display) : option Display :=
  let m := m_menu d in
  (* menu show may have not created the window if it did not fit. *)
  if negb (Window_present (menu_win m)) then Some d
  else
    let item_count := Z.of_nat (length (items m)) in
    if columns m =? 0 then
      let win_width := column (win_size (menu_win m)) - 4 in
      d ← menu_move_cursor (mkCoord 0 0) d;
      d ← menu_draw [atom_of (if first_item m >? 0 then "< " else "  ")] (menu_bg m) d;
      '(i, d) ← draw_menu_items (length (items m)) (first_item m) 0 win_width d;
      d ← menu_move_cursor (mkCoord 0 (win_width + 3)) d;
      d ← menu_draw [atom_of (if i =? item_count then " " else ">")] (menu_bg m) d;
      Some (set_m_dirty d true)
    else
      mk ← menu_mark m;
      d ← draw_menu_lines (Z.to_nat (line (win_size (menu_win m)))) 0 mk d;
      Some (set_m_dirty d true).


Definition menu_show (new_items : list DisplayLine) (anchor : DisplayCoord)
  (fg bg : Face) (style : MenuStyle) (d : Display) : option Display :=
  let d :=
    if Window_present (menu_win (m_menu d))
    then set_m_dirty (set_m_menu d (set_menu_win (m_menu d)
                                      (Window_destroy (menu_win (m_menu d))))) true
    else d in
  let d := set_m_menu d (set_menu_look (m_menu d) fg bg style anchor) in
  if column (m_dimensions d) <=? 2 then Some d
  else
    let item_count := Z.of_nat (length new_items) in
    let longest := fold_left (fun lhs rhs => Z.max lhs rhs)
                             (map DisplayLine_length new_items) 1 in
    let max_width := column (m_dimensions d) - 1 in
    let is_inline := match style with MenuInline => true | _ => false end in
    let is_search := match style with MenuSearch => true | _ => false end in
    cols ← (if is_search then Some 0
            else if is_inline then Some 1
            else q ← cdiv max_width (longest + 1); Some (Z.max q 1));
    let d := set_m_menu d (set_columns (m_menu d) cols) in
    let max_height :=
      Z.min (height_limit style)
            (Z.max (line anchor) (line (m_dimensions d) - line anchor - 1)) in
    height ← (if is_search then Some 1
              else r ← div_round_up item_count cols; Some (Z.min max_height r));
    maxlen ← (if (cols >? 1) && (item_count >? 1)
              then q ← cdiv max_width cols; Some (q - 1)
              else Some max_width);
    let d := set_m_menu d (set_items (m_menu d)
                             (map (fun item => trim item 0 maxlen) new_items)) in
    let anchor := if is_inline then set_line anchor (line anchor + content_line_offset d)
                  else anchor in
    let ln := line anchor + 1 in
    let col := Z.max 0 (Z.min (column anchor) (column (m_dimensions d) - longest - 1)) in
    let '(ln, col) :=
      if is_search
      then (if m_status_on_top d then 0 else line (m_dimensions d),
            Z.quot (column (m_dimensions d)) 2)
      else if negb is_inline
      then (if m_status_on_top d then 1 else line (m_dimensions d) - height, col)
      else if ln + height >? line (m_dimensions d)
      then (line anchor - height, col)
      else (ln, col) in
    let width :=
      if is_search
      then column (m_dimensions d) - Z.quot (column (m_dimensions d)) 2
      else if is_inline then Z.min (longest + 1) (column (m_dimensions d))
      else column (m_dimensions d) in
    d ← on_menu_win (Window_create (mkCoord ln col) (mkCoord height width)) d;
    let d := set_m_menu d (set_selection (m_menu d) item_count 0) in
    d ← draw_menu d;
    info_reshow d.

(** The scroll of a horizontal menu in [menu_select]: the first item shown
    so that item [selected] is visible. *)
Fixpoint select_scan (l : list DisplayLine) (n : nat) (i first item_col width : Z)
  : option Z :=
  match n with
  | O => Some first
  | S k =>
      item ← at_Z l i;
      let item_width := DisplayLine_length item + 1 in
      if item_col + item_width >? width
      then select_scan l k (i + 1) i item_width width
      else select_scan l k (i + 1) first (item_col + item_width) width
  end.

Definition menu_select (selected : Z) (d : Display) : option Display :=
  let m := m_menu d in
  let item_count := Z.of_nat (length (items m)) in
  d ← (if (selected <? 0) || (selected >=? item_count) then
         Some (set_m_menu d (set_selection m (-1) 0))
       else if columns m =? 0 then (* Do not columnize *)
         let width := column (win_size (menu_win m)) - 3 in
         first ← select_scan (items m) (Z.to_nat (selected + 1)) 0 0 0 width;
         Some (set_m_menu d (set_selection m selected first))
       else
         let size_line := line (win_size (menu_win m)) in
         menu_cols ← div_round_up item_count size_line;
         first_col ← cdiv (first_item m) size_line;
         selected_col ← cdiv selected size_line;
         let first := first_item m in
         let first := if selected_col <? first_col then selected_col * size_line
                      else first in
         let first := if selected_col >=? first_col + columns m
                      then Z.min selected_col (menu_cols - columns m) * size_line
                      else first in
         Some (set_m_menu d (set_selection m selected first)));
  draw_menu d.

Definition menu_hide (d : Display) : option Display :=
  if negb (Window_present (menu_win (m_menu d))) then Some d
  else
    let m := set_menu_win (set_items (m_menu d) []) (Window_destroy (menu_win (m_menu d))) in
    let d := set_m_dirty (set_m_menu d m) true in
    (* Recompute info as it does not have to avoid the menu anymore *)
    info_reshow d.

End Drawing.

(** ** Keys (keys.hh) *)

(** Modelled from the spec: keys.hh is not among the sources.  A key is a
    set of modifiers and a code; the code is a codepoint, one of the named
    keys, or (for mouse and resize keys) a display coordinate.  The
    modifier set is a flag word, one bit per modifier. *)
Inductive NamedKey :=
| Key_Backspace | Key_Delete | Key_Escape | Key_Return
| Key_Up | Key_Down | Key_Left | Key_Right
| Key_PageUp | Key_PageDown | Key_Home | Key_End | Key_Insert | Key_Tab
| Key_F1 | Key_F2 | Key_F3 | Key_F4 | Key_F5 | Key_F6
| Key_F7 | Key_F8 | Key_F9 | Key_F10 | Key_F11 | Key_F12
| Key_FocusIn | Key_FocusOut | Key_Invalid.

Inductive Code :=
| Codepoint (c : Z)
| Named (k : NamedKey)
| Coord (c : DisplayCoord).

Record Key := mkKey { modifiers : Z; key : Code }.

Definition Mod_None : Z := 0.
Definition Mod_Control : Z := 1.
Definition Mod_Alt : Z := 2.
Definition Mod_Shift : Z := 4.
Definition Mod_MousePressLeft : Z := 8.
Definition Mod_MousePressRight : Z := 16.
Definition Mod_MouseReleaseLeft : Z := 32.
Definition Mod_MouseReleaseRight : Z := 64.
Definition Mod_MousePos : Z := 128.
Definition Mod_Scroll : Z := 256.
Definition Mod_Resize : Z := 512.

(** [k] carries the modifier [m]. *)
Definition has_mod (m : Z) (k : Key) : bool := negb (Z.land (modifiers k) m =? 0).

(** Modelled from the spec: [ctrl], [alt] and [shift] (keys.hh) add one
    modifier to a key. *)
Definition ctrl (k : Key) : Key := mkKey (Z.lor (modifiers k) Mod_Control) (key k).
Definition alt (k : Key) : Key := mkKey (Z.lor (modifiers k) Mod_Alt) (key k).
Definition shift (k : Key) : Key := mkKey (Z.lor (modifiers k) Mod_Shift) (key k).

Definition key_of_named (k : NamedKey) : Key := mkKey Mod_None (Named k).
Definition key_of_codepoint (c : Z) : Key := mkKey Mod_None (Codepoint c).

(** Modelled from the spec: [Key{}], the value-initialised key (keys.hh):
    no modifier, code 0. *)
Definition default_Key : Key := mkKey Mod_None (Codepoint 0).

(** Modelled from the spec: [encode_coord] (keys.hh) makes the code of a
    mouse or resize key from a coordinate. *)
Definition encode_coord (c : DisplayCoord) : Code := Coord c.

(** Modelled from the spec: [resize] (keys.hh), the synthetic key
    Resize(dimensions). *)
Definition resize (dim : DisplayCoord) : Key := mkKey Mod_Resize (encode_coord dim).

(** Modelled from the spec: [Key::F1 + n - 1]; the function keys F1 to F12
    are consecutive named keys (keys.hh). *)
Definition function_key (n : Z) : Code :=
  match n with
  | 1 => Named Key_F1 | 2 => Named Key_F2 | 3 => Named Key_F3 | 4 => Named Key_F4
  | 5 => Named Key_F5 | 6 => Named Key_F6 | 7 => Named Key_F7 | 8 => Named Key_F8
  | 9 => Named Key_F9 | 10 => Named Key_F10 | 11 => Named Key_F11 | 12 => Named Key_F12
  | _ => Named Key_Invalid
  end.

(** ** Machine integers of the decoder *)

(** Conversion to [int] (32 bits, two's complement). *)
Definition wrap_int (z : Z) : Z := (z + 2147483648) mod 4294967296 - 2147483648.

(** Conversion to [Codepoint] ([char32_t]). *)
Definition to_Codepoint (z : Z) : Z := z mod 4294967296.

(** [control(c)]: [c & 037] *)
Definition control (c : Z) : Z := Z.land c 31.

Definition char_a : Z := 97.
Definition char_digit0 : Z := 48.
Definition ESC : Z := 27.

(** ** The UI object and its environment *)

Inductive Signal := SIGWINCH | SIGHUP | SIGTSTP | SIGCONT.

Inductive Handler :=
| SIG_DFL
| raise_resize_pending   (* signal_handler<&resize_pending> *)
| raise_sighup           (* signal_handler<&sighup_raised> *)
| call_suspend.          (* NCursesUI::instance().suspend() *)

Inductive SignalEvent :=
| kill (pid : Z) (sig : Signal)
| raise (sig : Signal).

Definition Signal_eqb (a b : Signal) : bool :=
  match a, b with
  | SIGWINCH, SIGWINCH | SIGHUP, SIGHUP | SIGTSTP, SIGTSTP | SIGCONT, SIGCONT => true
  | _, _ => false
  end.

(** The members of [NCursesUI] the decoder uses, the two process-wide
    signal flags, and what the process sees of its environment: the bytes
    readable on stdin, the answer of [TIOCGWINSZ] on /dev/tty ([None] when
    the tty cannot be opened or the ioctl fails), the installed signal
    handlers and the signals sent so far (most recent first). *)
Record NCursesUI := mkUI {
  display : Display;
  m_resize_pending : bool;
  m_mouse_state : Z;
  m_mouse_enabled : bool;
  m_wheel_scroll_amount : Z;
  m_stdin_watcher : bool;
  resize_pending : bool;
  sighup_raised : bool;
  stdin : list Z;
  tty_winsize : option (Z * Z);
  signal_handler : Signal -> Handler;
  signals : list SignalEvent
}.

Definition set_display (u : NCursesUI) (d : Display) : NCursesUI :=
  mkUI d (m_resize_pending u) (m_mouse_state u) (m_mouse_enabled u)
       (m_wheel_scroll_amount u) (m_stdin_watcher u) (resize_pending u)
       (sighup_raised u) (stdin u) (tty_winsize u) (signal_handler u) (signals u).

Definition set_m_resize_pending (u : NCursesUI) (b : bool) : NCursesUI :=
  mkUI (display u) b (m_mouse_state u) (m_mouse_enabled u)
       (m_wheel_scroll_amount u) (m_stdin_watcher u) (resize_pending u)
       (sighup_raised u) (stdin u) (tty_winsize u) (signal_handler u) (signals u).

Definition set_m_mouse_state (u : NCursesUI) (z : Z) : NCursesUI :=
  mkUI (display u) (m_resize_pending u) z (m_mouse_enabled u)
       (m_wheel_scroll_amount u) (m_stdin_watcher u) (resize_pending u)
       (sighup_raised u) (stdin u) (tty_winsize u) (signal_handler u) (signals u).

Definition set_m_mouse_enabled (u : NCursesUI) (b : bool) : NCursesUI :=
  mkUI (display u) (m_resize_pending u) (m_mouse_state u) b
       (m_wheel_scroll_amount u) (m_stdin_watcher u) (resize_pending u)
       (sighup_raised u) (stdin u) (tty_winsize u) (signal_handler u) (signals u).

Definition set_m_stdin_watcher (u : NCursesUI) (b : bool) : NCursesUI :=
  mkUI (display u) (m_resize_pending u) (m_mouse_state u) (m_mouse_enabled u)
       (m_wheel_scroll_amount u) b (resize_pending u)
       (sighup_raised u) (stdin u) (tty_winsize u) (signal_handler u) (signals u).

Definition set_resize_pending_flag (u : NCursesUI) (b : bool) : NCursesUI :=
  mkUI (display u) (m_resize_pending u) (m_mouse_state u) (m_mouse_enabled u)
       (m_wheel_scroll_amount u) (m_stdin_watcher u) b
       (sighup_raised u) (stdin u) (tty_winsize u) (signal_handler u) (signals u).

Definition set_stdin (u : NCursesUI) (l : list Z) : NCursesUI :=
  mkUI (display u) (m_resize_pending u) (m_mouse_state u) (m_mouse_enabled u)
       (m_wheel_scroll_amount u) (m_stdin_watcher u) (resize_pending u)
       (sighup_raised u) l (tty_winsize u) (signal_handler u) (signals u).

Definition set_signal_handler (sig : Signal) (h : Handler) (u : NCursesUI) : NCursesUI :=
  mkUI (display u) (m_resize_pending u) (m_mouse_state u) (m_mouse_enabled u)
       (m_wheel_scroll_amount u) (m_stdin_watcher u) (resize_pending u)
       (sighup_raised u) (stdin u) (tty_winsize u)
       (fun s => if Signal_eqb s sig then h else signal_handler u s) (signals u).

Definition log_signal (e : SignalEvent) (u : NCursesUI) : NCursesUI :=
  mkUI (display u) (m_resize_pending u) (m_mouse_state u) (m_mouse_enabled u)
       (m_wheel_scroll_amount u) (m_stdin_watcher u) (resize_pending u)
       (sighup_raised u) (stdin u) (tty_winsize u) (signal_handler u) (e :: signals u).

(** Computations on the UI object: they read and write its state and fail
    ([None]) where the C++ code has no defined result. *)
Definition UI (A : Type) : Type := NCursesUI -> option (A * NCursesUI).

Definition ret {A} (a : A) : UI A := fun u => Some (a, u).

Definition bind {A B} (m : UI A) (f : A -> UI B) : UI B :=
  fun u => match m u with
           | Some (a, u') => f a u'
           | None => None
           end.

Notation "'do' x <- m ; k" := (bind m (fun x => k))
  (at level 10, x name, m at level 100, k at level 200).
Notation "'run' m ; k" := (bind m (fun _ => k))
  (at level 10, m at level 100, k at level 200).

Definition get_ui : UI NCursesUI := fun u => Some (u, u).
Definition modify (f : NCursesUI -> NCursesUI) : UI unit := fun u => Some (tt, f u).

(** A drawing operation run on the display part of the UI. *)
Definition on_display (f : Display -> option Display) : UI unit :=
  fun u => match f (display u) with
           | Some d => Some (tt, set_display u d)
           | None => None
           end.

Section Decoder.
Context {prim : DisplayPrimitives}.

(** *** Resize and suspend (lines 220-245, 370-407, 1046-1050) *)

Definition set_resize_pending : UI unit :=
  modify (fun u => set_m_resize_pending u true).

(** [menu_show(Vector<DisplayLine>(std::move(m_menu.items)), ...)]: the
    items are moved out of the menu before they are shown again. *)
Definition menu_reshow (d : Display) : option Display :=
  let m := m_menu d in
  menu_show (items m) (menu_anchor m) (menu_fg m) (menu_bg m) (menu_style m)
            (set_m_menu d (set_items m [])).

(** The windows rebuilt by [check_resize] for a terminal of [ws_row] rows
    and [ws_col] columns (lines 386-404). *)
Definition rebuild_windows (ws_row ws_col : Z) (d : Display) : option Display :=
  let info := Window_present (info_win (m_info d)) in
  let menu := Window_present (menu_win (m_menu d)) in
  let d := if Window_present (m_window d)
           then set_m_window d (Window_destroy (m_window d)) else d in
  let d := if info
           then set_m_info d (set_info_win (m_info d) (Window_destroy (info_win (m_info d))))
           else d in
  let d := if menu
           then set_m_menu d (set_menu_win (m_menu d) (Window_destroy (menu_win (m_menu d))))
           else d in
  w ← Window_create (mkCoord 0 0) (mkCoord ws_row ws_col) (m_window d);
  let d := set_m_window d w in
  let d := set_m_dimensions d (mkCoord (ws_row - 1) ws_col) in
  d ← (if menu then menu_reshow d else Some d);
  if info
  then info_show (title (m_info d)) (info_content (m_info d))
                 (info_anchor (m_info d)) (info_face (m_info d))
                 (info_style (m_info d)) d
  else Some d.

Definition check_resize (force : bool) : UI unit :=
  do u <- get_ui;
  if negb force && negb (resize_pending u) then ret tt
  else
    run modify (fun u => set_resize_pending_flag u false);
    match tty_winsize u with
    | None => ret tt
    | Some (ws_row, ws_col) =>
        run on_display (rebuild_windows ws_row ws_col);
        set_resize_pending
    end.

Definition enable_mouse (enabled : bool) : UI unit :=
  modify (fun u => if Bool.eqb enabled (m_mouse_enabled u) then u
                   else set_m_mouse_enabled u enabled).

(** [refresh(force)]: the redraw writes to stdout only. *)
Definition refresh (force : bool) : UI unit :=
  on_display (fun d => Some (set_m_dirty d false)).

Definition suspend : UI unit :=
  do u <- get_ui;
  let mouse_enabled := m_mouse_enabled u in
  run enable_mouse false;
  let current := signal_handler u SIGTSTP in
  run modify (set_signal_handler SIGTSTP SIG_DFL);
  run modify (log_signal (raise SIGTSTP)); (* suspend here *)
  run modify (set_signal_handler SIGTSTP current);
  run check_resize true;
  run enable_mouse mouse_enabled;
  refresh true.

(** [kill(0, SIGTSTP)]: the signal reaches this process before the call
    returns and runs the handler installed for it. *)
Definition kill_SIGTSTP : UI unit :=
  do u <- get_ui;
  run modify (log_signal (kill 0 SIGTSTP));
  match signal_handler u SIGTSTP with
  | call_suspend => suspend
  | _ => ret tt
  end.

(** *** Reading bytes (lines 429-434) *)

Definition get_char : UI (option Z) :=
  fun u => match stdin u with
           | [] => Some (None, u)
           | c :: rest => Some (Some c, set_stdin u rest)
           end.

Definition value_or {A} (o : option A) (d : A) : A :=
  match o with Some a => a | None => d end.

(** Modelled from the spec: [utf8::codepoint] is declared in utf8.hh, which
    is not among the sources.  The byte [c] is the lead byte of a UTF-8
    sequence; the continuation bytes it announces are fetched from stdin
    (a missing byte reads as 0) and contribute their low six bits. *)
Definition utf8_codepoint (c : Z) : UI Z :=
  let next := (do o <- get_char; ret (value_or o 0)) in
  if Z.land c 128 =? 0 then ret c
  else if Z.land c 224 =? 192 then
    do b1 <- next;
    ret (Z.lor (Z.shiftl (Z.land c 31) 6) (Z.land b1 63))
  else if Z.land c 240 =? 224 then
    do b1 <- next;
    do b2 <- next;
    ret (Z.lor (Z.lor (Z.shiftl (Z.land c 15) 12) (Z.shiftl (Z.land b1 63) 6))
               (Z.land b2 63))
  else if Z.land c 248 =? 240 then
    do b1 <- next;
    do b2 <- next;
    do b3 <- next;
    ret (Z.lor (Z.lor (Z.lor (Z.shiftl (Z.land c 7) 18) (Z.shiftl (Z.land b1 63) 12))
                      (Z.shiftl (Z.land b2 63) 6))
               (Z.land b3 63))
  else ret c.

(** *** parse_key (lines 440-466) *)

Definition parse_key (c : Z) : UI Key :=
  if (c =? control 109) || (c =? control 106) then ret (key_of_named Key_Return)
  else if c =? control 105 then ret (key_of_named Key_Tab)
  else if c =? control 104 then ret (key_of_named Key_Backspace)
  else if c =? control 122 then
    run kill_SIGTSTP; (* We suspend at this line *)
    ret default_Key
  else if c <? 27 then ret (ctrl (key_of_codepoint (to_Codepoint (c - 1 + char_a))))
  else if c =? 127 then ret (key_of_named Key_Backspace)
  else
    do cp <- utf8_codepoint c;
    ret (key_of_codepoint cp).


(** *** parse_csi (lines 468-585) *)

Definition isdigit (c : Z) : bool := (48 <=? c) && (c <=? 57).

Definition param (params : list Z) (i : nat) : Z := nth i params 0.

(** The outcome of the parameter loop: it leaves with the parameters and
    the byte [c] that ended it, or the parse is abandoned.  Both carry what
    is left of stdin. *)
Inductive Scan :=
| scanned (params : list Z) (c : Z) (rest : list Z)
| abandoned (rest : list Z).

(** The loop [for (int count = 0; count < 16 and c >= 0x30 && c <= 0x3f;
    c = next_char())]; [input] is what stdin still holds. *)
Fixpoint scan_params (input : list Z) (count : nat) (params : list Z) (c : Z) : Scan :=
  if (count <? 16)%nat && (48 <=? c) && (c <=? 63) then
    let step :=
      if isdigit c
      then Some (count, <[count := wrap_int (param params count * 10 + c - char_digit0)]> params)
      else if c =? 59 then Some (S count, params)
      else None in
    match step with
    | None => abandoned input
    | Some (count, params) =>
        match input with
        | [] => scanned params 255 []
        | c' :: rest => scan_params rest count params c'
        end
    end
  else scanned params c input.

Definition next_char : UI Z :=
  do o <- get_char; ret (value_or o 255).

Definition parse_mask (mask : Z) : Z :=
  let mod_ := Mod_None in
  let mod_ := if negb (Z.land mask 1 =? 0) then Z.lor mod_ Mod_Shift else mod_ in
  let mod_ := if negb (Z.land mask 2 =? 0) then Z.lor mod_ Mod_Alt else mod_ in
  let mod_ := if negb (Z.land mask 4 =? 0) then Z.lor mod_ Mod_Control else mod_ in
  mod_.

Definition mouse_button (mod_ : Z) (coord : Code) (left release : bool) : UI Key :=
  do u <- get_ui;
  let mask := if left then 1 else 2 in
  if negb release then
    let mod_ := Z.lor mod_ (if negb (Z.land (m_mouse_state u) mask =? 0) then Mod_MousePos
                            else if left then Mod_MousePressLeft else Mod_MousePressRight) in
    run modify (fun u => set_m_mouse_state u (Z.lor (m_mouse_state u) mask));
    ret (mkKey mod_ coord)
  else
    let mod_ := Z.lor mod_ (if left then Mod_MouseReleaseLeft else Mod_MouseReleaseRight) in
    run modify (fun u => set_m_mouse_state u (Z.land (m_mouse_state u) (Z.lnot mask)));
    ret (mkKey mod_ coord).

Definition mouse_scroll (mod_ : Z) (down : bool) : UI Key :=
  do u <- get_ui;
  ret (mkKey (Z.lor mod_ Mod_Scroll)
             (Codepoint (to_Codepoint ((if down then 1 else -1) * m_wheel_scroll_amount u)))).

Definition masked_key (params : list Z) (k : Code) : Key :=
  mkKey (parse_mask (Z.max (wrap_int (param params 1 - 1)) 0)) k.

(** The [switch] on the final byte; [None] is the empty [Optional<Key>]. *)
Definition csi_dispatch (private_mode : Z) (params : list Z) (c : Z) : UI (option Key) :=
  let key k := ret (Some (masked_key params (Named k))) in
  match c with
  | 65 => key Key_Up
  | 66 => key Key_Down
  | 67 => key Key_Right
  | 68 => key Key_Left
  | 70 => key Key_End
  | 72 => key Key_Home
  | 80 => key Key_F1
  | 81 => key Key_F2
  | 82 => key Key_F3
  | 83 => key Key_F4
  | 126 =>
      let p0 := param params 0 in
      match p0 with
      | 2 => key Key_Insert
      | 3 => key Key_Delete
      | 5 => key Key_PageUp
      | 6 => key Key_PageDown
      | 7 => key Key_Home
      | 8 => key Key_End
      | 11 | 12 | 13 | 14 | 15 => ret (Some (masked_key params (function_key (1 + p0 - 11))))
      | 17 | 18 | 19 | 20 | 21 => ret (Some (masked_key params (function_key (6 + p0 - 17))))
      | 23 | 24 => ret (Some (masked_key params (function_key (11 + p0 - 23))))
      | _ => ret None
      end
  | 117 => ret (Some (masked_key params (Codepoint (to_Codepoint (param params 0)))))
  | 90 => ret (Some (shift (key_of_named Key_Tab)))
  | 73 => ret (Some (key_of_named Key_FocusIn))
  | 79 => ret (Some (key_of_named Key_FocusOut))
  | 77 | 109 =>
      let sgr := private_mode =? 60 in
      if negb sgr && negb (c =? 77) then ret None
      else
        do b <- (if sgr then ret (to_Codepoint (param params 0))
                 else do n <- next_char; ret (to_Codepoint (n - 32)));
        do x <- (if sgr then ret (wrap_int (param params 1 - 1))
                 else do n <- next_char; ret (n - 32 - 1));
        do y <- (if sgr then ret (wrap_int (param params 2 - 1))
                 else do n <- next_char; ret (n - 32 - 1));
        do u <- get_ui;
        let coord := encode_coord (mkCoord (y - content_line_offset (display u)) x) in
        let mod_ := parse_mask (Z.land (Z.shiftr b 2) 7) in
        let mouse_pos := ret (Some (mkKey Mod_MousePos coord)) in
        match Z.land b 67 with
        | 0 => do k <- mouse_button mod_ coord true (c =? 109); ret (Some k)
        | 2 => do k <- mouse_button mod_ coord false (c =? 109); ret (Some k)
        | 3 =>
            if sgr then ret None
            else if negb (Z.land (m_mouse_state u) 1 =? 0)
            then do k <- mouse_button mod_ coord true true; ret (Some k)
            else if negb (Z.land (m_mouse_state u) 2 =? 0)
            then do k <- mouse_button mod_ coord false true; ret (Some k)
            else mouse_pos
        | 64 => do k <- mouse_scroll mod_ false; ret (Some k)
        | 65 => do k <- mouse_scroll mod_ true; ret (Some k)
        | _ => mouse_pos
        end
  | _ => ret None
  end.

Definition is_private_mode (c : Z) : bool :=
  (c =? 63) || (c =? 60) || (c =? 61) || (c =? 62).

Definition parse_csi : UI (option Key) :=
  do c <- next_char;
  do pc <- (if is_private_mode c
            then do c' <- next_char; ret (c, c')
            else ret (0, c));
  let '(private_mode, c) := pc in
  do u <- get_ui;
  match scan_params (stdin u) 0 (replicate 16 0) c with
  | abandoned rest =>
      run modify (fun u => set_stdin u rest);
      ret None
  | scanned params c rest =>
      run modify (fun u => set_stdin u rest);
      if (c <? 64) || (c >? 126) then ret None
      else csi_dispatch private_mode params c
  end.

(** *** parse_ss3 (lines 587-602) *)

Definition parse_ss3 : UI (option Key) :=
  do c <- (do o <- get_char; ret (value_or o 255));
  ret (match c with
       | 65 => Some (key_of_named Key_Up)
       | 66 => Some (key_of_named Key_Down)
       | 67 => Some (key_of_named Key_Right)
       | 68 => Some (key_of_named Key_Left)
       | 70 => Some (key_of_named Key_End)
       | 72 => Some (key_of_named Key_Home)
       | 80 => Some (key_of_named Key_F1)
       | 81 => Some (key_of_named Key_F2)
       | 82 => Some (key_of_named Key_F3)
       | 83 => Some (key_of_named Key_F4)
       | _ => None
       end).

(** *** get_next_key (lines 409-616) *)

(** The part of [get_next_key] that reads stdin (lines 436-438 and
    604-615). *)
Definition read_key : UI (option Key) :=
  do c <- get_char;
  match c with
  | None => ret None
  | Some c =>
      if negb (c =? 27) then do k <- parse_key c; ret (Some k)
      else
        do next <- get_char;
        match next with
        | Some next =>
            if next =? 91 then (* potential CSI *)
              do k <- parse_csi; ret (Some (value_or k (alt (key_of_codepoint 91))))
            else if next =? 79 then (* potential SS3 *)
              do k <- parse_ss3; ret (Some (value_or k (alt (key_of_codepoint 79))))
            else do k <- parse_key next; ret (Some (alt k))
        | None => ret (Some (key_of_named Key_Escape))
        end
  end.

Definition get_next_key : UI (option Key) :=
  do u <- get_ui;
  if sighup_raised u then
    run modify (set_signal_handler SIGWINCH SIG_DFL);
    run modify (set_signal_handler SIGCONT SIG_DFL);
    run on_display (fun d => Some (if Window_present (m_window d)
                                   then set_m_window d (Window_destroy (m_window d))
                                   else d));
    run modify (fun u => set_m_stdin_watcher u false);
    ret None
  else
    run check_resize false;
    do u <- get_ui;
    if m_resize_pending u then
      run modify (fun u => set_m_resize_pending u false);
      do u <- get_ui;
      ret (Some (resize (dimensions (display u))))
    else read_key.

(** The stdin watcher installed by the constructor (lines 183-190), with a
    key callback set: every key [get_next_key] returns is handed to the
    callback, until it returns none.  The keys handed over are collected in
    order; [n] bounds the number of calls of [get_next_key]. *)
Fixpoint on_stdin_readable (n : nat) : UI (list Key) :=
  match n with
  | O => ret []
  | S k =>
      do key <- get_next_key;
      match key with
      | Some key => do keys <- on_stdin_readable k; ret (key :: keys)
      | None => ret []
      end
  end.

End Decoder.

(** ** Notions used in the statements *)

(** No hangup, no window-size change and no resize key pending: the next
    call of [get_next_key] goes straight to stdin. *)
Definition idle (u : NCursesUI) : Prop :=
  sighup_raised u = false /\ resize_pending u = false /\ m_resize_pending u = false.

(** The parameter loop entered on the first byte of [l], as [parse_csi]
    enters it with [c = next_char()]. *)
Definition scan_from (l : list Z) (count : nat) (params : list Z) : Scan :=
  match l with
  | [] => scanned params 255 []
  | c :: input => scan_params input count params c
  end.

(** The value the loop accumulates over the digits [ds], starting from [v]. *)
Definition accum (v : Z) (ds : list Z) : Z :=
  fold_left (fun v d => wrap_int (v * 10 + d - char_digit0)) ds v.

(** The number a string of decimal digits denotes. *)
Definition dec_value (ds : list Z) : Z :=
  fold_left (fun v d => v * 10 + (d - 48)) ds 0.

Fixpoint digits_fuel (fuel : nat) (n : Z) (acc : list Z) : list Z :=
  match fuel with
  | O => acc
  | S f =>
      let acc := (48 + n mod 10) :: acc in
      if n / 10 =? 0 then acc else digits_fuel f (n / 10) acc
  end.

(** The decimal digits of [n], as the bytes a terminal sends. *)
Definition digits_of (n : Z) : list Z := digits_fuel (S (Z.to_nat n)) n [].

Definition zero_params : list Z := replicate 16 0.

(** What [parse_csi] does once the private-mode byte is read and the
    parameter loop has run over [body]. *)
Definition csi_after_scan (private_mode : Z) (body : list Z) : UI (option Key) :=
  fun u =>
    match scan_from body 0 zero_params with
    | abandoned rest => Some (None, set_stdin u rest)
    | scanned params c rest =>
        if (c <? 64) || (c >? 126) then Some (None, set_stdin u rest)
        else csi_dispatch private_mode params c (set_stdin u rest)
    end.

(** A byte the parameter loop accepts: a digit or [;]. *)
Definition param_byte (c : Z) : Prop := isdigit c = true \/ c = 59.

Definition semicolons (l : list Z) : nat := count_occ Z.eq_dec l 59.

(** The modifiers a mask stands for: bit 1 is Shift, bit 2 is Alt, bit 4 is
    Control. *)
Definition modifier_set (mask : Z) : Z :=
  (if Z.testbit mask 0 then Mod_Shift else 0) +
  (if Z.testbit mask 1 then Mod_Alt else 0) +
  (if Z.testbit mask 2 then Mod_Control else 0).

(** The keys of the final bytes A-D, F, H, P-S. *)
Definition cursor_final (c : Z) : option NamedKey :=
  match c with
  | 65 => Some Key_Up | 66 => Some Key_Down | 67 => Some Key_Right | 68 => Some Key_Left
  | 70 => Some Key_End | 72 => Some Key_Home
  | 80 => Some Key_F1 | 81 => Some Key_F2 | 82 => Some Key_F3 | 83 => Some Key_F4
  | _ => None
  end.

(** The SGR mouse report [CSI < b ; x ; y final]. *)
Definition sgr_mouse (b x y final : Z) : list Z :=
  [27; 91; 60] ++ digits_of b ++ [59] ++ digits_of x ++ [59] ++ digits_of y ++ [final].

(** A UI on an 80x24 terminal with nothing drawn, reading [input]. *)
Definition blank_display : Display :=
  mkDisplay empty_Window
    (mkMenu empty_Window [] default_Face default_Face coord_zero MenuPrompt 0 0 0)
    (mkInfo empty_Window "" "" coord_zero default_Face InfoPrompt)
    (mkCoord 23 80) false [] false.

Definition installed_handlers (s : Signal) : Handler :=
  match s with
  | SIGWINCH => raise_resize_pending
  | SIGHUP => raise_sighup
  | SIGTSTP => call_suspend
  | SIGCONT => SIG_DFL
  end.

Definition blank_ui (input : list Z) : NCursesUI :=
  mkUI blank_display false 0 true 3 true false false input (Some (24, 80))
       installed_handlers [].

(** The keys of the mouse round trip. *)
Definition mouse_key (u : NCursesUI) (what b x y : Z) : Key :=
  mkKey (Z.lor (modifier_set (Z.land (Z.shiftr b 2) 7)) what)
        (Coord (mkCoord (y - 1 - content_line_offset (display u)) (x - 1))).

Definition sgr_report_ok (r : Z * Z * Z) : Prop :=
  let '(b, x, y) := r in
  0 <= b < 2147483648 /\ 0 <= x < 2147483648 /\ 0 <= y < 2147483648 /\ Z.land b 67 = 0.

Definition sgr_presses (l : list (Z * Z * Z)) : list Z :=
  flat_map (fun '(b, x, y) => sgr_mouse b x y 77) l.

(** The bytes [parse_csi] may read before the parameters: nothing, or one
    private-mode byte. *)
Definition private_prefix (pm : list Z) : Prop :=
  pm = [] \/ exists p, pm = [p] /\ is_private_mode p = true.

(** The final bytes [parse_csi] dispatches on. *)
Definition csi_known_final (c : Z) : bool :=
  existsb (Z.eqb c) [65; 66; 67; 68; 70; 72; 80; 81; 82; 83; 126; 117; 90; 73; 79; 77; 109].

(** [malformed intro body rest]: after ESC and the introducer [intro]
    (91 for CSI, 79 for SS3) the bytes [body] do not form a sequence, and
    [rest] is what follows them on stdin.  For CSI: a byte in the parameter
    scan that is neither a digit nor [;], a final byte outside the ranges of
    parameter and final bytes or one [parse_csi] does not know, or the
    stream running dry; for SS3: a byte that is no SS3 final byte, or the
    stream running dry. *)
Inductive malformed : Z -> list Z -> list Z -> Prop :=
| csi_bad_param pm l c rest :
    private_prefix pm -> Forall param_byte l -> (semicolons l < 16)%nat ->
    c = 58 \/ (60 <= c <= 63 /\ (pm <> [] \/ l <> [])) ->
    malformed 91 (pm ++ l ++ [c]) rest
| csi_bad_final pm l c rest :
    private_prefix pm -> Forall param_byte l -> (semicolons l < 16)%nat ->
    c < 48 \/ 126 < c ->
    malformed 91 (pm ++ l ++ [c]) rest
| csi_unknown_final pm l c rest :
    private_prefix pm -> Forall param_byte l -> (semicolons l < 16)%nat ->
    64 <= c <= 126 -> csi_known_final c = false ->
    malformed 91 (pm ++ l ++ [c]) rest
| csi_runs_dry pm l :
    private_prefix pm -> Forall param_byte l -> (semicolons l < 16)%nat ->
    malformed 91 (pm ++ l) []
| ss3_bad_final c rest :
    cursor_final c = None -> malformed 79 [c] rest
| ss3_runs_dry : malformed 79 [] [].

(** What [Window::draw] relies on of the column width of strings: it is
    never negative, [n] spaces are [n] columns wide, and a final newline
    counts for one column. *)
Definition column_length_laws {prim : DisplayPrimitives} : Prop :=
  (forall s, 0 <= column_length s) /\
  (forall n, 0 <= n -> column_length (spaces n) = n) /\
  (forall s, column_length (s ++ String newline EmptyString) = column_length s + 1).

Definition current_line (w : Window) : option Line := at_Z (lines w) (line (cursor w)).

(** A line is filled when it is empty or exactly as wide as the window. *)
Definition line_filled {prim : DisplayPrimitives} (w : Window) (l : Line) : Prop :=
  l = [] \/ line_columns l = column (win_size w).

Definition ends_with_newline (s : string) : bool :=
  match string_back s with
  | Some c => Ascii.eqb c newline
  | None => false
  end.

(** The atoms [draw] stores for one display atom: none for empty content;
    for content ending in a newline the text without it and a single space;
    otherwise the content itself; all in the merged face. *)
Definition stored_atoms {prim : DisplayPrimitives} (default_face : Face) (a : DisplayAtom)
  : list Atom :=
  let f := merge_faces default_face (atom_face a) in
  if string_empty (content a) then []
  else if ends_with_newline (content a)
       then [mkAtom (string_drop_back (content a)) f; mkAtom " " f]
       else [mkAtom (content a) f].

(** The padding [draw] appends when the cursor ends at column [col]. *)
Definition padding_atoms (w : Window) (default_face : Face) (col : Z) : list Atom :=
  if col <? column (win_size w)
  then [mkAtom (spaces (column (win_size w) - col)) default_face]
  else [].

Definition no_newline (a : Atom) : Prop := string_has newline (text a) = false.

(** The window [w] with its current line replaced. *)
Definition with_line (w : Window) (l : Line) : Window :=
  set_lines w (<[Z.to_nat (line (cursor w)) := l]> (lines w)).

(** A window of one empty line, three columns wide, and one of two empty
    lines, ten columns wide; the cursor is at the origin. *)
Definition narrow_window : Window := mkWindow coord_zero (mkCoord 1 3) coord_zero [[]].

Definition small_window : Window := mkWindow coord_zero (mkCoord 2 10) coord_zero [[]; []].

Definition line_break : string := String newline EmptyString.

(** The menu states reached by [menu_show] (from any display, as
    [check_resize] and the editor call it) and [menu_select]. *)
Inductive menu_reachable {prim : DisplayPrimitives} : Display -> Prop :=
| reach_menu_show d0 new_items anchor fg bg style d :
    menu_show new_items anchor fg bg style d0 = Some d -> menu_reachable d
| reach_menu_select d selected d' :
    menu_reachable d -> menu_select selected d = Some d' -> menu_reachable d'.

(** What [draw_menu] and [menu_select] read of the menu besides its lines. *)
Definition menu_shape (d : Display) : DisplayCoord * list DisplayLine * Z * Z * Z :=
  let m := m_menu d in
  (win_size (menu_win m), items m, columns m, first_item m, selected_item m).

(** The invariant of the menu that bounds the scrollbar mark: the window
    is no higher than the lines the items need, and the first column shown
    leaves room for the columns of the grid. *)
Definition menu_inv (m : Menu) : Prop :=
  let h := line (win_size (menu_win m)) in
  let n := Z.of_nat (length (items m)) in
  0 <= h /\
  (1 <= columns m -> 1 <= h ->
   h <= Z.quot (n - 1) (columns m) + 1 /\
   0 <= first_item m /\
   Z.quot (first_item m) h <= Z.max 0 (Z.quot (n - 1) h + 1 - columns m)).

(** A menu of a hundred items on a terminal of 20 columns. *)
Definition demo_items : list DisplayLine := repeat [atom_of "item"] 100.

Definition demo_display : Display :=
  mkDisplay empty_Window
    (mkMenu empty_Window [] default_Face default_Face coord_zero MenuPrompt 0 0 0)
    (mkInfo empty_Window "" "" coord_zero default_Face InfoPrompt)
    (mkCoord 23 20) false [] false.

(** [u'] is [u] after some of its input has been read: what is left on
    stdin is a suffix of what there was, and nothing but stdin and the
    tracked mouse buttons differs. *)
Definition only_reads (u u' : NCursesUI) : Prop :=
  stdin u' `suffix_of` stdin u /\
  u' = set_stdin (set_m_mouse_state u (m_mouse_state u')) (stdin u').

(** The computation [m], run on [u], has a result and only reads input. *)
Definition reads_at {A} (u : NCursesUI) (m : UI A) : Prop :=
  exists a u', m u = Some (a, u') /\ only_reads u u'.

(** The cell at line [l], column [c] lies in the box of size [sz] whose
    top-left cell is [p] (bounds exclusive at the bottom and the right). *)
Definition in_box (p sz : DisplayCoord) (l c : Z) : Prop :=
  line p <= l < line p + line sz /\ column p <= c < column p + column sz.

(** [w'] is [w] with (at most) the line under its cursor redrawn: position,
    size, number of lines, cursor line and every other line are those of [w]. *)
Definition line_redrawn (w w' : Window) : Prop :=
  win_pos w' = win_pos w /\ win_size w' = win_size w /\
  length (lines w') = length (lines w) /\
  line (cursor w') = line (cursor w) /\
  forall i, i <> line (cursor w) -> at_Z (lines w') i = at_Z (lines w) i.

(** The cursor of the window stands on one of its lines, at a column that
    is not negative. *)
Definition cursor_on_line (w : Window) : Prop :=
  0 <= line (cursor w) < Z.of_nat (length (lines w)) /\ 0 <= column (cursor w).

(** What [clear_line] relies on when it cuts an atom: resizing a text to
    the byte count of [n] of its columns leaves [n] columns. *)
Definition truncation_law {prim : DisplayPrimitives} : Prop :=
  forall s n, 0 <= n <= column_length s ->
    column_length (string_resize s (byte_count_to s n)) = n.

(** A window of one line holding a single atom of ten columns, the cursor
    on column 4. *)
Definition written_window : Window :=
  mkWindow coord_zero (mkCoord 1 10) (mkCoord 0 4) [[mkAtom "0123456789" default_Face]].

(** [d'] is [d] with the menu window repainted: the cursor and the text of
    the lines of the menu window and the dirty flag may differ, nothing
    else. *)
Definition menu_redrawn (d d' : Display) : Prop :=
  exists c ls b,
    length ls = length (lines (menu_win (m_menu d))) /\
    d' = set_m_dirty
           (set_m_menu d
              (set_menu_win (m_menu d)
                 (mkWindow (win_pos (menu_win (m_menu d))) (win_size (menu_win (m_menu d)))
                           c ls))) b.

(** The columns the items [first .. last] of a horizontal menu take, each
    followed by one column of separation. *)
Definition span_width {prim : DisplayPrimitives} (l : list DisplayLine) (first last : Z) : Z :=
  fold_right Z.add 0
    (take (Z.to_nat (last + 1 - first))
          (drop (Z.to_nat first) (map (fun item => DisplayLine_length item + 1) l))).

(** The column width of a string is never negative. *)
Definition column_length_nonneg {prim : DisplayPrimitives} : Prop :=
  forall s, 0 <= column_length s.

(** What the drawing of the menu relies on once its window has a line:
    the window holds as many lines as it is high and is at least two
    columns wide, and the first item shown and the number of grid columns
    are not negative. *)
Definition menu_wf (m : Menu) : Prop :=
  let w := menu_win m in
  1 <= line (win_size w) ->
  length (lines w) = Z.to_nat (line (win_size w)) /\ 2 <= column (win_size w) /\
  0 <= first_item m /\ 0 <= columns m.

(** [d'] is [d] but for the info box and the dirty flag. *)
Definition info_changed (d d' : Display) : Prop :=
  exists i b, d' = set_m_dirty (set_m_info d i) b.

(** ** The main window: draw and draw_status (lines 290-368) *)

Definition on_main_win (f : Window -> option Window) (d : Display) : option Display :=
  w ← f (m_window d);
  Some (set_m_window d w).

Section MainWindow.
Context {prim : DisplayPrimitives}.

(** Modelled from the spec: the conversion of a line to a [DisplayCoord]
    is declared in coord.hh, which is not among the sources; the
    coordinate built from a line alone has column 0. *)
Definition coord_of_line (l : Z) : DisplayCoord := mkCoord l 0.

(** [m_window.move_cursor(line_index); m_window.draw(atoms, face)] *)
Definition draw_row (atoms : list DisplayAtom) (face : Face) (line_index : Z) (d : Display)
  : option Display :=
  on_main_win (fun w => Window_draw atoms face
                          (Window_move_cursor (coord_of_line line_index) w)) d.

(** The loop over the lines of the display buffer; returns the line index
    reached. *)
Fixpoint draw_lines (buffer : list DisplayLine) (default_face : Face) (line_index : Z)
  (d : Display) : option (Z * Display) :=
  match buffer with
  | [] => Some (line_index, d)
  | ln :: rest =>
      d ← draw_row ln default_face line_index d;
      draw_lines rest default_face (line_index + 1) d
  end.

(** The loop [while (line_index < dim.line + line_offset)]; [n] bounds the
    number of iterations. *)
Fixpoint draw_padding (n : nat) (face : Face) (line_index limit : Z) (d : Display)
  : option Display :=
  match n with
  | O => if line_index <? limit then None else Some d
  | S k =>
      if line_index <? limit then
        d ← draw_row [atom_of "~"] face line_index d;
        draw_padding k face (line_index + 1) limit d
      else Some d
  end.

(** [NCursesUI::draw] after its call of [check_resize]. *)
Definition draw_display (display_buffer : list DisplayLine) (default_face padding_face : Face)
  (d : Display) : option Display :=
  let dim := dimensions d in
  let line_offset := content_line_offset d in
  '(line_index, d) ← draw_lines display_buffer default_face line_offset d;
  let face := merge_faces default_face padding_face in
  d ← draw_padding (Z.to_nat (line dim + line_offset - line_index)) face line_index
        (line dim + line_offset) d;
  Some (set_m_dirty d true).

(** [check_resize()] is called without an argument here as in
    [get_next_key]: not forced. *)
Definition draw (display_buffer : list DisplayLine) (default_face padding_face : Face)
  : UI unit :=
  run check_resize false;
  on_display (draw_display display_buffer default_face padding_face).

(** [NCursesUI::draw_status]; the title it may write goes to stdout only,
    and [m_status_len] is read by the redraw only. *)
Definition draw_status (status_line mode_line : DisplayLine) (default_face : Face)
  (d : Display) : option Display :=
  let status_line_pos := if m_status_on_top d then 0 else line (m_dimensions d) in
  d ← draw_row status_line default_face status_line_pos d;
  let mode_len := DisplayLine_length mode_line in
  let remaining := column (m_dimensions d) - DisplayLine_length status_line in
  d ← (if mode_len <? remaining then
         let col := column (m_dimensions d) - mode_len in
         on_main_win (fun w => Window_draw mode_line default_face
                                 (Window_move_cursor (mkCoord status_line_pos col) w)) d
       else if remaining >? 2 then
         let trimmed_mode_line :=
           atom_of "…" :: trim mode_line (mode_len + 2 - remaining) (remaining - 2) in
         let col := column (m_dimensions d) - remaining + 1 in
         on_main_win (fun w => Window_draw trimmed_mode_line default_face
                                 (Window_move_cursor (mkCoord status_line_pos col) w)) d
       else Some d);
  Some (set_m_dirty d true).

(** The line [draw] stores for the atoms [atoms] drawn from column 0 of a
    line of [w]: the atoms as stored, and the padding to the width of the
    window. *)
Definition drawn_row (w : Window) (face : Face) (atoms : list DisplayAtom) : Line :=
  flat_map (stored_atoms face) atoms ++ padding_atoms w face (DisplayLine_length atoms).

(** The row [NCursesUI::draw] paints at line [k] of the content area. *)
Definition painted_row (w : Window) (default_face padding_face : Face)
  (display_buffer : list DisplayLine) (k : nat) : Line :=
  match display_buffer !! k with
  | Some ln => drawn_row w default_face ln
  | None => drawn_row w (merge_faces default_face padding_face) [atom_of "~"]
  end.

End MainWindow.

(** The line of the main window that holds the status. *)
Definition status_row (d : Display) : Z :=
  if m_status_on_top d then 0 else line (m_dimensions d).

(** The main window holds one line per row of the content area and one
    for the status, as [check_resize] builds it. *)
Definition main_window_ok (d : Display) : Prop :=
  0 <= line (m_dimensions d) /\
  length (lines (m_window d)) = Z.to_nat (line (m_dimensions d) + 1).

(** The UIs and displays the instances below run on: a UI that has been
    hung up, one with the flag of SIGWINCH raised, and a display with the
    main window of an 80x24 terminal, as [check_resize] builds it. *)
Definition hung_up_ui (input : list Z) : NCursesUI :=
  mkUI blank_display false 0 true 3 true false true input (Some (24, 80))
       installed_handlers [].

Definition resized_ui (input : list Z) : NCursesUI :=
  mkUI blank_display false 0 true 3 true true false input (Some (24, 80))
       installed_handlers [].

Definition ready_display : Display :=
  mkDisplay (mkWindow coord_zero (mkCoord 24 80) coord_zero (replicate 24 []))
    (mkMenu empty_Window [] default_Face default_Face coord_zero MenuPrompt 0 0 0)
    (mkInfo empty_Window "" "" coord_zero default_Face InfoPrompt)
    (mkCoord 23 80) false [] false.

Definition ready_ui (input : list Z) : NCursesUI :=
  mkUI ready_display false 0 true 3 true false false input (Some (24, 80))
       installed_handlers [].

(** ** The input decoder *)

Section DecoderFacts.
Context {prim : DisplayPrimitives}.

Lemma get_next_key_idle (u : NCursesUI) :
  idle u -> get_next_key u = read_key u.
Proof.
  intros (Hs & Hr & Hm).
  unfold get_next_key, check_resize, bind, get_ui, ret.
  rewrite Hs, Hr. cbn. rewrite Hm. reflexivity.
Qed.

Lemma idle_set_stdin (u : NCursesUI) (l : list Z) : idle u -> idle (set_stdin u l).
Proof. intros H; exact H. Qed.

Lemma idle_set_m_mouse_state (u : NCursesUI) (z : Z) :
  idle u -> idle (set_m_mouse_state u z).
Proof. intros H; exact H. Qed.

(** *** The parameter loop *)

Lemma wrap_int_small (z : Z) : -2147483648 <= z < 2147483648 -> wrap_int z = z.
Proof. intros H. unfold wrap_int. rewrite Z.mod_small; lia. Qed.

Lemma to_Codepoint_small (z : Z) : 0 <= z < 4294967296 -> to_Codepoint z = z.
Proof. intros H. unfold to_Codepoint. apply Z.mod_small; lia. Qed.

Lemma isdigit_range (c : Z) : isdigit c = true <-> 48 <= c <= 57.
Proof. unfold isdigit. lia. Qed.

Lemma scan_from_nil (count : nat) (params : list Z) :
  scan_from [] count params = scanned params 255 [].
Proof. reflexivity. Qed.

Lemma scan_params_unfold (input : list Z) (count : nat) (params : list Z) (c : Z) :
  scan_params input count params c =
  if (count <? 16)%nat && (48 <=? c) && (c <=? 63) then
    if isdigit c
    then scan_from input count
           (<[count := wrap_int (param params count * 10 + c - char_digit0)]> params)
    else if c =? 59 then scan_from input (S count) params
    else abandoned input
  else scanned params c input.
Proof.
  destruct input; cbn [scan_params scan_from];
    destruct ((count <? 16)%nat && (48 <=? c) && (c <=? 63)); try reflexivity;
    destruct (isdigit c); try reflexivity; destruct (c =? 59); reflexivity.
Qed.

Lemma scan_guard (count : nat) (c : Z) :
  (count <? 16)%nat && (48 <=? c) && (c <=? 63) =
  if decide ((count < 16)%nat /\ 48 <= c <= 63) then true else false.
Proof.
  destruct (decide _) as [H|H].
  - destruct H as (H1 & H2 & H3).
    apply Nat.ltb_lt in H1. apply Z.leb_le in H2, H3. by rewrite H1, H2, H3.
  - destruct (Nat.ltb_spec count 16); [|reflexivity].
    destruct (Z.leb_spec 48 c); [|reflexivity].
    destruct (Z.leb_spec c 63); [|reflexivity]. exfalso. apply H. lia.
Qed.

Lemma scan_from_digit (d : Z) (l : list Z) (count : nat) (params : list Z) :
  isdigit d = true -> (count < 16)%nat ->
  scan_from (d :: l) count params =
  scan_from l count (<[count := wrap_int (param params count * 10 + d - char_digit0)]> params).
Proof.
  intros Hd Hc. cbn [scan_from]. rewrite scan_params_unfold, Hd.
  apply isdigit_range in Hd. rewrite scan_guard.
  destruct (decide _); [reflexivity | lia].
Qed.

Lemma scan_from_semicolon (l : list Z) (count : nat) (params : list Z) :
  (count < 16)%nat ->
  scan_from (59 :: l) count params = scan_from l (S count) params.
Proof.
  intros Hc. cbn [scan_from]. rewrite scan_params_unfold.
  rewrite scan_guard. destruct (decide _); [reflexivity | lia].
Qed.

Lemma scan_from_final (c : Z) (l : list Z) (count : nat) (params : list Z) :
  c < 48 \/ 63 < c ->
  scan_from (c :: l) count params = scanned params c l.
Proof.
  intros Hc. cbn [scan_from]. rewrite scan_params_unfold.
  rewrite scan_guard. destruct (decide _); [lia | reflexivity].
Qed.

Lemma scan_from_bad (c : Z) (l : list Z) (count : nat) (params : list Z) :
  (count < 16)%nat -> c = 58 \/ 60 <= c <= 63 ->
  scan_from (c :: l) count params = abandoned l.
Proof.
  intros Hn Hc. cbn [scan_from]. rewrite scan_params_unfold.
  rewrite scan_guard. destruct (decide _); [|lia].
  replace (isdigit c) with false by (unfold isdigit; lia).
  replace (c =? 59) with false by lia. reflexivity.
Qed.

Lemma param_insert (params : list Z) (i : nat) (v : Z) :
  (i < length params)%nat -> param (<[i := v]> params) i = v.
Proof.
  intros H. unfold param. 
  rewrite (nth_lookup_Some _ _ _ v); [reflexivity|]. by apply list_lookup_insert_eq.
Qed.

Lemma insert_param_id (params : list Z) (i : nat) :
  <[i := param params i]> params = params.
Proof.
  apply list_insert_id'. intros H. unfold param.
  destruct (nth_lookup_or_length params i 0) as [E|E]; [exact E | lia].
Qed.

Lemma scan_from_digits (ds l : list Z) (count : nat) (params : list Z) :
  Forall (fun d => isdigit d = true) ds -> (count < 16)%nat -> length params = 16%nat ->
  scan_from (ds ++ l) count params =
  scan_from l count (<[count := accum (param params count) ds]> params).
Proof.
  intros Hds Hc. revert params.
  induction Hds as [|d ds Hd Hds IH]; intros params Hlen; cbn [app].
  - cbn. by rewrite insert_param_id.
  - rewrite scan_from_digit by assumption.
    rewrite IH by (by rewrite length_insert).
    rewrite param_insert by lia. by rewrite list_insert_insert_eq.
Qed.

Lemma dec_from_ge (ds : list Z) (v : Z) :
  Forall (fun d => isdigit d = true) ds -> 0 <= v ->
  v <= fold_left (fun v d => v * 10 + (d - 48)) ds v.
Proof.
  intros Hds. revert v. induction Hds as [|d ds Hd Hds IH]; intros v Hv; cbn.
  - lia.
  - apply isdigit_range in Hd. etransitivity; [|apply IH]; lia.
Qed.

Lemma accum_exact (ds : list Z) (v : Z) :
  Forall (fun d => isdigit d = true) ds -> 0 <= v ->
  fold_left (fun v d => v * 10 + (d - 48)) ds v < 2147483648 ->
  accum v ds = fold_left (fun v d => v * 10 + (d - 48)) ds v.
Proof.
  intros Hds. revert v. induction Hds as [|d ds Hd Hds IH]; intros v Hv Hlt; cbn.
  - reflexivity.
  - cbn in Hlt. pose proof (isdigit_range d) as [Hr _]. specialize (Hr Hd).
    assert (Hge := dec_from_ge ds (v * 10 + (d - 48)) Hds ltac:(lia)).
    unfold accum in *. cbn. unfold char_digit0.
    rewrite wrap_int_small by lia.
    replace (v * 10 + d - 48) with (v * 10 + (d - 48)) by lia.
    apply IH; lia.
Qed.

Lemma accum_dec_value (ds : list Z) :
  Forall (fun d => isdigit d = true) ds -> dec_value ds < 2147483648 ->
  accum 0 ds = dec_value ds.
Proof. intros Hds Hlt. apply accum_exact; [assumption | lia | exact Hlt]. Qed.

Lemma digits_fuel_isdigit (f : nat) (n : Z) (acc : list Z) :
  0 <= n -> Forall (fun d => isdigit d = true) acc ->
  Forall (fun d => isdigit d = true) (digits_fuel f n acc).
Proof.
  revert n acc. induction f as [|f IH]; intros n acc Hn Hacc; cbn; [assumption|].
  assert (Hd : isdigit (48 + n mod 10) = true).
  { apply isdigit_range. pose proof (Z.mod_pos_bound n 10). lia. }
  destruct (n / 10 =? 0).
  - by constructor.
  - apply IH; [apply Z.div_pos; lia | by constructor].
Qed.

Lemma digits_fuel_value (f : nat) (n : Z) (acc : list Z) :
  0 <= n -> (Z.to_nat n < f)%nat ->
  fold_left (fun v d => v * 10 + (d - 48)) (digits_fuel f n acc) 0 =
  fold_left (fun v d => v * 10 + (d - 48)) acc n.
Proof.
  revert n acc. induction f as [|f IH]; intros n acc Hn Hf; [lia|]. cbn [digits_fuel].
  pose proof (Z.div_mod n 10 ltac:(lia)) as Hdm.
  pose proof (Z.mod_pos_bound n 10 ltac:(lia)) as Hmod.
  destruct (Z.eqb_spec (n / 10) 0) as [E|E].
  - cbn. f_equal. lia.
  - assert (0 < n / 10) by (pose proof (Z.div_pos n 10); lia).
    rewrite IH by lia. cbn. f_equal. lia.
Qed.

Lemma digits_of_isdigit (n : Z) :
  0 <= n -> Forall (fun d => isdigit d = true) (digits_of n).
Proof. intros Hn. apply digits_fuel_isdigit; [assumption | constructor]. Qed.

Lemma digits_of_value (n : Z) : 0 <= n -> dec_value (digits_of n) = n.
Proof. intros Hn. unfold dec_value, digits_of. rewrite digits_fuel_value by lia. reflexivity. Qed.

Lemma scan_from_number (n : Z) (l : list Z) (count : nat) (params : list Z) :
  0 <= n < 2147483648 -> (count < 16)%nat -> length params = 16%nat ->
  param params count = 0 ->
  scan_from (digits_of n ++ l) count params = scan_from l count (<[count := n]> params).
Proof.
  intros Hn Hc Hlen Hp.
  rewrite scan_from_digits by (try apply digits_of_isdigit; lia).
  rewrite Hp, accum_dec_value; rewrite ?digits_of_value; try apply digits_of_isdigit; try lia.
  reflexivity.
Qed.

(** *** CSI sequences *)

Lemma parse_csi_plain (u : NCursesUI) :
  match stdin u with c :: _ => is_private_mode c = false | [] => True end ->
  parse_csi u = csi_after_scan 0 (stdin u) u.
Proof.
  intros H. unfold parse_csi, csi_after_scan, next_char, get_char, ret, get_ui, modify, bind.
  destruct (stdin u) as [|c body] eqn:E; cbn.
  - rewrite E. reflexivity.
  - rewrite H. cbn.
    destruct (scan_params body 0 _ c) as [params c' rest|rest]; cbn; [|reflexivity].
    destruct ((c' <? 64) || (c' >? 126)); reflexivity.
Qed.

Lemma parse_csi_private (u : NCursesUI) (p : Z) (body : list Z) :
  stdin u = p :: body -> is_private_mode p = true ->
  parse_csi u = csi_after_scan p body u.
Proof.
  intros E H. unfold parse_csi, csi_after_scan, next_char, get_char, ret, get_ui, modify, bind.
  rewrite E. cbn. rewrite H. cbn.
  destruct body as [|c body]; cbn.
  - reflexivity.
  - destruct (scan_params body 0 _ c) as [params c' rest|rest]; cbn; [|reflexivity].
    destruct ((c' <? 64) || (c' >? 126)); reflexivity.
Qed.

Lemma read_key_csi (u : NCursesUI) (body : list Z) :
  stdin u = 27 :: 91 :: body ->
  read_key u =
  match parse_csi (set_stdin u body) with
  | Some (k, u') => Some (Some (value_or k (alt (key_of_codepoint 91))), u')
  | None => None
  end.
Proof.
  intros E. unfold read_key, get_char, ret, bind. rewrite E. cbn.
  destruct (parse_csi _) as [[k u']|]; reflexivity.
Qed.

Lemma read_key_ss3 (u : NCursesUI) (body : list Z) :
  stdin u = 27 :: 79 :: body ->
  read_key u =
  match parse_ss3 (set_stdin u body) with
  | Some (k, u') => Some (Some (value_or k (alt (key_of_codepoint 79))), u')
  | None => None
  end.
Proof.
  intros E. unfold read_key, get_char, ret, bind. rewrite E. cbn.
  destruct (parse_ss3 _) as [[k u']|]; reflexivity.
Qed.

Lemma land_pow2 (a k : Z) :
  0 <= k -> Z.land a (2 ^ k) = if Z.testbit a k then 2 ^ k else 0.
Proof.
  intros Hk. apply Z.bits_inj'. intros n Hn.
  rewrite Z.land_spec, Z.pow2_bits_eqb by lia.
  destruct (Z.eqb_spec k n) as [->|Hne].
  - destruct (Z.testbit a n) eqn:E; cbn.
    + rewrite Z.pow2_bits_eqb by lia. by rewrite Z.eqb_refl.
    + by rewrite Z.bits_0.
  - rewrite andb_false_r. destruct (Z.testbit a k).
    + rewrite Z.pow2_bits_eqb by lia. symmetry. by apply Z.eqb_neq.
    + by rewrite Z.bits_0.
Qed.

Lemma land_bit (a k : Z) :
  0 <= k -> (Z.land a (2 ^ k) =? 0) = negb (Z.testbit a k).
Proof.
  intros Hk. rewrite land_pow2 by assumption.
  destruct (Z.testbit a k); cbn; [|reflexivity].
  apply Z.eqb_neq. pose proof (Z.pow_pos_nonneg 2 k). lia.
Qed.

Lemma parse_mask_modifier_set (mask : Z) : parse_mask mask = modifier_set mask.
Proof.
  unfold parse_mask, modifier_set.
  pose proof (land_bit mask 0 ltac:(lia)) as H0. change (2 ^ 0) with 1 in H0.
  pose proof (land_bit mask 1 ltac:(lia)) as H1. change (2 ^ 1) with 2 in H1.
  pose proof (land_bit mask 2 ltac:(lia)) as H2. change (2 ^ 2) with 4 in H2.
  rewrite H0, H1, H2, !negb_involutive.
  destruct (Z.testbit mask 0), (Z.testbit mask 1), (Z.testbit mask 2); reflexivity.
Qed.

Lemma cursor_final_cases (c : Z) (k : NamedKey) :
  cursor_final c = Some k ->
  In (c, k) [(65, Key_Up); (66, Key_Down); (67, Key_Right); (68, Key_Left);
             (70, Key_End); (72, Key_Home); (80, Key_F1); (81, Key_F2);
             (82, Key_F3); (83, Key_F4)].
Proof.
  intros H. destruct c as [|p|p]; try discriminate.
  do 7 (destruct p as [p|p|]; try discriminate);
    cbn in H; inversion H; subst; cbn; tauto.
Qed.

Lemma csi_cursor_key (u : NCursesUI) (ds0 ds1 : list Z) (final : Z) (k : NamedKey)
  (rest : list Z) :
  idle u ->
  Forall (fun d => isdigit d = true) ds0 -> Forall (fun d => isdigit d = true) ds1 ->
  dec_value ds0 < 2147483648 -> dec_value ds1 < 2147483648 ->
  cursor_final final = Some k ->
  stdin u = 27 :: 91 :: ds0 ++ 59 :: ds1 ++ final :: rest ->
  get_next_key u =
  Some (Some (mkKey (modifier_set (Z.max (dec_value ds1 - 1) 0)) (Named k)),
        set_stdin u rest).
Proof.
  intros Hu H0 H1 Hv0 Hv1 Hk E.
  rewrite get_next_key_idle by assumption.
  rewrite (read_key_csi u _ E).
  rewrite parse_csi_plain.
  2:{ cbn. destruct H0 as [|d ds0 Hd _]; cbn; [reflexivity|].
      apply isdigit_range in Hd. unfold is_private_mode.
      repeat (rewrite (proj2 (Z.eqb_neq _ _)) by lia). reflexivity. }
  unfold csi_after_scan. cbn [stdin set_stdin].
  rewrite scan_from_digits by (assumption || lia || reflexivity).
  rewrite scan_from_semicolon by lia.
  rewrite scan_from_digits by (assumption || lia || reflexivity).
  rewrite accum_dec_value by assumption.
  change (param zero_params 0) with 0. 
  rewrite accum_dec_value by assumption.
  assert (Hge : 0 <= dec_value ds1) by (apply (dec_from_ge ds1 0); [assumption | lia]).
  apply cursor_final_cases in Hk. cbn in Hk.
  repeat (destruct Hk as [Hk|Hk]; [inversion Hk; subst; clear Hk|]); try contradiction;
    (rewrite scan_from_final by lia); cbn -[wrap_int Z.max modifier_set parse_mask];
    unfold ret, masked_key; cbn -[wrap_int Z.max modifier_set parse_mask];
    rewrite parse_mask_modifier_set, wrap_int_small by lia; reflexivity.
Qed.

(** *** Modifier decoding *)

Lemma modifier_set_bits (m : Z) (c : Code) :
  has_mod Mod_Shift (mkKey (modifier_set m) c) = Z.testbit m 0 /\
  has_mod Mod_Alt (mkKey (modifier_set m) c) = Z.testbit m 1 /\
  has_mod Mod_Control (mkKey (modifier_set m) c) = Z.testbit m 2 /\
  Z.land (modifier_set m) (Z.lnot (Z.lor Mod_Shift (Z.lor Mod_Alt Mod_Control))) = 0.
Proof.
  unfold has_mod, modifier_set. cbn [modifiers].
  destruct (Z.testbit m 0), (Z.testbit m 1), (Z.testbit m 2); repeat split; reflexivity.
Qed.

(** C1. For every modifier mask [m] in 0..7 the bytes [CSI 1 ; m+1 A] make
    [get_next_key] return Up with exactly the modifiers Shift if [m & 1],
    Alt if [m & 2], Control if [m & 4]; in general a CSI key with final
    byte A-D, F, H or P-S carries the modifiers of the mask
    [max(params[1] - 1, 0)], where [params[1]] is the second decimal
    parameter of the sequence, and every key built by [masked_key] takes its
    modifiers from that mask, bit 1 being Shift, bit 2 Alt and bit 4
    Control. *)
Theorem csi_modifier_decoding (u : NCursesUI) (Hu : idle u) (m : Z) (Hm : 0 <= m <= 7) :
  (forall rest,
      stdin u = [27; 91; 49; 59; 48 + (m + 1); 65] ++ rest ->
      exists k,
        get_next_key u = Some (Some k, set_stdin u rest) /\
        key k = Named Key_Up /\
        modifiers k = modifier_set m /\
        has_mod Mod_Shift k = Z.testbit m 0 /\
        has_mod Mod_Alt k = Z.testbit m 1 /\
        has_mod Mod_Control k = Z.testbit m 2 /\
        Z.land (modifiers k) (Z.lnot (Z.lor Mod_Shift (Z.lor Mod_Alt Mod_Control))) = 0) /\
  (forall ds0 ds1 final named rest,
      Forall (fun d => isdigit d = true) ds0 -> Forall (fun d => isdigit d = true) ds1 ->
      dec_value ds0 < 2147483648 -> dec_value ds1 < 2147483648 ->
      cursor_final final = Some named ->
      stdin u = 27 :: 91 :: ds0 ++ 59 :: ds1 ++ final :: rest ->
      get_next_key u =
      Some (Some (mkKey (parse_mask (Z.max (dec_value ds1 - 1) 0)) (Named named)),
            set_stdin u rest) /\
      parse_mask (Z.max (dec_value ds1 - 1) 0) = modifier_set (Z.max (dec_value ds1 - 1) 0)) /\
  (forall params code,
      modifiers (masked_key params code) =
      modifier_set (Z.max (wrap_int (param params 1 - 1)) 0)).
Proof.
  split; [|split].
  - intros rest E.
    exists (mkKey (modifier_set m) (Named Key_Up)).
    pose proof (modifier_set_bits m (Named Key_Up)) as (Hs & Ha & Hc & Hn).
    split; [|repeat split; assumption].
    rewrite (csi_cursor_key u [49] [48 + (m + 1)] 65 Key_Up rest); try assumption.
    + assert (Hd : dec_value [48 + (m + 1)] = m + 1) by (unfold dec_value; cbn; lia).
      rewrite Hd. replace (Z.max (m + 1 - 1) 0) with m by lia. reflexivity.
    + repeat constructor.
    + repeat constructor. apply isdigit_range. lia.
    + unfold dec_value; cbn; lia.
    + unfold dec_value; cbn; lia.
    + reflexivity.
  - intros ds0 ds1 final named rest H0 H1 Hv0 Hv1 Hk E.
    rewrite parse_mask_modifier_set. split; [|reflexivity].
    apply (csi_cursor_key u ds0 ds1 final named rest); assumption.
  - intros params code. unfold masked_key. cbn [modifiers].
    apply parse_mask_modifier_set.
Qed.

(** *** SGR mouse reports *)

(** An SGR report with button code [b], [b & 0x43 = 0], is handed to
    [mouse_button] for the left button at [(y - 1 - offset, x - 1)]. *)
Lemma sgr_mouse_left (u : NCursesUI) (b x y final : Z) (rest : list Z) :
  idle u ->
  0 <= b < 2147483648 -> 0 <= x < 2147483648 -> 0 <= y < 2147483648 ->
  Z.land b 67 = 0 -> final = 77 \/ final = 109 ->
  stdin u = sgr_mouse b x y final ++ rest ->
  get_next_key u =
  match mouse_button (parse_mask (Z.land (Z.shiftr b 2) 7))
          (encode_coord (mkCoord (y - 1 - content_line_offset (display u)) (x - 1)))
          true (final =? 109) (set_stdin u rest) with
  | Some (k, u') => Some (Some k, u')
  | None => None
  end.
Proof.
  intros Hu Hb Hx Hy Hland Hfin E.
  rewrite get_next_key_idle by assumption.
  unfold sgr_mouse in E. rewrite <- !app_assoc in E. cbn [app] in E.
  rewrite (read_key_csi u _ E).
  erewrite parse_csi_private; [| cbn [stdin set_stdin]; reflexivity | reflexivity].
  unfold csi_after_scan.
  rewrite scan_from_number by (lia || reflexivity).
  rewrite scan_from_semicolon by lia.
  rewrite scan_from_number by (lia || reflexivity).
  rewrite scan_from_semicolon by lia.
  rewrite scan_from_number by (lia || reflexivity).
  rewrite scan_from_final by lia.
  replace ((final <? 64) || (final >? 126)) with false by lia.
  assert (Hd : csi_dispatch 60 (<[2%nat:=y]> (<[1%nat:=x]> (<[0%nat:=b]> zero_params))) final
               (set_stdin (set_stdin u (60 :: digits_of b ++ 59 :: digits_of x ++ 59 :: digits_of y ++ final :: rest)) rest) =
          match mouse_button (parse_mask (Z.land (Z.shiftr b 2) 7))
          (encode_coord (mkCoord (y - 1 - content_line_offset (display u)) (x - 1)))
          true (final =? 109) (set_stdin u rest) with
  | Some (k, u') => Some (Some k, u')
  | None => None
  end).
  { destruct Hfin; subst final; cbn -[wrap_int to_Codepoint parse_mask Z.land Z.shiftr mouse_button];
    unfold bind, ret, get_ui; cbn -[wrap_int to_Codepoint parse_mask Z.land Z.shiftr mouse_button];
    rewrite !wrap_int_small, to_Codepoint_small by lia; rewrite Hland;
    cbn -[wrap_int to_Codepoint parse_mask Z.land Z.shiftr mouse_button];
    reflexivity. }
  rewrite Hd. destruct (mouse_button _ _ _ _ _) as [[k u']|]; reflexivity.
Qed.

Lemma lor_1_tracked (s : Z) : Z.land s 1 <> 0 -> Z.lor s 1 = s.
Proof.
  intros H. pose proof (land_pow2 s 0 ltac:(lia)) as H0. change (2 ^ 0) with 1 in H0.
  destruct (Z.testbit s 0) eqn:E; [|congruence].
  apply Z.bits_inj'. intros n Hn. rewrite Z.lor_spec.
  destruct (Z.eqb_spec n 0) as [->|Hne].
  - by rewrite E.
  - change 1 with (2 ^ 0). rewrite Z.pow2_bits_eqb by lia.
    replace (0 =? n) with false by lia. by rewrite orb_false_r.
Qed.

Lemma land_lor_1 (s : Z) : Z.land (Z.lor s 1) 1 = 1.
Proof.
  pose proof (land_pow2 (Z.lor s 1) 0 ltac:(lia)) as H0. change (2 ^ 0) with 1 in H0.
  rewrite H0, Z.lor_spec. change (Z.testbit 1 0) with true. by rewrite orb_true_r.
Qed.

Lemma land_lnot_1 (s : Z) : Z.land (Z.land s (Z.lnot 1)) 1 = 0.
Proof.
  rewrite <- Z.land_assoc. change (Z.land (Z.lnot 1) 1) with 0. apply Z.land_0_r.
Qed.

Lemma sgr_press_untracked (u : NCursesUI) (b x y : Z) (rest : list Z) :
  idle u -> sgr_report_ok (b, x, y) -> Z.land (m_mouse_state u) 1 = 0 ->
  stdin u = sgr_mouse b x y 77 ++ rest ->
  get_next_key u =
  Some (Some (mouse_key u Mod_MousePressLeft b x y),
        set_m_mouse_state (set_stdin u rest) (Z.lor (m_mouse_state u) 1)).
Proof.
  intros Hu (Hb & Hx & Hy & Hl) Hs E.
  rewrite (sgr_mouse_left u b x y 77 rest) by (assumption || (left; reflexivity)).
  unfold mouse_button, bind, get_ui, modify, ret, mouse_key. cbn [negb Z.eqb].
  cbn [m_mouse_state set_stdin]. rewrite Hs. cbn [Z.eqb negb].
  by rewrite parse_mask_modifier_set.
Qed.

Lemma sgr_press_tracked (u : NCursesUI) (b x y : Z) (rest : list Z) :
  idle u -> sgr_report_ok (b, x, y) -> Z.land (m_mouse_state u) 1 <> 0 ->
  stdin u = sgr_mouse b x y 77 ++ rest ->
  get_next_key u = Some (Some (mouse_key u Mod_MousePos b x y), set_stdin u rest).
Proof.
  intros Hu (Hb & Hx & Hy & Hl) Hs E.
  rewrite (sgr_mouse_left u b x y 77 rest) by (assumption || (left; reflexivity)).
  unfold mouse_button, bind, get_ui, modify, ret, mouse_key. cbn [negb Z.eqb].
  cbn [m_mouse_state set_stdin].
  apply Z.eqb_neq in Hs. rewrite Hs. cbn [negb].
  rewrite parse_mask_modifier_set. do 2 f_equal.
  unfold set_m_mouse_state, set_stdin. cbn.
  apply Z.eqb_neq in Hs. by rewrite lor_1_tracked.
Qed.

Lemma sgr_release (u : NCursesUI) (b x y : Z) (rest : list Z) :
  idle u -> sgr_report_ok (b, x, y) ->
  stdin u = sgr_mouse b x y 109 ++ rest ->
  get_next_key u =
  Some (Some (mouse_key u Mod_MouseReleaseLeft b x y),
        set_m_mouse_state (set_stdin u rest) (Z.land (m_mouse_state u) (Z.lnot 1))).
Proof.
  intros Hu (Hb & Hx & Hy & Hl) E.
  rewrite (sgr_mouse_left u b x y 109 rest) by (assumption || (right; reflexivity)).
  unfold mouse_button, bind, get_ui, modify, ret, mouse_key. cbn [negb Z.eqb].
  by rewrite parse_mask_modifier_set.
Qed.

Lemma on_stdin_readable_step (n : nat) (u u' : NCursesUI) (k : Key) :
  get_next_key u = Some (Some k, u') ->
  on_stdin_readable (S n) u =
  match on_stdin_readable n u' with
  | Some (ks, u'') => Some (k :: ks, u'')
  | None => None
  end.
Proof.
  intros H. cbn [on_stdin_readable]. unfold bind at 1. rewrite H.
  unfold bind, ret. destruct (on_stdin_readable n u') as [[ks u'']|]; reflexivity.
Qed.

Lemma drain_presses_tracked (l : list (Z * Z * Z)) (n : nat) (u : NCursesUI)
  (rest : list Z) :
  idle u -> Forall sgr_report_ok l -> Z.land (m_mouse_state u) 1 <> 0 ->
  stdin u = sgr_presses l ++ rest ->
  on_stdin_readable (length l + n) u =
  match on_stdin_readable n (set_stdin u rest) with
  | Some (ks, u') =>
      Some (map (fun '(b, x, y) => mouse_key u Mod_MousePos b x y) l ++ ks, u')
  | None => None
  end.
Proof.
  intros Hu Hl. revert u Hu. induction Hl as [|[[b x] y] l Hr Hl IH]; intros u Hu Hs E.
  - cbn in *. replace (set_stdin u rest) with u.
    + destruct (on_stdin_readable n u) as [[ks u']|]; reflexivity.
    + destruct u; cbn in *; by subst.
  - cbn [sgr_presses flat_map] in E. rewrite <- app_assoc in E.
    cbn [length Nat.add].
    rewrite (on_stdin_readable_step _ u _ _ (sgr_press_tracked u b x y _ Hu Hr Hs E)).
    rewrite IH; [| exact Hu | exact Hs | reflexivity].
    cbn [set_stdin stdin map]. 
    destruct (on_stdin_readable n _) as [[ks u']|]; reflexivity.
Qed.

(** C2. An SGR report [CSI < b ; x ; y M] with [b & 0x43 = 0] yields
    MousePressLeft at [(y - 1 - content_line_offset, x - 1)]; while the left
    button is tracked as pressed every further such report yields MousePos;
    the report with the same [b] and final byte [m] yields MouseReleaseLeft
    at the coordinate of the press. *)
Theorem sgr_mouse_round_trip (u : NCursesUI) (b x y : Z) (drags : list (Z * Z * Z))
  (rest : list Z)
  (Hu : idle u) (Hr : sgr_report_ok (b, x, y)) (Hd : Forall sgr_report_ok drags)
  (Hs : Z.land (m_mouse_state u) 1 = 0)
  (E : stdin u = sgr_mouse b x y 77 ++ sgr_presses drags ++ sgr_mouse b x y 109 ++ rest) :
  exists u',
    on_stdin_readable (S (length drags + 1)) u =
      Some (mouse_key u Mod_MousePressLeft b x y ::
            map (fun '(b', x', y') => mouse_key u Mod_MousePos b' x' y') drags ++
            [mouse_key u Mod_MouseReleaseLeft b x y], u') /\
    stdin u' = rest /\ Z.land (m_mouse_state u') 1 = 0 /\
    has_mod Mod_MousePressLeft (mouse_key u Mod_MousePressLeft b x y) = true /\
    has_mod Mod_MouseReleaseLeft (mouse_key u Mod_MouseReleaseLeft b x y) = true /\
    Forall (fun k => has_mod Mod_MousePos k = true /\ has_mod Mod_MousePressLeft k = false)
           (map (fun '(b', x', y') => mouse_key u Mod_MousePos b' x' y') drags).
Proof.
  set (u1 := set_m_mouse_state (set_stdin u (sgr_presses drags ++ sgr_mouse b x y 109 ++ rest))
                               (Z.lor (m_mouse_state u) 1)).
  set (u2 := set_stdin u1 (sgr_mouse b x y 109 ++ rest)).
  exists (set_m_mouse_state (set_stdin u2 rest) (Z.land (m_mouse_state u2) (Z.lnot 1))).
  split; [|split; [reflexivity|split; [apply land_lnot_1|]]].
  - rewrite (on_stdin_readable_step _ u u1 _ (sgr_press_untracked u b x y _ Hu Hr Hs E)).
    rewrite (drain_presses_tracked drags 1 u1 (sgr_mouse b x y 109 ++ rest));
      [| exact Hu | exact Hd | | reflexivity].
    2:{ cbn [u1 m_mouse_state set_m_mouse_state]. rewrite land_lor_1. lia. }
    fold u2.
    rewrite (on_stdin_readable_step 0 u2 _ _ (sgr_release u2 b x y rest Hu Hr eq_refl)).
    reflexivity.
  - destruct Hr as (_ & _ & _ & _).
    unfold has_mod, mouse_key, modifier_set. cbn [modifiers].
    split; [|split].
    + destruct (Z.testbit _ 0), (Z.testbit _ 1), (Z.testbit _ 2); reflexivity.
    + destruct (Z.testbit _ 0), (Z.testbit _ 1), (Z.testbit _ 2); reflexivity.
    + apply Forall_map. apply Forall_forall. intros [[b' x'] y'] _. cbn [modifiers].
      destruct (Z.testbit _ 0), (Z.testbit _ 1), (Z.testbit _ 2); split; reflexivity.
Qed.

(** *** X10 mouse reports *)

Lemma param_byte_not_private (c : Z) : param_byte c -> is_private_mode c = false.
Proof.
  intros [H| ->]; [|reflexivity]. apply isdigit_range in H. unfold is_private_mode.
  repeat (rewrite (proj2 (Z.eqb_neq _ _)) by lia). reflexivity.
Qed.

Lemma scan_from_param_text (l : list Z) :
  Forall param_byte l ->
  forall (count : nat) (params : list Z),
    (count + semicolons l < 16)%nat -> length params = 16%nat ->
    exists params', length params' = 16%nat /\
      forall rest, scan_from (l ++ rest) count params =
                   scan_from rest (count + semicolons l) params'.
Proof.
  induction 1 as [|c l Hc Hl IH]; intros count params Hn Hlen.
  - exists params. split; [assumption|]. intros rest. cbn. by rewrite Nat.add_0_r.
  - unfold semicolons in *. destruct Hc as [Hd| ->].
    + assert (c <> 59) by (apply isdigit_range in Hd; lia).
      rewrite count_occ_cons_neq in * by assumption.
      destruct (IH count (<[count := wrap_int (param params count * 10 + c - char_digit0)]> params))
        as (params' & Hlen' & Hscan); [lia | by rewrite length_insert |].
      exists params'. split; [assumption|]. intros rest.
      cbn [app]. rewrite scan_from_digit by (assumption || lia). apply Hscan.
    + rewrite count_occ_cons_eq in * by reflexivity.
      destruct (IH (S count) params) as (params' & Hlen' & Hscan); [lia | assumption |].
      exists params'. split; [assumption|]. intros rest.
      cbn [app]. rewrite scan_from_semicolon by lia.
      rewrite Hscan. f_equal. lia.
Qed.

Lemma land_to_Codepoint (z : Z) : Z.land (to_Codepoint z) 67 = Z.land z 67.
Proof.
  unfold to_Codepoint. change 4294967296 with (2 ^ 32).
  rewrite <- Z.land_ones by lia. rewrite <- Z.land_assoc. reflexivity.
Qed.

(** C10. An X10 mouse report (no private-mode byte, final byte [M]) whose
    button code has [code & 0x43 = 3], read while neither the left nor the
    right button is tracked as pressed, yields a key whose only modifier is
    MousePos, at the decoded coordinate; the tracked mouse state is left as
    it was. *)
Theorem x10_release_untracked (u : NCursesUI) (l : list Z) (cb cx cy : Z) (rest : list Z)
  (Hu : idle u)
  (Hl : Forall param_byte l) (Hsemi : (semicolons l < 16)%nat)
  (Hcode : Z.land (cb - 32) 67 = 3)
  (Hleft : Z.land (m_mouse_state u) 1 = 0) (Hright : Z.land (m_mouse_state u) 2 = 0)
  (E : stdin u = 27 :: 91 :: l ++ 77 :: cb :: cx :: cy :: rest) :
  exists k u',
    get_next_key u = Some (Some k, u') /\
    k = mkKey Mod_MousePos
          (encode_coord (mkCoord (cy - 32 - 1 - content_line_offset (display u))
                                 (cx - 32 - 1))) /\
    has_mod Mod_MouseReleaseLeft k = false /\ has_mod Mod_MouseReleaseRight k = false /\
    m_mouse_state u' = m_mouse_state u /\ stdin u' = rest.
Proof.
  eexists _, (set_stdin u rest). split; [|repeat split].
  rewrite get_next_key_idle by assumption.
  rewrite (read_key_csi u _ E).
  rewrite parse_csi_plain.
  2:{ cbn [stdin set_stdin]. destruct Hl as [|c l Hc _]; cbn; [reflexivity|].
      by apply param_byte_not_private. }
  unfold csi_after_scan. cbn [stdin set_stdin].
  destruct (scan_from_param_text l Hl 0 zero_params) as (params & Hlen & Hscan);
    [lia | reflexivity |].
  rewrite Hscan. rewrite scan_from_final by lia.
  cbn -[to_Codepoint parse_mask Z.land Z.shiftr Z.sub].
  unfold bind, next_char, get_char, ret, get_ui.
  cbn -[to_Codepoint parse_mask Z.land Z.shiftr Z.sub].
  rewrite land_to_Codepoint, Hcode.
  cbn -[to_Codepoint parse_mask Z.land Z.shiftr Z.sub].
  rewrite Hleft, Hright. reflexivity.
Qed.

(** *** Malformed sequences *)

Lemma csi_dispatch_unknown (pm : Z) (params : list Z) (c : Z) (u : NCursesUI) :
  64 <= c <= 126 -> csi_known_final c = false ->
  csi_dispatch pm params c u = Some (None, u).
Proof.
  intros Hc Hk.
  assert (H : c ∈ seqZ 64 63) by (apply elem_of_seqZ; lia).
  cbn in H.
  repeat (apply elem_of_cons in H; destruct H as [->|H]);
    try discriminate Hk; try reflexivity.
  by apply elem_of_nil in H.
Qed.

Lemma csi_after_scan_unknown (u : NCursesUI) (pm : Z) (l : list Z) (c : Z) (rest : list Z) :
  Forall param_byte l -> (semicolons l < 16)%nat ->
  64 <= c <= 126 -> csi_known_final c = false ->
  csi_after_scan pm (l ++ c :: rest) u = Some (None, set_stdin u rest).
Proof.
  intros Hl Hn Hc Hk. unfold csi_after_scan.
  destruct (scan_from_param_text l Hl 0 zero_params) as (params & Hlen & Hscan);
    [lia | reflexivity |].
  rewrite Hscan. cbn [Nat.add]. rewrite scan_from_final by lia.
  replace ((c <? 64) || (c >? 126)) with false by lia.
  by apply csi_dispatch_unknown.
Qed.

Lemma csi_after_scan_malformed (u : NCursesUI) (pm : Z) (l : list Z) (tail rest : list Z) :
  Forall param_byte l -> (semicolons l < 16)%nat ->
  (exists c, tail = c :: rest /\ (c = 58 \/ 60 <= c <= 63 \/ c < 48 \/ 126 < c)) \/
  (tail = [] /\ rest = []) ->
  csi_after_scan pm (l ++ tail) u = Some (None, set_stdin u rest).
Proof.
  intros Hl Hn Ht. unfold csi_after_scan.
  destruct (scan_from_param_text l Hl 0 zero_params) as (params & Hlen & Hscan);
    [lia | reflexivity |].
  rewrite Hscan. cbn [Nat.add].
  destruct Ht as [(c & -> & Hc)|[-> ->]].
  - destruct (decide (c = 58 \/ 60 <= c <= 63)) as [Hbad|Hfin].
    + rewrite scan_from_bad by (lia || assumption). reflexivity.
    + rewrite scan_from_final by lia.
      replace ((c <? 64) || (c >? 126)) with true by lia. reflexivity.
  - cbn. reflexivity.
Qed.

Lemma parse_csi_malformed (u : NCursesUI) (body rest : list Z) :
  malformed 91 body rest -> stdin u = body ++ rest ->
  parse_csi u = Some (None, set_stdin u rest).
Proof.
  intros Hm E. inversion Hm as [pm l c rest' Hpm Hl Hn Hc|pm l c rest' Hpm Hl Hn Hc
                                |pm l c rest' Hpm Hl Hn Hc Hk|pm l Hpm Hl Hn| |]; subst.
  - rewrite <- !app_assoc in E. cbn [app] in E.
    destruct Hpm as [->|(p & -> & Hp)].
    + cbn [app] in E. rewrite parse_csi_plain.
      * rewrite E. apply csi_after_scan_malformed; try assumption.
        left. exists c. split; [reflexivity | lia].
      * rewrite E. destruct Hl as [|d l Hd _]; cbn.
        -- destruct Hc as [->|[_ [H|H]]]; [reflexivity | congruence | congruence].
        -- by apply param_byte_not_private.
    + cbn [app] in E. rewrite (parse_csi_private u p _ E Hp).
      apply csi_after_scan_malformed; try assumption.
      left. exists c. split; [reflexivity | lia].
  - rewrite <- !app_assoc in E. cbn [app] in E.
    destruct Hpm as [->|(p & -> & Hp)].
    + cbn [app] in E. rewrite parse_csi_plain.
      * rewrite E. apply csi_after_scan_malformed; try assumption.
        left. exists c. split; [reflexivity | lia].
      * rewrite E. destruct Hl as [|d l Hd _]; cbn.
        -- unfold is_private_mode.
           repeat (rewrite (proj2 (Z.eqb_neq _ _)) by lia). reflexivity.
        -- by apply param_byte_not_private.
    + cbn [app] in E. rewrite (parse_csi_private u p _ E Hp).
      apply csi_after_scan_malformed; try assumption.
      left. exists c. split; [reflexivity | lia].
  - rewrite <- !app_assoc in E. cbn [app] in E.
    destruct Hpm as [->|(p & -> & Hp)].
    + cbn [app] in E. rewrite parse_csi_plain.
      * rewrite E. by apply csi_after_scan_unknown.
      * rewrite E. destruct Hl as [|d l Hd _]; cbn.
        -- unfold is_private_mode.
           repeat (rewrite (proj2 (Z.eqb_neq _ _)) by lia). reflexivity.
        -- by apply param_byte_not_private.
    + cbn [app] in E. rewrite (parse_csi_private u p _ E Hp).
      by apply csi_after_scan_unknown.
  - rewrite app_nil_r in E.
    destruct Hpm as [->|(p & -> & Hp)].
    + cbn [app] in E. rewrite parse_csi_plain.
      * rewrite E. rewrite <- (app_nil_r l) at 1.
        apply csi_after_scan_malformed; try assumption. by right.
      * rewrite E. destruct Hl as [|d l Hd _]; cbn; [exact I|].
        by apply param_byte_not_private.
    + cbn [app] in E. rewrite (parse_csi_private u p _ E Hp).
      rewrite <- (app_nil_r l) at 1.
      apply csi_after_scan_malformed; try assumption. by right.
Qed.

Lemma parse_ss3_malformed (u : NCursesUI) (body rest : list Z) :
  malformed 79 body rest -> stdin u = body ++ rest ->
  parse_ss3 u = Some (None, set_stdin u rest).
Proof.
  intros Hm E. inversion Hm as [| | | |c rest' Hc|]; subst.
  - cbn [app] in E. unfold parse_ss3, bind, get_char, ret. rewrite E. cbn [value_or].
    do 2 f_equal.
    destruct c as [|p|p]; try reflexivity.
    do 7 (destruct p as [p|p|]; try reflexivity); discriminate Hc.
  - cbn [app] in E. unfold parse_ss3, bind, get_char, ret. rewrite E. cbn.
    do 2 f_equal. destruct u; cbn in *; by subst.
Qed.

(** C3, amended. After ESC [ an incomplete or malformed CSI sequence, and
    after ESC O an invalid SS3 final byte, make the call of [get_next_key]
    return the key Alt+[ (Alt+O for SS3), not the absence of a key; the
    call has consumed the bytes up to and including the offending one, and
    the next call starts at the first byte it has not read. *)
Theorem malformed_sequence_yields_alt (u : NCursesUI) (intro : Z) (body rest : list Z)
  (Hu : idle u) (Hm : malformed intro body rest)
  (E : stdin u = 27 :: intro :: body ++ rest) :
  get_next_key u = Some (Some (alt (key_of_codepoint intro)), set_stdin u rest) /\
  idle (set_stdin u rest) /\ stdin (set_stdin u rest) = rest.
Proof.
  split; [|split; [exact Hu | reflexivity]].
  rewrite get_next_key_idle by assumption.
  assert (Hi : intro = 91 \/ intro = 79) by (inversion Hm; auto).
  destruct Hi; subst intro.
  - rewrite (read_key_csi u _ E).
    rewrite (parse_csi_malformed (set_stdin u (body ++ rest)) body rest Hm eq_refl).
    reflexivity.
  - rewrite (read_key_ss3 u _ E).
    rewrite (parse_ss3_malformed (set_stdin u (body ++ rest)) body rest Hm eq_refl).
    reflexivity.
Qed.

(** *** ESC followed by ESC *)

Lemma read_key_esc_esc (u : NCursesUI) (rest : list Z) :
  stdin u = 27 :: 27 :: rest ->
  read_key u = Some (Some (alt (key_of_codepoint 27)), set_stdin u rest).
Proof.
  intros E. unfold read_key, get_char, ret, bind. rewrite E. reflexivity.
Qed.

Lemma read_key_bracket (u : NCursesUI) (rest : list Z) :
  stdin u = 91 :: rest ->
  read_key u = Some (Some (key_of_codepoint 91), set_stdin u rest).
Proof.
  intros E. unfold read_key, get_char, ret, bind. rewrite E. reflexivity.
Qed.

Lemma read_key_A (u : NCursesUI) (rest : list Z) :
  stdin u = 65 :: rest ->
  read_key u = Some (Some (key_of_codepoint 65), set_stdin u rest).
Proof.
  intros E. unfold read_key, get_char, ret, bind. rewrite E. reflexivity.
Qed.

(** C4, amended. The bytes ESC ESC [ A yield three keys in three calls:
    Alt with the codepoint 0x1b (the byte after the first ESC is neither [
    nor O, so it is decoded by [parse_key] and given Alt), then the plain
    keys [ and A.  The first call consumes two bytes. *)
Theorem esc_esc_csi_three_keys (u : NCursesUI) (rest : list Z)
  (Hu : idle u) (E : stdin u = [27; 27; 91; 65] ++ rest) :
  get_next_key u =
    Some (Some (alt (key_of_codepoint 27)), set_stdin u (91 :: 65 :: rest)) /\
  on_stdin_readable 3 u =
    Some ([alt (key_of_codepoint 27); key_of_codepoint 91; key_of_codepoint 65],
          set_stdin u rest).
Proof.
  assert (H1 : get_next_key u =
               Some (Some (alt (key_of_codepoint 27)), set_stdin u (91 :: 65 :: rest))).
  { rewrite get_next_key_idle by assumption. by apply read_key_esc_esc. }
  split; [exact H1|].
  rewrite (on_stdin_readable_step _ _ _ _ H1).
  assert (H2 : get_next_key (set_stdin u (91 :: 65 :: rest)) =
               Some (Some (key_of_codepoint 91), set_stdin u (65 :: rest))).
  { rewrite get_next_key_idle by assumption. by rewrite (read_key_bracket _ (65 :: rest)). }
  rewrite (on_stdin_readable_step _ _ _ _ H2).
  assert (H3 : get_next_key (set_stdin u (65 :: rest)) =
               Some (Some (key_of_codepoint 65), set_stdin u rest)).
  { rewrite get_next_key_idle by assumption. by rewrite (read_key_A _ rest). }
  rewrite (on_stdin_readable_step _ _ _ _ H3).
  reflexivity.
Qed.

(** *** Resize and suspend *)

Lemma check_resize_frame (force : bool) (u u1 : NCursesUI) :
  check_resize force u = Some (tt, u1) ->
  stdin u1 = stdin u /\ signals u1 = signals u /\ sighup_raised u1 = sighup_raised u /\
  m_mouse_state u1 = m_mouse_state u /\
  (m_resize_pending u = true -> m_resize_pending u1 = true) /\
  (force = false -> resize_pending u = false -> u1 = u).
Proof.
  unfold check_resize, bind, get_ui, ret, modify, on_display, set_resize_pending.
  destruct (negb force && negb (resize_pending u)) eqn:Hf.
  - intros [= <-]. repeat split; auto.
  - destruct (tty_winsize u) as [[ws_row ws_col]|] eqn:Ht; cbn [display set_resize_pending_flag].
    + destruct (rebuild_windows ws_row ws_col (display u)) as [d|]; [|discriminate].
      intros [= <-]. repeat split; auto.
      intros -> Hr. rewrite Hr in Hf. discriminate.
    + intros [= <-]. repeat split; auto.
      intros -> Hr. rewrite Hr in Hf. discriminate.
Qed.

(** C8. When [get_next_key] is called with the resize flag raised by
    [set_resize_pending] and no hangup, it returns the key
    Resize(dimensions) and reads no byte from stdin; so the keys handed
    over by one run of the stdin watcher start with that key. *)
Theorem pending_resize_delivered_first (u : NCursesUI)
  (Hh : sighup_raised u = false) (Hp : m_resize_pending u = true) :
  (resize_pending u = false ->
   get_next_key u =
     Some (Some (resize (dimensions (display u))), set_m_resize_pending u false)) /\
  (forall u1, check_resize false u = Some (tt, u1) ->
     get_next_key u =
       Some (Some (resize (dimensions (display u1))), set_m_resize_pending u1 false) /\
     stdin (set_m_resize_pending u1 false) = stdin u /\
     forall n, on_stdin_readable (S n) u =
               match on_stdin_readable n (set_m_resize_pending u1 false) with
               | Some (keys, u') => Some (resize (dimensions (display u1)) :: keys, u')
               | None => None
               end).
Proof.
  assert (Hgen : forall u1, check_resize false u = Some (tt, u1) ->
     get_next_key u =
       Some (Some (resize (dimensions (display u1))), set_m_resize_pending u1 false)).
  { intros u1 Hc. destruct (check_resize_frame _ _ _ Hc) as (_ & _ & _ & _ & Hm & _).
    unfold get_next_key, bind, get_ui, ret, modify. rewrite Hh, Hc.
    rewrite (Hm Hp). reflexivity. }
  split.
  - intros Hr. apply Hgen. unfold check_resize, bind, get_ui, ret. by rewrite Hr.
  - intros u1 Hc. split; [by apply Hgen|]. split.
    + destruct (check_resize_frame _ _ _ Hc) as (Hs & _). exact Hs.
    + intros n. apply on_stdin_readable_step. by apply Hgen.
Qed.

(** A window-size change flagged by SIGWINCH surfaces as the Resize key in
    the same call, when the size of the terminal can be read. *)
Lemma sigwinch_resize_delivered (u u1 : NCursesUI) :
  sighup_raised u = false -> resize_pending u = true -> tty_winsize u <> None ->
  check_resize false u = Some (tt, u1) ->
  get_next_key u =
  Some (Some (resize (dimensions (display u1))), set_m_resize_pending u1 false).
Proof.
  intros Hh Hr Ht Hc.
  assert (Hm : m_resize_pending u1 = true).
  { revert Hc. unfold check_resize, bind, get_ui, ret, modify, on_display, set_resize_pending.
    rewrite Hr. cbn [negb andb].
    destruct (tty_winsize u) as [[ws_row ws_col]|]; [|contradiction].
    cbn [display set_resize_pending_flag].
    destruct (rebuild_windows ws_row ws_col (display u)) as [d|]; [|discriminate].
    by intros [= <-]. }
  unfold get_next_key, bind, get_ui, ret, modify. rewrite Hh, Hc, Hm. reflexivity.
Qed.

Lemma suspend_signals (u u1 : NCursesUI) :
  suspend u = Some (tt, u1) ->
  signals u1 = raise SIGTSTP :: signals u /\ stdin u1 = stdin u.
Proof.
  unfold suspend, bind, get_ui, enable_mouse, refresh, modify, on_display, ret.
  match goal with |- context [check_resize true ?v] =>
    destruct (check_resize true v) as [[[] u2]|] eqn:Hc end; [|discriminate].
  destruct (check_resize_frame _ _ _ Hc) as (Hs & Hsig & _).
  intros [= <-]. cbn. split.
  - destruct (eqb (m_mouse_enabled u) (m_mouse_enabled u2)); cbn; rewrite Hsig;
      destruct (eqb false (m_mouse_enabled u)); reflexivity.
  - destruct (eqb (m_mouse_enabled u) (m_mouse_enabled u2)); cbn; rewrite Hs;
      destruct (eqb false (m_mouse_enabled u)); reflexivity.
Qed.

Lemma kill_SIGTSTP_signals (u u1 : NCursesUI) :
  kill_SIGTSTP u = Some (tt, u1) ->
  In (kill 0 SIGTSTP) (signals u1) /\ stdin u1 = stdin u.
Proof.
  unfold kill_SIGTSTP, get_ui, modify, ret, bind.
  destruct (signal_handler u SIGTSTP);
    try solve [intros [= <-]; cbn; auto].
  destruct (suspend _) as [[[] u2]|] eqn:Hs; [|discriminate].
  apply suspend_signals in Hs. destruct Hs as (Hsig & Hin).
  intros [= <-]. rewrite Hsig, Hin. cbn. auto.
Qed.

(** On the byte Ctrl-Z the decoder sends SIGTSTP to the process group;
    [parse_key] returns a [Key], so whenever the call of [get_next_key]
    returns it returns a key, the default-constructed one. *)
Lemma ctrl_z_returns_default_key (u : NCursesUI) (rest : list Z) (r : option Key)
  (u' : NCursesUI) :
  idle u -> stdin u = 26 :: rest -> get_next_key u = Some (r, u') ->
  r = Some default_Key /\ In (kill 0 SIGTSTP) (signals u') /\ stdin u' = rest.
Proof.
  intros Hu E. rewrite get_next_key_idle by assumption.
  unfold read_key, get_char. unfold bind at 1. rewrite E. cbn [negb Z.eqb Pos.eqb].
  unfold parse_key.
  change ((26 =? control 109) || (26 =? control 106)) with false.
  change (26 =? control 105) with false. change (26 =? control 104) with false.
  change (26 =? control 122) with true. cbn iota.
  unfold bind, ret.
  destruct (kill_SIGTSTP (set_stdin u rest)) as [[[] u2]|] eqn:Hk; [|discriminate].
  apply kill_SIGTSTP_signals in Hk. destruct Hk as (Hin & Hs).
  intros [= <- <-]. auto.
Qed.

End DecoderFacts.

(** ** Layout *)

Section LayoutFacts.

Lemma coord_eqb_eq (a b : DisplayCoord) : coord_eqb a b = true <-> a = b.
Proof.
  destruct a as [la ca], b as [lb cb]. unfold coord_eqb. cbn. split.
  - intros H. apply andb_true_iff in H. destruct H as [H1 H2].
    apply Z.eqb_eq in H1, H2. by subst.
  - intros [= -> ->]. by rewrite !Z.eqb_refl.
Qed.

Lemma avoid_test_inclusive (p sz : DisplayCoord) (to_avoid : Rect) :
  avoid_test p sz to_avoid = true <->
  boxes_meet_inclusive p sz (pos to_avoid) (size to_avoid).
Proof.
  unfold avoid_test, boxes_meet_inclusive. cbn [coord_add line column].
  rewrite negb_true_iff, !orb_false_iff.
  rewrite !Z.ltb_ge. rewrite !Z.gtb_ltb, !Z.ltb_ge. lia.
Qed.

(** Two boxes with sides that are not negative meet in the sense above
    exactly when they have a cell position in common, edges included. *)
Lemma boxes_meet_common_point (a sa b sb : DisplayCoord) :
  0 <= line sa -> 0 <= column sa -> 0 <= line sb -> 0 <= column sb ->
  boxes_meet_inclusive a sa b sb <->
  exists l c,
    line a <= l <= line a + line sa /\ column a <= c <= column a + column sa /\
    line b <= l <= line b + line sb /\ column b <= c <= column b + column sb.
Proof.
  intros H1 H2 H3 H4. unfold boxes_meet_inclusive. split.
  - intros (Hl1 & Hl2 & Hc1 & Hc2).
    exists (Z.max (line a) (line b)), (Z.max (column a) (column b)). lia.
  - intros (l & c & H). lia.
Qed.

Lemma compute_pos_nothing_to_avoid (anchor sz : DisplayCoord) (rect to_avoid : Rect)
  (prefer_above : bool) :
  size to_avoid = coord_zero ->
  compute_pos anchor sz rect to_avoid prefer_above = place_pos anchor sz rect prefer_above.
Proof. intros H. unfold compute_pos. rewrite H. reflexivity. Qed.

Lemma compute_pos_clear (anchor sz : DisplayCoord) (rect to_avoid : Rect)
  (prefer_above : bool) :
  ~ boxes_meet_inclusive (place_pos anchor sz rect prefer_above) sz
      (pos to_avoid) (size to_avoid) ->
  compute_pos anchor sz rect to_avoid prefer_above = place_pos anchor sz rect prefer_above.
Proof.
  intros H. unfold compute_pos.
  destruct (negb (coord_eqb (size to_avoid) coord_zero)); [|reflexivity].
  destruct (avoid_test _ sz to_avoid) eqn:E; [|reflexivity].
  apply avoid_test_inclusive in E. contradiction.
Qed.

(** C6. When [to_avoid] is not empty and the box placed by [compute_pos]
    meets it (bounds inclusive on both axes), the line of the result is
    [min(to_avoid.top, anchor.line) - size.line], and when that is negative
    it is [max(to_avoid.bottom, anchor.line)] instead. *)
Theorem compute_pos_avoids (anchor sz : DisplayCoord) (rect to_avoid : Rect)
  (prefer_above : bool)
  (Hne : size to_avoid <> coord_zero)
  (Hmeet : boxes_meet_inclusive (place_pos anchor sz rect prefer_above) sz
             (pos to_avoid) (size to_avoid)) :
  let above := Z.min (line (pos to_avoid)) (line anchor) - line sz in
  let below := Z.max (line (pos to_avoid) + line (size to_avoid)) (line anchor) in
  line (compute_pos anchor sz rect to_avoid prefer_above) =
    (if above <? 0 then below else above) /\
  column (compute_pos anchor sz rect to_avoid prefer_above) =
    column (place_pos anchor sz rect prefer_above).
Proof.
  intros above below. unfold compute_pos.
  destruct (coord_eqb (size to_avoid) coord_zero) eqn:E.
  - apply coord_eqb_eq in E. contradiction.
  - cbn [negb]. apply avoid_test_inclusive in Hmeet. rewrite Hmeet.
    cbn [set_line line column]. fold above.
    destruct (above <? 0); split; reflexivity.
Qed.

End LayoutFacts.

(** ** Windows *)

Section WindowFacts.
Context {prim : DisplayPrimitives}.

Lemma at_Z_Some {A} (l : list A) (i : Z) (x : A) :
  at_Z l i = Some x -> 0 <= i < Z.of_nat (length l) /\ l !! Z.to_nat i = Some x.
Proof.
  unfold at_Z. destruct (Z.ltb_spec i 0); [discriminate|]. intros H'.
  split; [|exact H']. apply lookup_lt_Some in H'. lia.
Qed.

Lemma set_at_Z_in_range {A} (l : list A) (i : Z) (x : A) :
  0 <= i < Z.of_nat (length l) -> set_at_Z l i x = Some (<[Z.to_nat i := x]> l).
Proof.
  intros H. unfold set_at_Z.
  replace ((0 <=? i) && (i <? Z.of_nat (length l))) with true by lia. reflexivity.
Qed.

Lemma current_line_with_line (w : Window) (ln l : Line) :
  current_line w = Some ln -> current_line (with_line w l) = Some l.
Proof.
  unfold current_line, with_line. intros H.
  destruct (at_Z_Some _ _ _ H) as [Hr _]. cbn [lines cursor set_lines].
  unfold at_Z. replace (line (cursor w) <? 0) with false by lia.
  apply list_lookup_insert_eq. lia.
Qed.

Lemma with_line_with_line (w : Window) (l l' : Line) :
  with_line (with_line w l) l' = with_line w l'.
Proof.
  unfold with_line. cbn [lines cursor set_lines]. unfold set_lines. cbn.
  by rewrite list_insert_insert_eq.
Qed.

Lemma other_line_with_line (w : Window) (l : Line) (i : Z) :
  0 <= line (cursor w) -> i <> line (cursor w) ->
  at_Z (lines (with_line w l)) i = at_Z (lines w) i.
Proof.
  intros H0 H. unfold with_line, at_Z. cbn [lines set_lines].
  destruct (Z.ltb_spec i 0); [reflexivity|].
  apply list_lookup_insert_ne. lia.
Qed.

Lemma push_back_current (w : Window) (ln atoms : Line) :
  current_line w = Some ln -> push_back atoms w = Some (with_line w (ln ++ atoms)).
Proof.
  intros H. unfold push_back. unfold current_line in H. rewrite H. cbn.
  destruct (at_Z_Some _ _ _ H) as [Hr _].
  rewrite set_at_Z_in_range by assumption. reflexivity.
Qed.

Lemma line_columns_app (l1 l2 : Line) :
  line_columns (l1 ++ l2) = line_columns l1 + line_columns l2.
Proof. induction l1 as [|a l1 IH]; cbn; [reflexivity|]. unfold line_columns in *. lia. Qed.

Lemma string_empty_eq (s : string) : string_empty s = true -> s = EmptyString.
Proof. destruct s; [reflexivity | discriminate]. Qed.

Lemma ends_with_newline_split (s : string) :
  ends_with_newline s = true ->
  s = (string_drop_back s ++ String newline EmptyString)%string.
Proof.
  unfold ends_with_newline. induction s as [|c s IH]; [discriminate|].
  destruct s as [|d s].
  - cbn. intros H. apply Ascii.eqb_eq in H. by subst.
  - intros H. cbn [string_drop_back String.append]. f_equal. apply IH. exact H.
Qed.

Lemma column_length_empty : column_length_laws -> column_length EmptyString = 0.
Proof. intros (_ & H & _). exact (H 0 ltac:(lia)). Qed.

Lemma column_length_space : column_length_laws -> column_length " " = 1.
Proof. intros (_ & H & _). exact (H 1 ltac:(lia)). Qed.

Lemma stored_atoms_columns (default_face : Face) (a : DisplayAtom) :
  column_length_laws ->
  line_columns (stored_atoms default_face a) = column_length (content a).
Proof.
  intros Hlaws. unfold stored_atoms.
  destruct (string_empty (content a)) eqn:He.
  - apply string_empty_eq in He. rewrite He. cbn. symmetry. by apply column_length_empty.
  - destruct (ends_with_newline (content a)) eqn:Hn; cbn.
    + rewrite (column_length_space Hlaws).
      rewrite (ends_with_newline_split _ Hn) at 2.
      destruct Hlaws as (_ & _ & H3). rewrite H3. lia.
    + lia.
Qed.

Lemma draw_atom_current (default_face : Face) (a : DisplayAtom) (w : Window) (ln : Line) :
  column_length_laws -> current_line w = Some ln ->
  draw_atom default_face a w =
  Some (advance_column (column_length (content a))
          (with_line w (ln ++ stored_atoms default_face a))).
Proof.
  intros Hlaws Hc. unfold draw_atom, stored_atoms.
  destruct (string_empty (content a)) eqn:He.
  - apply string_empty_eq in He. rewrite He, (column_length_empty Hlaws).
    f_equal. unfold advance_column, with_line, set_cursor_of, set_lines. cbn.
    rewrite app_nil_r, Z.add_0_r.
    destruct (at_Z_Some _ _ _ Hc) as [_ Hl]. rewrite list_insert_id by exact Hl.
    by destruct w as [p s [cl cc] ls].
  - fold (ends_with_newline (content a)).
    destruct (ends_with_newline (content a)); rewrite (push_back_current _ _ _ Hc);
      reflexivity.
Qed.

Lemma draw_atoms_current (default_face : Face) (atoms : list DisplayAtom) (w : Window)
  (ln : Line) :
  column_length_laws -> current_line w = Some ln ->
  draw_atoms default_face atoms w =
  Some (advance_column (DisplayLine_length atoms)
          (with_line w (ln ++ flat_map (stored_atoms default_face) atoms))).
Proof.
  intros Hlaws. revert w ln. induction atoms as [|a atoms IH]; intros w ln Hc.
  - cbn. f_equal. unfold advance_column, with_line, set_cursor_of, set_lines. cbn.
    rewrite app_nil_r, Z.add_0_r.
    destruct (at_Z_Some _ _ _ Hc) as [_ Hl]. rewrite list_insert_id by exact Hl.
    by destruct w as [p s [cl cc] ls].
  - cbn [draw_atoms]. rewrite (draw_atom_current _ _ _ _ Hlaws Hc). cbn [mbind option_bind].
    rewrite (IH _ (ln ++ stored_atoms default_face a)).
    + f_equal. cbn [flat_map DisplayLine_length fold_right].
      unfold advance_column, with_line, set_cursor_of, set_lines. cbn.
      rewrite list_insert_insert_eq, <- app_assoc.
      fold (DisplayLine_length atoms). by rewrite Z.add_assoc.
    + unfold advance_column. unfold current_line. cbn [cursor lines set_cursor_of line].
      apply (current_line_with_line _ _ _ Hc).
Qed.

Lemma clear_scan_boundary (pre post : Line) (col cc : Z) :
  column_length_laws -> col + line_columns pre = cc ->
  exists kept dropped,
    clear_scan (pre ++ post) col cc = (kept, cc) /\ pre = kept ++ dropped /\
    col + line_columns kept = cc.
Proof.
  intros Hlaws. revert col. induction pre as [|a pre IH]; intros col Hcol.
  - exists [], []. cbn in *. split; [|split; [reflexivity | lia]].
    destruct post as [|b post]; cbn; [by rewrite <- Hcol, Z.add_0_r|].
    replace (col <? cc) with false by lia. f_equal. lia.
  - cbn [app clear_scan]. cbn in Hcol. fold (line_columns pre) in Hcol.
    destruct (Z.ltb_spec col cc) as [Hlt|Hge].
    + destruct (IH (col + column_length (text a))) as (kept & dropped & Hs & Hp & Hk); [lia|].
      exists (a :: kept), dropped. rewrite Hs. split; [reflexivity|].
      split; [by rewrite Hp|]. cbn. fold (line_columns kept). lia.
    + exists [], (a :: pre). split; [|split; [reflexivity|]].
      * f_equal. destruct Hlaws as (H1 & _).
        pose proof (H1 (text a)).
        assert (0 <= line_columns pre).
        { clear -H1. induction pre as [|b pre IH]; cbn; [lia|].
          pose proof (H1 (text b)). fold (line_columns pre). lia. }
        lia.
      * cbn. destruct Hlaws as (H1 & _). pose proof (H1 (text a)).
        assert (0 <= line_columns pre).
        { clear -H1. induction pre as [|b pre IH]; cbn; [lia|].
          pose proof (H1 (text b)). fold (line_columns pre). lia. }
        lia.
Qed.

Lemma clear_line_boundary (w : Window) (pre post : Line) :
  column_length_laws -> current_line w = Some (pre ++ post) ->
  line_columns pre = column (cursor w) ->
  exists kept dropped,
    clear_line w = Some (with_line w kept) /\ pre = kept ++ dropped /\
    line_columns kept = column (cursor w).
Proof.
  intros Hlaws Hc Hp.
  destruct (clear_scan_boundary pre post 0 (column (cursor w)) Hlaws ltac:(lia))
    as (kept & dropped & Hs & Hpre & Hk).
  exists kept, dropped. split; [|split; [assumption | lia]].
  unfold clear_line. unfold current_line in Hc. rewrite Hc. cbn [mbind option_bind].
  rewrite Hs. replace (column (cursor w) >? column (cursor w)) with false by lia.
  cbn [mbind option_bind]. destruct (at_Z_Some _ _ _ Hc) as [Hr _].
  rewrite set_at_Z_in_range by assumption. reflexivity.
Qed.

Lemma spaces_no_newline (n : Z) : string_has newline (spaces n) = false.
Proof. unfold spaces. induction (Z.to_nat n) as [|k IH]; cbn; [reflexivity | exact IH]. Qed.

Lemma string_has_drop_back (c : ascii) (s : string) :
  string_has c s =
  string_has c (string_drop_back s) ||
  match string_back s with Some d => Ascii.eqb c d | None => false end.
Proof.
  induction s as [|d s IH]; [reflexivity|]. destruct s as [|e s].
  - cbn. by rewrite orb_false_r.
  - cbn [string_has string_drop_back string_back] in *. rewrite IH.
    by rewrite orb_assoc.
Qed.

Lemma stored_atoms_no_newline (default_face : Face) (a : DisplayAtom) :
  string_has newline (string_drop_back (content a)) = false ->
  Forall no_newline (stored_atoms default_face a).
Proof.
  intros H. unfold stored_atoms.
  destruct (string_empty (content a)); [constructor|].
  destruct (ends_with_newline (content a)) eqn:E.
  - repeat constructor. exact H.
  - repeat constructor. unfold no_newline. cbn [text].
    rewrite string_has_drop_back, H. cbn [orb].
    unfold ends_with_newline in E. destruct (string_back (content a)); [|reflexivity].
    rewrite Ascii.eqb_sym. exact E.
Qed.

(** C5, amended. When the cursor of a window stands on one of its lines,
    at the end of some of the atoms of that line (column 0 included), and
    the atoms drawn fit between the cursor and the width of the window,
    then after [draw] that line is exactly as wide as the window: what was
    left of the cursor is kept, each atom is stored in its merged face, an
    atom ending in a newline as its text without the newline and a single
    space, and a single padding atom in the default face fills the slack.
    The other lines are untouched, so if every one of them that is not
    empty had the width of the window, every line has it after the call.
    The atoms stored carry no newline provided the contents drawn have
    none before their last byte. *)
Theorem draw_fills_line (w : Window) (atoms : list DisplayAtom) (default_face : Face)
  (pre post : Line)
  (Hlaws : column_length_laws)
  (Hcur : current_line w = Some (pre ++ post))
  (Hpre : line_columns pre = column (cursor w))
  (Hfit : column (cursor w) + DisplayLine_length atoms <= column (win_size w)) :
  exists w' kept dropped,
    Window_draw atoms default_face w = Some w' /\
    win_size w' = win_size w /\
    pre = kept ++ dropped /\ line_columns kept = column (cursor w) /\
    let drawn := flat_map (stored_atoms default_face) atoms ++
                 padding_atoms w default_face (column (cursor w) + DisplayLine_length atoms) in
    current_line w' = Some (kept ++ drawn) /\
    line_columns (kept ++ drawn) = column (win_size w') /\
    (forall i, i <> line (cursor w) -> at_Z (lines w') i = at_Z (lines w) i) /\
    ((forall i l, i <> line (cursor w) -> at_Z (lines w) i = Some l -> line_filled w l) ->
     forall i l, at_Z (lines w') i = Some l -> line_filled w' l) /\
    ((forall a, In a atoms -> string_has newline (string_drop_back (content a)) = false) ->
     Forall no_newline drawn).
Proof.
  destruct (clear_line_boundary w pre post Hlaws Hcur Hpre)
    as (kept & dropped & Hclear & Hsplit & Hkept).
  destruct (at_Z_Some _ _ _ Hcur) as [Hrange _].
  set (stored := flat_map (stored_atoms default_face) atoms).
  set (col := column (cursor w) + DisplayLine_length atoms).
  set (w2 := advance_column (DisplayLine_length atoms) (with_line (with_line w kept) (kept ++ stored))).
  assert (Hdraw : draw_atoms default_face atoms (with_line w kept) = Some w2).
  { apply draw_atoms_current; [assumption|]. apply (current_line_with_line _ _ _ Hcur). }
  assert (Hcur2 : current_line w2 = Some (kept ++ stored)).
  { unfold w2, advance_column, current_line. cbn [cursor lines set_cursor_of line].
    rewrite with_line_with_line. apply (current_line_with_line _ _ _ Hcur). }
  assert (Hstored : line_columns stored = DisplayLine_length atoms).
  { unfold stored. clear -Hlaws. induction atoms as [|a atoms IH]; [reflexivity|].
    cbn [flat_map]. rewrite line_columns_app, IH, stored_atoms_columns by assumption.
    reflexivity. }
  set (drawn := stored ++ padding_atoms w default_face col).
  assert (Hres : exists w', Window_draw atoms default_face w = Some w' /\
                   win_size w' = win_size w /\ cursor w' = mkCoord (line (cursor w)) col /\
                   lines w' = <[Z.to_nat (line (cursor w)) := kept ++ drawn]> (lines w)).
  { unfold Window_draw. rewrite Hclear. cbn [mbind option_bind]. rewrite Hdraw.
    cbn [mbind option_bind]. unfold drawn, padding_atoms.
    change (column (cursor w2)) with col. change (win_size w2) with (win_size w).
    destruct (col <? column (win_size w)).
    - rewrite (push_back_current _ _ _ Hcur2). eexists. split; [reflexivity|].
      split; [reflexivity|]. split; [reflexivity|].
      unfold w2, advance_column, with_line, set_cursor_of, set_lines. cbn.
      by rewrite !list_insert_insert_eq, <- app_assoc.
    - eexists. split; [reflexivity|]. split; [reflexivity|]. split; [reflexivity|].
      unfold w2, advance_column, with_line, set_cursor_of, set_lines. cbn.
      by rewrite !list_insert_insert_eq, app_nil_r. }
  destruct Hres as (w' & Hw' & Hsize & Hcursor & Hlines).
  assert (Hcols : line_columns (kept ++ drawn) = column (win_size w)).
  { unfold drawn. rewrite !line_columns_app, Hstored, Hkept. unfold padding_atoms.
    fold col. destruct (Z.ltb_spec col (column (win_size w))); cbn.
    - destruct Hlaws as (_ & H2 & _). rewrite H2 by lia. lia.
    - unfold col in *. lia. }
  assert (Hcurrent : current_line w' = Some (kept ++ drawn)).
  { unfold current_line. rewrite Hlines, Hcursor. cbn [line]. unfold at_Z.
    replace (line (cursor w) <? 0) with false by lia.
    apply list_lookup_insert_eq. lia. }
  assert (Hother : forall i, i <> line (cursor w) -> at_Z (lines w') i = at_Z (lines w) i).
  { intros i Hi. rewrite Hlines. unfold at_Z. destruct (Z.ltb_spec i 0); [reflexivity|].
    apply list_lookup_insert_ne. lia. }
  exists w', kept, dropped. split; [exact Hw'|]. split; [exact Hsize|].
  split; [exact Hsplit|]. split; [exact Hkept|]. cbn zeta. fold stored col drawn.
  split; [exact Hcurrent|]. split; [by rewrite Hsize|]. split; [exact Hother|]. split.
  - intros Hfilled i l Hl. destruct (decide (i = line (cursor w))) as [->|Hi].
    + unfold current_line in Hcurrent. rewrite Hcursor in Hcurrent. cbn [line] in Hcurrent.
      rewrite Hcurrent in Hl. injection Hl as <-. right. by rewrite Hsize.
    + rewrite (Hother i Hi) in Hl. destruct (Hfilled i l Hi Hl) as [->|H]; [by left|].
      right. by rewrite Hsize.
  - intros Hnl. unfold drawn. apply Forall_app. split.
    + unfold stored. clear -Hnl. induction atoms as [|a atoms IH]; [constructor|].
      cbn [flat_map]. apply Forall_app. split.
      * apply stored_atoms_no_newline. apply Hnl. by left.
      * apply IH. intros b Hb. apply Hnl. by right.
    + unfold padding_atoms. destruct (col <? column (win_size w)); repeat constructor.
      apply spaces_no_newline.
Qed.
End WindowFacts.

(** ** The menu *)

Section MenuFacts.
Context {prim : DisplayPrimitives}.

(** Opens the first step of a computation in [option] that is known to
    succeed. *)
Ltac open_bind H :=
  match type of H with
  | mbind _ ?x = Some _ =>
      let E := fresh "E" in
      destruct x eqn:E; [cbn [mbind option_bind] in H | discriminate H]
  end.

Lemma clear_line_size (w w' : Window) :
  clear_line w = Some w' -> win_size w' = win_size w.
Proof.
  unfold clear_line. intros H. open_bind H.
  destruct (clear_scan _ 0 (column (cursor w))) as [kept col].
  do 2 open_bind H. by injection H as <-.
Qed.

Lemma push_back_size (atoms : list Atom) (w w' : Window) :
  push_back atoms w = Some w' -> win_size w' = win_size w.
Proof.
  unfold push_back. intros H. do 2 open_bind H. by injection H as <-.
Qed.

Lemma draw_atoms_size (default_face : Face) (atoms : list DisplayAtom) (w w' : Window) :
  draw_atoms default_face atoms w = Some w' -> win_size w' = win_size w.
Proof.
  revert w. induction atoms as [|a atoms IH]; intros w H; cbn [draw_atoms] in H.
  - by injection H as <-.
  - open_bind H. rewrite (IH _ H). unfold draw_atom in E.
    destruct (string_empty (content a)); [by injection E as <-|].
    open_bind E. injection E as <-. cbn.
    destruct (match string_back (content a) with Some c => _ | None => _ end);
      by apply push_back_size in E0.
Qed.

Lemma Window_draw_size (atoms : list DisplayAtom) (default_face : Face) (w w' : Window) :
  Window_draw atoms default_face w = Some w' -> win_size w' = win_size w.
Proof.
  unfold Window_draw. intros H. open_bind H. rename E into E1.
  open_bind H. rename E into E2.
  apply clear_line_size in E1. apply draw_atoms_size in E2.
  match type of H with (if ?b then _ else _) = _ => destruct b end.
  - apply push_back_size in H. congruence.
  - injection H as <-. congruence.
Qed.

Lemma on_menu_win_shape (f : Window -> option Window) (d d' : Display) :
  (forall w w', f w = Some w' -> win_size w' = win_size w) ->
  on_menu_win f d = Some d' -> menu_shape d' = menu_shape d.
Proof.
  intros Hf H. unfold on_menu_win in H. open_bind H. injection H as <-. unfold menu_shape. cbn. by rewrite (Hf _ _ E).
Qed.

Lemma menu_draw_shape (atoms : list DisplayAtom) (face : Face) (d d' : Display) :
  menu_draw atoms face d = Some d' -> menu_shape d' = menu_shape d.
Proof. apply on_menu_win_shape. apply Window_draw_size. Qed.

Lemma menu_move_cursor_shape (c : DisplayCoord) (d d' : Display) :
  menu_move_cursor c d = Some d' -> menu_shape d' = menu_shape d.
Proof. apply on_menu_win_shape. by intros w w' [= <-]. Qed.

Lemma set_m_dirty_shape (d : Display) (b : bool) : menu_shape (set_m_dirty d b) = menu_shape d.
Proof. reflexivity. Qed.

Lemma draw_menu_items_shape (n : nat) (i pos win_width : Z) (d d' : Display) (j : Z) :
  draw_menu_items n i pos win_width d = Some (j, d') -> menu_shape d' = menu_shape d.
Proof.
  revert i pos d. induction n as [|n IH]; intros i pos d H; cbn [draw_menu_items] in H.
  - destruct ((i <? _) && (pos <? win_width)); [discriminate|]. by injection H as _ <-.
  - destruct ((i <? _) && (pos <? win_width)); [|by injection H as _ <-].
    open_bind H. open_bind H. rename E0 into E1. apply menu_draw_shape in E1.
    open_bind H. rename E0 into E2. apply IH in H.
    match type of E2 with (if ?b then _ else _) = _ => destruct b end.
    + apply menu_draw_shape in E2. congruence.
    + open_bind E2. apply menu_move_cursor_shape in E0. apply menu_draw_shape in E2.
      congruence.
Qed.

Lemma draw_menu_cells_shape (n : nat) (col ln : Z) (mk : Mark) (d d' : Display) :
  draw_menu_cells n col ln mk d = Some d' -> menu_shape d' = menu_shape d.
Proof.
  revert col d. induction n as [|n IH]; intros col d H; cbn [draw_menu_cells] in H.
  - by injection H as <-.
  - open_bind H. rename E into E1. open_bind H. open_bind H. rename E0 into E2.
    apply menu_move_cursor_shape in E1. apply menu_draw_shape in E2.
    apply IH in H. congruence.
Qed.

Lemma draw_menu_lines_shape (n : nat) (ln : Z) (mk : Mark) (d d' : Display) :
  draw_menu_lines n ln mk d = Some d' -> menu_shape d' = menu_shape d.
Proof.
  revert ln d. induction n as [|n IH]; intros ln d H; cbn [draw_menu_lines] in H.
  - by injection H as <-.
  - open_bind H. rename E into E1. open_bind H. rename E into E2.
    open_bind H. rename E into E3.
    apply draw_menu_cells_shape in E1. apply menu_move_cursor_shape in E2.
    apply menu_draw_shape in E3. apply IH in H. congruence.
Qed.

Lemma draw_menu_shape (d d' : Display) :
  draw_menu d = Some d' -> menu_shape d' = menu_shape d.
Proof.
  unfold draw_menu. intros H.
  destruct (negb (Window_present (menu_win (m_menu d)))); [by injection H as <-|].
  destruct (columns (m_menu d) =? 0).
  - open_bind H. rename E into E1. open_bind H. rename E into E2.
    open_bind H. rename E into E3. destruct p as [i d3].
    open_bind H. rename E into E4. open_bind H. rename E into E5.
    injection H as <-. rewrite set_m_dirty_shape.
    apply menu_move_cursor_shape in E1, E4. apply menu_draw_shape in E2, E5.
    apply draw_menu_items_shape in E3. congruence.
  - open_bind H. open_bind H. rename E0 into E1.
    injection H as <-. rewrite set_m_dirty_shape. by apply draw_menu_lines_shape in E1.
Qed.

Lemma info_hide_menu (d : Display) : m_menu (info_hide d) = m_menu d.
Proof. unfold info_hide. by destruct (negb _). Qed.

Lemma on_info_win_menu (f : Window -> option Window) (d d' : Display) :
  on_info_win f d = Some d' -> m_menu d' = m_menu d.
Proof. unfold on_info_win. intros H. open_bind H. by injection H as <-. Qed.

Lemma info_draw_lines_menu (box : InfoBox) (face : Face) (ln : Z) (n : nat)
  (d d' : Display) :
  info_draw_lines box face ln n d = Some d' -> m_menu d' = m_menu d.
Proof.
  revert ln d. induction n as [|n IH]; intros ln d H; cbn [info_draw_lines] in H.
  - by injection H as <-.
  - do 2 open_bind H. apply on_info_win_menu in E0. apply IH in H. congruence.
Qed.

Lemma info_show_menu (title content : string) (anchor : DisplayCoord) (face : Face)
  (style : InfoStyle) (d d' : Display) :
  info_show title content anchor face style d = Some d' -> m_menu d' = m_menu d.
Proof.
  unfold info_show. intros H. open_bind H. clear E.
  destruct o as [[info_box anchor']|].
  - match type of H with (if ?b then _ else _) = _ => destruct b end.
    + injection H as <-. cbn. apply info_hide_menu.
    + do 2 open_bind H. injection H as <-. cbn.
      apply on_info_win_menu in E. apply info_draw_lines_menu in E0.
      rewrite E0, E. cbn. apply info_hide_menu.
  - injection H as <-. cbn. apply info_hide_menu.
Qed.

Lemma info_reshow_menu (d d' : Display) : info_reshow d = Some d' -> m_menu d' = m_menu d.
Proof.
  unfold info_reshow. destruct (Window_present _); [apply info_show_menu|].
  by intros [= <-].
Qed.

Lemma menu_shape_of_menu (d d' : Display) : m_menu d' = m_menu d -> menu_shape d' = menu_shape d.
Proof. unfold menu_shape. by intros ->. Qed.

Lemma not_present_size (w : Window) : Window_present w = false -> win_size w = coord_zero.
Proof.
  unfold Window_present. intros H. apply negb_false_iff in H. by apply coord_eqb_eq.
Qed.

Lemma menu_inv_shape (d d' : Display) :
  menu_shape d' = menu_shape d -> menu_inv (m_menu d) -> menu_inv (m_menu d').
Proof. unfold menu_shape, menu_inv. intros [= -> -> -> -> _]. auto. Qed.

Lemma menu_show_inv (new_items : list DisplayLine) (anchor : DisplayCoord) (fg bg : Face)
  (style : MenuStyle) (d0 d : Display) :
  menu_show new_items anchor fg bg style d0 = Some d -> menu_inv (m_menu d).
Proof.
  unfold menu_show. intros H.
  match type of H with (if ?b then _ else _) = _ => destruct b eqn:Hdim end.
  - injection H as <-. unfold menu_inv. cbn.
    destruct (Window_present (menu_win (m_menu d0))) eqn:Hp; cbn.
    + lia.
    + rewrite (not_present_size _ Hp). cbn. lia.
  - open_bind H. rename E into Ecols. open_bind H. rename E into Eh.
    open_bind H. rename E into Elen.
    match type of H with context [if ?b then (?x, ?y) else ?e] =>
      destruct (if b then (x, y) else e) as [ln col] end.
    open_bind H. rename E into Ecreate. open_bind H. rename E into Edraw.
    apply info_reshow_menu in H. apply menu_shape_of_menu in H.
    apply draw_menu_shape in Edraw.
    apply (menu_inv_shape _ _ H). apply (menu_inv_shape _ _ Edraw).
    unfold on_menu_win in Ecreate. open_bind Ecreate. injection Ecreate as <-.
    unfold Window_create in E.
    match type of E with (if ?b then _ else _) = _ => destruct b eqn:Hneg end;
      [discriminate|].
    injection E as <-. cbn [line] in Hneg. apply Z.ltb_ge in Hneg.
    unfold menu_inv. cbn. split; [exact Hneg|]. intros Hc Hh.
    rewrite length_map.
    split; [|split; [lia | rewrite Z.quot_0_l by lia; lia]].
    destruct style; cbn in Ecols, Eh.
    + open_bind Eh. injection Eh as <-. unfold div_round_up, cdiv in E.
      destruct (z =? 0); [discriminate|]. cbn in E. injection E as <-. lia.
    + injection Ecols as <-. lia.
    + open_bind Eh. injection Eh as <-. unfold div_round_up, cdiv in E.
      destruct (z =? 0); [discriminate|]. cbn in E. injection E as <-. lia.
Qed.

Lemma div_round_up_Some (a b r : Z) :
  div_round_up a b = Some r -> b <> 0 /\ r = Z.quot (a - 1) b + 1.
Proof.
  unfold div_round_up, cdiv. destruct (Z.eqb_spec b 0); [discriminate|].
  cbn. by intros [= <-].
Qed.

Lemma cdiv_Some (a b r : Z) : cdiv a b = Some r -> b <> 0 /\ r = Z.quot a b.
Proof. unfold cdiv. destruct (Z.eqb_spec b 0); [discriminate|]. by intros [= <-]. Qed.

Lemma menu_select_inv (selected : Z) (d d' : Display) :
  menu_inv (m_menu d) -> menu_select selected d = Some d' -> menu_inv (m_menu d').
Proof.
  intros Hinv H. unfold menu_select in H. open_bind H. apply draw_menu_shape in H.
  apply (menu_inv_shape _ _ H). clear H d'. rename d0 into d1.
  destruct Hinv as [Hh Hinv]. set (m := m_menu d) in *.
  destruct ((selected <? 0) || (selected >=? Z.of_nat (length (items m)))) eqn:Hsel.
  - injection E as <-. unfold menu_inv. cbn. fold m. split; [exact Hh|].
    intros Hc Hh1. destruct (Hinv Hc Hh1) as (H1 & _ & _).
    split; [exact H1|]. split; [lia|]. rewrite Z.quot_0_l by lia. lia.
  - destruct (Z.eqb_spec (columns m) 0) as [Hc0|Hc0].
    + open_bind E. injection E as <-. unfold menu_inv. cbn. fold m.
      split; [exact Hh|]. intros Hc. lia.
    + open_bind E. rename E0 into Emc. open_bind E. rename E0 into Efc.
      open_bind E. rename E0 into Esc. injection E as <-.
      unfold menu_inv. cbn. fold m. split; [exact Hh|]. intros Hc Hh1.
      destruct (Hinv Hc Hh1) as (H1 & Hf0 & Hfc). split; [exact H1|].
      apply div_round_up_Some in Emc. destruct Emc as [_ ->].
      apply cdiv_Some in Efc. destruct Efc as [_ ->].
      apply cdiv_Some in Esc. destruct Esc as [_ ->].
      apply orb_false_iff in Hsel. destruct Hsel as [Hs0 Hsn].
      apply Z.ltb_ge in Hs0. rewrite Z.geb_leb in Hsn. apply Z.leb_gt in Hsn.
      set (h := line (win_size (menu_win m))) in *.
      set (n := Z.of_nat (length (items m))) in *.
      set (c := columns m) in *. set (first := first_item m) in *.
      rewrite !Z.quot_div_nonneg in * by lia.
      assert (Hsc0 : 0 <= selected / h) by (apply Z.div_pos; lia).
      assert (Hscn : selected / h <= (n - 1) / h) by (apply Z.div_le_mono; lia).
      assert (Hfc0 : 0 <= first / h) by (apply Z.div_pos; lia).
      destruct (Z.ltb_spec (selected / h) (first / h)) as [Hlt|Hge].
      * replace (selected / h >=? first / h + c) with false by lia.
        split; [nia|]. rewrite Z.quot_mul by lia. lia.
      * destruct (Z.geb_spec (selected / h) (first / h + c)) as [Hge2|Hlt2].
        -- split; [nia|]. rewrite Z.quot_mul by lia. lia.
        -- split; [exact Hf0|]. rewrite Z.quot_div_nonneg by lia. exact Hfc.
Qed.

Lemma menu_reachable_inv (d : Display) : menu_reachable d -> menu_inv (m_menu d).
Proof.
  induction 1 as [d0 new_items anchor fg bg style d H|d selected d' _ IH H].
  - by apply menu_show_inv in H.
  - by apply (menu_select_inv selected d d').
Qed.

(** C7. In grid mode, in every menu state reached through [menu_show] and
    [menu_select], the scrollbar mark [draw_menu] computes starts at a line
    that is not negative, ends within the height of the menu window, and
    is at least one line high; and [draw_menu] does compute it whenever the
    window has a line.  (The bounds do not depend on the number of items.) *)
Theorem menu_scrollbar_bounds (d : Display)
  (Hreach : menu_reachable d) (Hgrid : 1 <= columns (m_menu d)) :
  let height := line (win_size (menu_win (m_menu d))) in
  (forall mk, menu_mark (m_menu d) = Some mk ->
     0 <= mark_line mk /\ mark_line mk + mark_height mk <= height /\
     1 <= mark_height mk) /\
  (1 <= height -> exists mk, menu_mark (m_menu d) = Some mk).
Proof.
  intros height. apply menu_reachable_inv in Hreach.
  destruct Hreach as [Hh Hinv]. fold height in Hh, Hinv.
  set (m := m_menu d) in *. set (n := Z.of_nat (length (items m))) in *.
  assert (Hbounds : 1 <= height ->
    let L := Z.quot (n - 1) (columns m) + 1 in
    let mh := Z.min (Z.quot (sq height - 1) L + 1) height in
    let mc := Z.quot (n - 1) height + 1 in
    let fc := Z.quot (first_item m) height in
    let ml := Z.quot ((height - mh) * fc) (Z.max 1 (mc - columns m)) in
    L <> 0 /\ 0 <= ml /\ ml + mh <= height /\ 1 <= mh).
  { intros Hh1 L mh mc fc ml. destruct (Hinv Hgrid Hh1) as (HL & Hf0 & Hfc).
    fold L in HL. fold fc mc in Hfc.
    assert (Hq : 0 <= Z.quot (sq height - 1) L).
    { rewrite Z.quot_div_nonneg by (unfold sq; nia). apply Z.div_pos; unfold sq; nia. }
    assert (Hfc0 : 0 <= fc).
    { unfold fc. rewrite Z.quot_div_nonneg by lia. apply Z.div_pos; lia. }
    assert (Hmh : 1 <= mh <= height) by (unfold mh; lia).
    split; [lia|]. split; [|split; [|lia]].
    - unfold ml. rewrite Z.quot_div_nonneg by nia. apply Z.div_pos; nia.
    - unfold ml. rewrite Z.quot_div_nonneg by nia.
      assert ((height - mh) * fc / Z.max 1 (mc - columns m) <= height - mh); [|lia].
      apply Z.div_le_upper_bound; nia. }
  split.
  - intros mk Hmk. unfold menu_mark in Hmk. fold m n height in Hmk.
    open_bind Hmk. apply div_round_up_Some in E. destruct E as [_ ->].
    open_bind Hmk. clear E.
    open_bind Hmk. apply div_round_up_Some in E. destruct E as [_ ->].
    open_bind Hmk. apply div_round_up_Some in E. destruct E as [Hh0 ->].
    open_bind Hmk. apply cdiv_Some in E. destruct E as [_ ->].
    open_bind Hmk. apply cdiv_Some in E. destruct E as [_ ->].
    injection Hmk as <-. cbn [mark_line mark_height].
    destruct (Hbounds ltac:(lia)) as (_ & H1 & H2 & H3). auto.
  - intros Hh1. destruct (Hbounds Hh1) as (HL & _).
    unfold menu_mark, div_round_up, cdiv. fold m n height.
    cbn zeta in HL.
    repeat match goal with
           | |- context [if ?x =? 0 then None else _] =>
               destruct (Z.eqb_spec x 0); [lia|]; cbn [mbind option_bind]
           end.
    eexists. reflexivity.
Qed.
End MenuFacts.

(** ** Instances of the theorems on concrete input *)

Lemma csi_modifier_decoding_witness :
  exists k,
    @get_next_key ascii_primitives (blank_ui [27; 91; 49; 59; 54; 65; 120]) =
      Some (Some k, set_stdin (blank_ui [27; 91; 49; 59; 54; 65; 120]) [120]) /\
    key k = Named Key_Up /\ modifiers k = Z.lor Mod_Shift Mod_Control.
Proof.
  assert (Hu : idle (blank_ui [27; 91; 49; 59; 54; 65; 120])) by (repeat split).
  destruct (proj1 (@csi_modifier_decoding ascii_primitives _ Hu 5 ltac:(lia)) [120] eq_refl)
    as (k & Hk & Hkey & Hmods & _).
  exists k. repeat split; assumption.
Defined.

(** C9: the code at the byte Ctrl-Z, on a terminal of 80x24 with nothing
    drawn.  [get_next_key] sends SIGTSTP to the process group (and, from
    the handler, to itself), and returns the default-constructed key. *)
Theorem ctrl_z_emits_default_key :
  exists u',
    @get_next_key ascii_primitives (blank_ui [26]) = Some (Some default_Key, u') /\
    signals u' = [raise SIGTSTP; kill 0 SIGTSTP] /\ stdin u' = [].
Proof. eexists. vm_compute. repeat split. Qed.

Lemma compute_pos_avoids_witness :
  line (compute_pos (mkCoord 5 5) (mkCoord 3 10) (mkRect coord_zero (mkCoord 24 80))
          (mkRect (mkCoord 6 0) (mkCoord 10 80)) false) = 2 /\
  line (compute_pos (mkCoord 1 5) (mkCoord 3 10) (mkRect coord_zero (mkCoord 24 80))
          (mkRect (mkCoord 2 0) (mkCoord 10 80)) false) = 12.
Proof.
  split.
  - apply (compute_pos_avoids (mkCoord 5 5) (mkCoord 3 10) (mkRect coord_zero (mkCoord 24 80))
             (mkRect (mkCoord 6 0) (mkCoord 10 80)) false).
    + discriminate.
    + vm_compute. repeat split; discriminate.
  - apply (compute_pos_avoids (mkCoord 1 5) (mkCoord 3 10) (mkRect coord_zero (mkCoord 24 80))
             (mkRect (mkCoord 2 0) (mkCoord 10 80)) false).
    + discriminate.
    + vm_compute. repeat split; discriminate.
Defined.

Lemma ascii_column_length_laws : @column_length_laws ascii_primitives.
Proof.
  unfold column_length_laws. cbn [column_length ascii_primitives].
  unfold ascii_column_length. split; [|split].
  - intros s. lia.
  - intros n Hn. unfold spaces.
    assert (H : forall k, String.length (string_repeat " " k) = k)
      by (induction k as [|k IH]; cbn; [reflexivity | by rewrite IH]).
    rewrite H. lia.
  - intros s.
    assert (H : String.length (s ++ String newline EmptyString) = S (String.length s))
      by (induction s as [|c s IH]; cbn; [reflexivity | by rewrite IH]).
    rewrite H. lia.
Qed.

Lemma draw_fills_line_witness :
  exists w' l,
    @Window_draw ascii_primitives
      [atom_of ("ab" ++ line_break); atom_of "cd"] default_Face small_window = Some w' /\
    current_line w' = Some l /\ @line_columns ascii_primitives l = 10.
Proof.
  destruct (@draw_fills_line ascii_primitives small_window
              [atom_of ("ab" ++ line_break); atom_of "cd"] default_Face [] []
              ascii_column_length_laws eq_refl eq_refl ltac:(vm_compute; discriminate))
    as (w' & kept & dropped & Hdraw & Hsize & _ & _ & Hcur & Hcols & _).
  eexists w', _. split; [exact Hdraw|]. split; [exact Hcur|].
  rewrite Hcols, Hsize. reflexivity.
Defined.

(** C5 as stated fails: an atom wider than the window leaves the line
    wider than the window, and a newline that is not the last byte of an
    atom is stored with it. *)
Lemma draw_line_width_counterexample :
  (exists w' l,
     @Window_draw ascii_primitives [atom_of "abcdef"] default_Face narrow_window = Some w' /\
     current_line w' = Some l /\ l <> [] /\
     @line_columns ascii_primitives l = 6 /\ column (win_size w') = 3) /\
  (exists w' a l,
     @Window_draw ascii_primitives [atom_of ("a" ++ line_break ++ "b")] default_Face
       small_window = Some w' /\
     current_line w' = Some (a :: l) /\ string_has newline (text a) = true).
Proof.
  split.
  - eexists _, _. vm_compute. repeat split. discriminate.
  - eexists _, _, _. vm_compute. repeat split.
Qed.

Lemma menu_scrollbar_bounds_witness :
  exists d mk,
    @menu_reachable ascii_primitives d /\
    menu_mark (m_menu d) = Some mk /\
    0 <= mark_line mk /\ mark_line mk + mark_height mk <= 10 /\ 1 <= mark_height mk.
Proof.
  eassert (E1 : @menu_show ascii_primitives demo_items coord_zero default_Face default_Face
                  MenuPrompt demo_display = Some _) by (vm_compute; reflexivity).
  match type of E1 with
  | _ = Some ?d1 =>
      eassert (E2 : @menu_select ascii_primitives 99 d1 = Some _)
        by (vm_compute; reflexivity)
  end.
  pose proof (reach_menu_select _ _ _ (reach_menu_show _ _ _ _ _ _ _ E1) E2) as Hreach.
  match type of E2 with
  | _ = Some ?d2 =>
      destruct (@menu_scrollbar_bounds ascii_primitives d2 Hreach
                  ltac:(vm_compute; discriminate)) as [Hb Hex];
      destruct (Hex ltac:(vm_compute; discriminate)) as [mk Hmk];
      exists d2, mk
  end.
  split; [exact Hreach|]. split; [exact Hmk|]. exact (Hb mk Hmk).
Defined.

Lemma sgr_mouse_round_trip_witness :
  exists u',
    @on_stdin_readable ascii_primitives 3
      (blank_ui (sgr_mouse 0 11 5 77 ++ sgr_presses [(32, 12, 6)] ++
                 sgr_mouse 0 11 5 109 ++ [120])) =
    Some ([mkKey Mod_MousePressLeft (Coord (mkCoord 4 10));
           mkKey Mod_MousePos (Coord (mkCoord 5 11));
           mkKey Mod_MouseReleaseLeft (Coord (mkCoord 4 10))], u') /\
    stdin u' = [120] /\ Z.land (m_mouse_state u') 1 = 0.
Proof.
  destruct (@sgr_mouse_round_trip ascii_primitives
              (blank_ui (sgr_mouse 0 11 5 77 ++ sgr_presses [(32, 12, 6)] ++
                         sgr_mouse 0 11 5 109 ++ [120]))
              0 11 5 [(32, 12, 6)] [120])
    as (u' & Hkeys & Hin & Hstate & _).
  - repeat split.
  - repeat split; try lia.
  - repeat constructor; lia.
  - reflexivity.
  - reflexivity.
  - exists u'. split; [exact Hkeys|]. split; [exact Hin | exact Hstate].
Defined.

Lemma malformed_sequence_yields_alt_witness :
  @get_next_key ascii_primitives (blank_ui [27; 91; 49; 58; 65]) =
  Some (Some (alt (key_of_codepoint 91)), set_stdin (blank_ui [27; 91; 49; 58; 65]) [65]).
Proof.
  apply (@malformed_sequence_yields_alt ascii_primitives
           (blank_ui [27; 91; 49; 58; 65]) 91 [49; 58] [65]).
  - repeat split.
  - apply (csi_bad_param [] [49] 58 [65]).
    + by left.
    + repeat constructor.
    + cbn. lia.
    + by left.
  - reflexivity.
Defined.

(** C3 as stated fails: after ESC [ a byte that is no parameter byte makes
    [get_next_key] return the key Alt+[; and when the byte that breaks the
    sequence is an ESC it is consumed with it, so the ESC [ A it starts is
    read as the two keys [ and A. *)
Lemma malformed_csi_counterexample :
  @get_next_key ascii_primitives (blank_ui [27; 91; 58]) =
    Some (Some (alt (key_of_codepoint 91)), set_stdin (blank_ui [27; 91; 58]) []) /\
  (forall u', @get_next_key ascii_primitives (blank_ui [27; 91; 58]) <> Some (None, u')) /\
  @on_stdin_readable ascii_primitives 4 (blank_ui [27; 91; 27; 91; 65]) =
    Some ([alt (key_of_codepoint 91); key_of_codepoint 91; key_of_codepoint 65],
          set_stdin (blank_ui [27; 91; 27; 91; 65]) []).
Proof.
  split; [|split].
  - vm_compute. reflexivity.
  - intros u'. vm_compute. discriminate.
  - vm_compute. reflexivity.
Qed.

Lemma esc_esc_csi_three_keys_witness :
  @on_stdin_readable ascii_primitives 3 (blank_ui [27; 27; 91; 65; 120]) =
  Some ([alt (key_of_codepoint 27); key_of_codepoint 91; key_of_codepoint 65],
        set_stdin (blank_ui [27; 27; 91; 65; 120]) [120]).
Proof.
  apply (@esc_esc_csi_three_keys ascii_primitives (blank_ui [27; 27; 91; 65; 120]) [120]).
  - repeat split.
  - reflexivity.
Defined.

(** C4 as stated fails: the first key decoded from ESC ESC [ A is Alt with
    the codepoint 0x1b, not Alt+Up; the call leaves [ and A unread, and the
    three keys the bytes yield contain no Up. *)
Lemma esc_esc_csi_counterexample :
  @get_next_key ascii_primitives (blank_ui [27; 27; 91; 65]) =
    Some (Some (alt (key_of_codepoint 27)), set_stdin (blank_ui [27; 27; 91; 65]) [91; 65]) /\
  alt (key_of_codepoint 27) <> alt (key_of_named Key_Up) /\
  @on_stdin_readable ascii_primitives 4 (blank_ui [27; 27; 91; 65]) =
    Some ([alt (key_of_codepoint 27); key_of_codepoint 91; key_of_codepoint 65],
          set_stdin (blank_ui [27; 27; 91; 65]) []).
Proof.
  split; [|split].
  - vm_compute. reflexivity.
  - discriminate.
  - vm_compute. reflexivity.
Qed.

Lemma pending_resize_delivered_first_witness :
  @get_next_key ascii_primitives (set_m_resize_pending (blank_ui [97]) true) =
    Some (Some (resize (mkCoord 23 80)), blank_ui [97]) /\
  exists u1,
    @get_next_key ascii_primitives
      (set_resize_pending_flag (set_m_resize_pending (blank_ui [97]) true) true) =
      Some (Some (resize (mkCoord 23 80)), u1) /\
    stdin u1 = [97].
Proof.
  split.
  - apply (proj1 (@pending_resize_delivered_first ascii_primitives
                    (set_m_resize_pending (blank_ui [97]) true) eq_refl eq_refl)).
    reflexivity.
  - eassert (E : @check_resize ascii_primitives false
                   (set_resize_pending_flag (set_m_resize_pending (blank_ui [97]) true) true)
                 = Some (tt, _)) by (vm_compute; reflexivity).
    destruct (proj2 (@pending_resize_delivered_first ascii_primitives
                       (set_resize_pending_flag (set_m_resize_pending (blank_ui [97]) true) true)
                       eq_refl eq_refl) _ E) as (Hkey & Hin & _).
    eexists. split; [exact Hkey | exact Hin].
Defined.

Lemma x10_release_untracked_witness :
  exists u',
    @get_next_key ascii_primitives (blank_ui [27; 91; 77; 35; 40; 41; 7]) =
      Some (Some (mkKey Mod_MousePos (Coord (mkCoord 8 7))), u') /\
    m_mouse_state u' = 0 /\ stdin u' = [7].
Proof.
  destruct (@x10_release_untracked ascii_primitives
              (blank_ui [27; 91; 77; 35; 40; 41; 7]) [] 35 40 41 [7])
    as (k & u' & Hkey & -> & _ & _ & Hstate & Hin).
  - repeat split.
  - constructor.
  - cbn. lia.
  - reflexivity.
  - reflexivity.
  - reflexivity.
  - reflexivity.
  - exists u'. split; [exact Hkey|]. split; [exact Hstate | exact Hin].
Defined.

(** ** More of the input decoder *)

Section DecoderMore.
Context {prim : DisplayPrimitives}.

(** X1. Hangup: once SIGHUP has been flagged, [get_next_key] returns no key and
    reads no byte; it puts the handlers of SIGWINCH and SIGCONT back to the
    default, destroys the main window and disables the stdin watcher.  The
    flag stays raised, so every later call does the same, and a run of the
    stdin watcher hands no key over. *)
Theorem get_next_key_hangup (u : NCursesUI) (Hh : sighup_raised u = true) :
  exists u',
    get_next_key u = Some (None, u') /\
    stdin u' = stdin u /\ signals u' = signals u /\
    m_stdin_watcher u' = false /\
    Window_present (m_window (display u')) = false /\
    signal_handler u' SIGWINCH = SIG_DFL /\ signal_handler u' SIGCONT = SIG_DFL /\
    signal_handler u' SIGTSTP = signal_handler u SIGTSTP /\
    sighup_raised u' = true /\
    forall n, on_stdin_readable n u = Some ([], if n is O then u else u').
Proof.
  assert (E : exists u', get_next_key u = Some (None, u') /\
    stdin u' = stdin u /\ signals u' = signals u /\
    m_stdin_watcher u' = false /\
    Window_present (m_window (display u')) = false /\
    signal_handler u' SIGWINCH = SIG_DFL /\ signal_handler u' SIGCONT = SIG_DFL /\
    signal_handler u' SIGTSTP = signal_handler u SIGTSTP /\
    sighup_raised u' = true).
  { unfold get_next_key, bind, get_ui, modify, on_display, ret. rewrite Hh.
    eexists. split; [reflexivity|]. cbn. repeat split; try assumption.
    destruct (Window_present (m_window (display u))) eqn:Hp; [reflexivity | exact Hp]. }
  destruct E as (u' & Hk & H). exists u'. split; [exact Hk|].
  repeat (split; [apply H|]). intros [|n]; [reflexivity|].
  cbn [on_stdin_readable]. unfold bind at 1. rewrite Hk. reflexivity.
Qed.

Lemma parse_key_control (c : Z) (u : NCursesUI) :
  0 <= c < 27 -> c <> 8 -> c <> 9 -> c <> 10 -> c <> 13 -> c <> 26 ->
  parse_key c u = Some (ctrl (key_of_codepoint (c + 96)), u).
Proof.
  intros Hc H8 H9 H10 H13 H26. unfold parse_key.
  change (control 109) with 13. change (control 106) with 10.
  change (control 105) with 9. change (control 104) with 8. change (control 122) with 26.
  replace (c =? 13) with false by lia. replace (c =? 10) with false by lia.
  replace (c =? 9) with false by lia. replace (c =? 8) with false by lia.
  replace (c =? 26) with false by lia. replace (c <? 27) with true by lia.
  cbn [orb]. unfold ret, char_a.
  replace (to_Codepoint (c - 1 + 97)) with (c + 96); [reflexivity|].
  unfold to_Codepoint. rewrite Z.mod_small by lia. lia.
Qed.

Lemma read_key_byte (u : NCursesUI) (c : Z) (rest : list Z) :
  stdin u = c :: rest -> c <> 27 ->
  read_key u =
  match parse_key c (set_stdin u rest) with
  | Some (k, u') => Some (Some k, u')
  | None => None
  end.
Proof.
  intros E Hc. unfold read_key, get_char. unfold bind at 1. rewrite E.
  replace (c =? 27) with false by lia. cbn [negb]. unfold bind, ret.
  destruct (parse_key c _) as [[k u']|]; reflexivity.
Qed.

Lemma read_key_esc_byte (u : NCursesUI) (c : Z) (rest : list Z) :
  stdin u = 27 :: c :: rest -> c <> 91 -> c <> 79 ->
  read_key u =
  match parse_key c (set_stdin u rest) with
  | Some (k, u') => Some (Some (alt k), u')
  | None => None
  end.
Proof.
  intros E H91 H79. unfold read_key, get_char. unfold bind at 1. rewrite E.
  cbn [negb Z.eqb Pos.eqb]. unfold bind at 1. cbn [stdin set_stdin].
  replace (c =? 91) with false by lia. replace (c =? 79) with false by lia.
  unfold bind, ret. destruct (parse_key c _) as [[k u']|]; reflexivity.
Qed.

(** X2. The control bytes: a byte below 27 other than backspace, tab, line
    feed, carriage return and Ctrl-Z is the key Control with the letter
    ['a' + c - 1] (the NUL byte gives Control with the backquote); carriage
    return and line feed are both Return, byte 9 is Tab, bytes 8 and 127 are
    both Backspace.  Each consumes exactly its byte. *)
Theorem control_bytes (u : NCursesUI) (c : Z) (rest : list Z)
  (Hu : idle u) (E : stdin u = c :: rest) :
  (0 <= c < 27 -> c <> 8 -> c <> 9 -> c <> 10 -> c <> 13 -> c <> 26 ->
   get_next_key u = Some (Some (mkKey Mod_Control (Codepoint (c + 96))), set_stdin u rest)) /\
  (c = 13 \/ c = 10 ->
   get_next_key u = Some (Some (key_of_named Key_Return), set_stdin u rest)) /\
  (c = 9 -> get_next_key u = Some (Some (key_of_named Key_Tab), set_stdin u rest)) /\
  (c = 8 \/ c = 127 ->
   get_next_key u = Some (Some (key_of_named Key_Backspace), set_stdin u rest)).
Proof.
  rewrite get_next_key_idle by assumption.
  split; [|split; [|split]].
  - intros Hc H8 H9 H10 H13 H26. rewrite (read_key_byte u c rest E) by lia.
    rewrite parse_key_control by assumption. reflexivity.
  - intros [-> | ->]; by rewrite (read_key_byte u _ rest E).
  - intros ->. by rewrite (read_key_byte u _ rest E).
  - intros [-> | ->]; by rewrite (read_key_byte u _ rest E).
Qed.

(** X3. ESC as a prefix: a lone ESC is the key Escape; ESC followed by a byte
    other than ESC, [ and O is what that byte decodes to without the ESC,
    with Alt added, and consumes one byte more. *)
Theorem esc_prefix_adds_alt (u : NCursesUI) (Hu : idle u) :
  (stdin u = [27] ->
   get_next_key u = Some (Some (key_of_named Key_Escape), set_stdin u [])) /\
  (forall c rest,
     stdin u = 27 :: c :: rest -> c <> 27 -> c <> 91 -> c <> 79 ->
     get_next_key u =
     match get_next_key (set_stdin u (c :: rest)) with
     | Some (k, u') => Some (option_map alt k, u')
     | None => None
     end).
Proof.
  split.
  - intros E. rewrite get_next_key_idle by assumption.
    unfold read_key, get_char, bind, ret. rewrite E. reflexivity.
  - intros c rest E H27 H91 H79.
    rewrite !get_next_key_idle by assumption.
    rewrite (read_key_esc_byte u c rest E) by assumption.
    rewrite (read_key_byte (set_stdin u (c :: rest)) c rest eq_refl) by assumption.
    cbn [set_stdin stdin].
    change (set_stdin (set_stdin u (c :: rest)) rest) with (set_stdin u rest).
    destruct (parse_key c _) as [[k u']|]; reflexivity.
Qed.


Lemma private_prefix_split (u : NCursesUI) (pm body : list Z) :
  private_prefix pm ->
  stdin u = pm ++ body ->
  match body with c :: _ => is_private_mode c = false | [] => True end ->
  exists p, parse_csi u = csi_after_scan p body u.
Proof.
  intros [->|(p & -> & Hp)] E Hb.
  - exists 0. cbn [app] in E. rewrite parse_csi_plain; rewrite E; [reflexivity | exact Hb].
  - exists p. apply (parse_csi_private u p body E Hp).
Qed.

(** What a CSI sequence decodes to once [parse_csi] has run over a
    parameter text [l] and met the final byte [final]. *)
Lemma csi_params_then_final (u : NCursesUI) (pm l : list Z) (final : Z) (rest : list Z) :
  idle u -> private_prefix pm -> Forall param_byte l -> (semicolons l < 16)%nat ->
  64 <= final <= 126 ->
  stdin u = 27 :: 91 :: pm ++ l ++ final :: rest ->
  exists p params,
    get_next_key u =
    match csi_dispatch p params final (set_stdin u rest) with
    | Some (k, u') => Some (Some (value_or k (alt (key_of_codepoint 91))), u')
    | None => None
    end.
Proof.
  intros Hu Hpm Hl Hn Hf E.
  rewrite get_next_key_idle by assumption. rewrite (read_key_csi u _ E).
  destruct (private_prefix_split (set_stdin u (pm ++ l ++ final :: rest)) pm
              (l ++ final :: rest) Hpm eq_refl) as (p & Hp).
  { destruct Hl as [|c l Hc _]; cbn [app].
    - unfold is_private_mode. repeat (rewrite (proj2 (Z.eqb_neq _ _)) by lia). reflexivity.
    - by apply param_byte_not_private. }
  rewrite Hp. unfold csi_after_scan.
  destruct (scan_from_param_text l Hl 0 zero_params) as (params & Hlen & Hscan);
    [lia | reflexivity |].
  rewrite Hscan, scan_from_final by lia.
  replace ((final <? 64) || (final >? 126)) with false by lia.
  exists p, params. reflexivity.
Qed.

(** X4. Shift-Tab and the focus events take nothing from the parameters: after
    any parameter text the final byte Z is Tab with exactly Shift, I is
    FocusIn and O is FocusOut, both without modifiers. *)
Theorem csi_keys_without_parameters (u : NCursesUI) (pm l : list Z) (final : Z)
  (rest : list Z)
  (Hu : idle u) (Hpm : private_prefix pm) (Hl : Forall param_byte l)
  (Hn : (semicolons l < 16)%nat)
  (E : stdin u = 27 :: 91 :: pm ++ l ++ final :: rest) :
  (final = 90 ->
   get_next_key u = Some (Some (mkKey Mod_Shift (Named Key_Tab)), set_stdin u rest)) /\
  (final = 73 ->
   get_next_key u = Some (Some (key_of_named Key_FocusIn), set_stdin u rest)) /\
  (final = 79 ->
   get_next_key u = Some (Some (key_of_named Key_FocusOut), set_stdin u rest)).
Proof.
  pose proof (fun H => csi_params_then_final u pm l final rest Hu Hpm Hl Hn H E) as K.
  repeat split; intros ->; destruct K as (p & params & ->); solve [lia | reflexivity].
Qed.

(** X5. A cursor or function key sent as SS3 decodes to the same key as the
    CSI sequence with the same final byte and at most one parameter: the
    named key without modifiers. *)
Theorem ss3_agrees_with_csi (u : NCursesUI) (ds : list Z) (final : Z) (named : NamedKey)
  (rest : list Z)
  (Hu : idle u) (Hk : cursor_final final = Some named)
  (Hds : Forall (fun d => isdigit d = true) ds) :
  (stdin u = 27 :: 79 :: final :: rest ->
   get_next_key u = Some (Some (key_of_named named), set_stdin u rest)) /\
  (stdin u = 27 :: 91 :: ds ++ final :: rest ->
   get_next_key u = Some (Some (key_of_named named), set_stdin u rest)).
Proof.
  apply cursor_final_cases in Hk. split.
  - intros E. rewrite get_next_key_idle by assumption. rewrite (read_key_ss3 u _ E).
    unfold parse_ss3, bind, get_char, ret. cbn [stdin set_stdin value_or].
    cbn in Hk.
    repeat (destruct Hk as [Hk|Hk]; [inversion Hk; subst; reflexivity|]). contradiction.
  - intros E. rewrite get_next_key_idle by assumption. rewrite (read_key_csi u _ E).
    rewrite parse_csi_plain.
    2:{ cbn [stdin set_stdin]. destruct Hds as [|d ds Hd _]; cbn [app].
        - cbn in Hk.
          repeat (destruct Hk as [Hk|Hk]; [inversion Hk; subst; reflexivity|]). contradiction.
        - apply param_byte_not_private. by left. }
    unfold csi_after_scan. cbn [stdin set_stdin].
    rewrite scan_from_digits by (assumption || lia || reflexivity).
    cbn in Hk.
    repeat (destruct Hk as [Hk|Hk];
            [inversion Hk; subst; rewrite scan_from_final by lia; reflexivity|]).
    contradiction.
Qed.

(** X6. The keyboard form [CSI cp ; m+1 u] is the codepoint [cp] with the
    modifiers of the mask [m]. *)
Theorem csi_u_key (u : NCursesUI) (cp m : Z) (rest : list Z)
  (Hu : idle u) (Hcp : 0 <= cp < 2147483648) (Hm : 0 <= m < 2147483647)
  (E : stdin u = 27 :: 91 :: digits_of cp ++ 59 :: digits_of (m + 1) ++ 117 :: rest) :
  get_next_key u = Some (Some (mkKey (modifier_set m) (Codepoint cp)), set_stdin u rest).
Proof.
  rewrite get_next_key_idle by assumption. rewrite (read_key_csi u _ E).
  rewrite parse_csi_plain.
  2:{ cbn [stdin set_stdin]. pose proof (digits_of_isdigit cp ltac:(lia)) as Hd.
      destruct Hd as [|d ds Hd _]; cbn [app]; [reflexivity|].
      apply param_byte_not_private. by left. }
  unfold csi_after_scan. cbn [stdin set_stdin].
  rewrite scan_from_number by (lia || reflexivity).
  rewrite scan_from_semicolon by lia.
  rewrite scan_from_number by (lia || reflexivity).
  rewrite scan_from_final by lia.
  cbn -[wrap_int to_Codepoint parse_mask Z.max]. unfold ret, masked_key.
  cbn -[wrap_int to_Codepoint parse_mask Z.max].
  rewrite wrap_int_small, to_Codepoint_small, parse_mask_modifier_set by lia.
  replace (Z.max (m + 1 - 1) 0) with m by lia. reflexivity.
Qed.

Lemma sgr_mouse_scanned (u : NCursesUI) (b x y final : Z) (rest : list Z) :
  idle u ->
  0 <= b < 2147483648 -> 0 <= x < 2147483648 -> 0 <= y < 2147483648 ->
  64 <= final <= 126 ->
  stdin u = sgr_mouse b x y final ++ rest ->
  get_next_key u =
  match csi_dispatch 60 (<[2%nat:=y]> (<[1%nat:=x]> (<[0%nat:=b]> zero_params))) final
          (set_stdin u rest) with
  | Some (k, u') => Some (Some (value_or k (alt (key_of_codepoint 91))), u')
  | None => None
  end.
Proof.
  intros Hu Hb Hx Hy Hfin E.
  rewrite get_next_key_idle by assumption.
  unfold sgr_mouse in E. rewrite <- !app_assoc in E. cbn [app] in E.
  rewrite (read_key_csi u _ E).
  erewrite parse_csi_private; [| cbn [stdin set_stdin]; reflexivity | reflexivity].
  unfold csi_after_scan.
  rewrite scan_from_number by (lia || reflexivity).
  rewrite scan_from_semicolon by lia.
  rewrite scan_from_number by (lia || reflexivity).
  rewrite scan_from_semicolon by lia.
  rewrite scan_from_number by (lia || reflexivity).
  rewrite scan_from_final by lia.
  replace ((final <? 64) || (final >? 126)) with false by lia.
  reflexivity.
Qed.

(** X7. The wheel: an SGR report whose button code has [b & 0x43 = 64] is the
    key Scroll with the code [-wheel_scroll_amount], one with
    [b & 0x43 = 65] the key Scroll with [+wheel_scroll_amount], both with
    the keyboard modifiers of [b]; the coordinates of the report are not
    part of the key, and the tracked button state is left as it was. *)
Theorem sgr_wheel_scroll (u : NCursesUI) (b x y : Z) (rest : list Z)
  (Hu : idle u) (Hr : 0 <= b < 2147483648 /\ 0 <= x < 2147483648 /\ 0 <= y < 2147483648)
  (Hb : Z.land b 67 = 64 \/ Z.land b 67 = 65)
  (E : stdin u = sgr_mouse b x y 77 ++ rest) :
  get_next_key u =
  Some (Some (mkKey (Z.lor (modifier_set (Z.land (Z.shiftr b 2) 7)) Mod_Scroll)
                (Codepoint (to_Codepoint ((if Z.land b 67 =? 65 then 1 else -1) *
                                          m_wheel_scroll_amount u)))),
        set_stdin u rest).
Proof.
  destruct Hr as (Hb0 & Hx & Hy).
  rewrite (sgr_mouse_scanned u b x y 77 rest) by (assumption || lia).
  cbn -[wrap_int to_Codepoint parse_mask Z.land Z.shiftr Z.mul].
  unfold bind, ret, get_ui.
  cbn -[wrap_int to_Codepoint parse_mask Z.land Z.shiftr Z.mul].
  rewrite (to_Codepoint_small b) by lia.
  destruct Hb as [Hb|Hb]; rewrite Hb;
    cbn -[wrap_int to_Codepoint parse_mask Z.land Z.shiftr Z.mul];
    unfold mouse_scroll, bind, ret, get_ui;
    cbn -[wrap_int to_Codepoint parse_mask Z.land Z.shiftr Z.mul];
    by rewrite parse_mask_modifier_set.
Qed.

(** X8. Mouse reports that are no key: an SGR report with [b & 0x43 = 3] (the
    release code of the X10 form), and a report with final byte [m]
    without the SGR prefix; both give Alt+[ like any sequence that fails,
    and the second is given up before the three bytes of an X10 report are
    read. *)
Theorem undecoded_mouse_reports (u : NCursesUI) (Hu : idle u) :
  (forall b x y final rest,
     0 <= b < 2147483648 -> 0 <= x < 2147483648 -> 0 <= y < 2147483648 ->
     Z.land b 67 = 3 -> final = 77 \/ final = 109 ->
     stdin u = sgr_mouse b x y final ++ rest ->
     get_next_key u = Some (Some (alt (key_of_codepoint 91)), set_stdin u rest)) /\
  (forall l rest,
     Forall param_byte l -> (semicolons l < 16)%nat ->
     stdin u = 27 :: 91 :: l ++ 109 :: rest ->
     get_next_key u = Some (Some (alt (key_of_codepoint 91)), set_stdin u rest)).
Proof.
  split.
  - intros b x y final rest Hb Hx Hy Hland Hfin E.
    rewrite (sgr_mouse_scanned u b x y final rest) by (assumption || lia).
    destruct Hfin; subst final;
      cbn -[wrap_int to_Codepoint parse_mask Z.land Z.shiftr];
      unfold bind, ret, get_ui;
      cbn -[wrap_int to_Codepoint parse_mask Z.land Z.shiftr];
      rewrite (to_Codepoint_small b) by lia; rewrite Hland; reflexivity.
  - intros l rest Hl Hn E.
    rewrite get_next_key_idle by assumption. rewrite (read_key_csi u _ E).
    rewrite parse_csi_plain.
    2:{ cbn [stdin set_stdin]. destruct Hl as [|c l Hc _]; cbn [app]; [reflexivity|].
        by apply param_byte_not_private. }
    unfold csi_after_scan. cbn [stdin set_stdin].
    destruct (scan_from_param_text l Hl 0 zero_params) as (params & Hlen & Hscan);
      [lia | reflexivity |].
    rewrite Hscan, scan_from_final by lia. reflexivity.
Qed.

End DecoderMore.

(** ** The decoder only consumes input *)
Section DecoderProgress.
Context {prim : DisplayPrimitives}.

Lemma only_reads_refl (u : NCursesUI) : only_reads u u.
Proof. split; [reflexivity | by destruct u]. Qed.

Lemma only_reads_trans (u v w : NCursesUI) :
  only_reads u v -> only_reads v w -> only_reads u w.
Proof.
  intros (S1 & E1) (S2 & E2). split; [by etrans|].
  rewrite E2. rewrite E1 at 1. reflexivity.
Qed.

Lemma only_reads_set_stdin (u : NCursesUI) (l : list Z) :
  l `suffix_of` stdin u -> only_reads u (set_stdin u l).
Proof. intros H. split; [exact H | by destruct u]. Qed.

Lemma only_reads_set_mouse (u : NCursesUI) (z : Z) :
  only_reads u (set_m_mouse_state u z).
Proof. split; [reflexivity | by destruct u]. Qed.

Lemma only_reads_drop (u u' : NCursesUI) (c : Z) (r : list Z) :
  only_reads (set_stdin u r) u' -> only_reads (set_stdin u (c :: r)) u'.
Proof.
  intros R. eapply only_reads_trans; [|exact R].
  apply (only_reads_set_stdin (set_stdin u (c :: r)) r). by apply suffix_cons_r.
Qed.

Lemma reads_ret {A} (a : A) (u : NCursesUI) : reads_at u (ret a).
Proof. exists a, u. split; [reflexivity | apply only_reads_refl]. Qed.

Lemma reads_bind {A B} (m : UI A) (f : A -> UI B) (u : NCursesUI) :
  reads_at u m ->
  (forall a u', m u = Some (a, u') -> only_reads u u' -> reads_at u' (f a)) ->
  reads_at u (bind m f).
Proof.
  intros (a & u' & E & R) H. destruct (H a u' E R) as (b & u'' & E' & R').
  exists b, u''. split; [unfold bind; by rewrite E | by eapply only_reads_trans].
Qed.

Lemma reads_bind_all {A B} (m : UI A) (f : A -> UI B) (u : NCursesUI) :
  reads_at u m -> (forall a u', reads_at u' (f a)) -> reads_at u (bind m f).
Proof. intros Hm Hf. apply reads_bind; [exact Hm | intros; apply Hf]. Qed.

Lemma reads_get_ui (u : NCursesUI) : reads_at u get_ui.
Proof. exists u, u. split; [reflexivity | apply only_reads_refl]. Qed.

Lemma reads_get_char (u : NCursesUI) : reads_at u get_char.
Proof.
  unfold reads_at, get_char. destruct (stdin u) as [|c rest] eqn:E.
  - exists None, u. split; [reflexivity | apply only_reads_refl].
  - exists (Some c), (set_stdin u rest). split; [reflexivity|].
    apply only_reads_set_stdin. rewrite E. by apply suffix_cons_r.
Qed.

Lemma reads_next_char (u : NCursesUI) : reads_at u next_char.
Proof.
  unfold next_char. apply reads_bind_all; [apply reads_get_char|].
  intros; apply reads_ret.
Qed.

Lemma reads_mouse_button (m : Z) (coord : Code) (left release : bool) (u : NCursesUI) :
  reads_at u (mouse_button m coord left release).
Proof.
  unfold mouse_button. apply reads_bind_all; [apply reads_get_ui|]. intros u0 u1.
  destruct release; cbn [negb];
    (apply reads_bind_all; [|intros; apply reads_ret]);
    eexists tt, _; (split; [reflexivity | apply only_reads_set_mouse]).
Qed.

Lemma reads_mouse_scroll (m : Z) (down : bool) (u : NCursesUI) :
  reads_at u (mouse_scroll m down).
Proof.
  unfold mouse_scroll. apply reads_bind_all; [apply reads_get_ui|].
  intros; apply reads_ret.
Qed.

Ltac reads_step :=
  first
    [ apply reads_ret | apply reads_get_ui | apply reads_next_char | apply reads_get_char
    | apply reads_mouse_button | apply reads_mouse_scroll
    | apply reads_bind_all; [| intros ? ?]
    | match goal with |- reads_at _ (if ?b then _ else _) => destruct b end
    | match goal with |- reads_at _ (match ?x with _ => _ end) => destruct x end ].

Lemma reads_utf8_codepoint (c : Z) (u : NCursesUI) : reads_at u (utf8_codepoint c).
Proof. unfold utf8_codepoint. cbn zeta. repeat reads_step. Qed.

Lemma reads_parse_key (c : Z) (u : NCursesUI) : c <> 26 -> reads_at u (parse_key c).
Proof.
  intros Hc. unfold parse_key.
  change (control 122) with 26.
  destruct (Z.eqb_spec c 26); [contradiction|].
  repeat first [apply reads_utf8_codepoint | reads_step].
Qed.

Lemma reads_csi_dispatch (pm : Z) (params : list Z) (c : Z) (u : NCursesUI) :
  reads_at u (csi_dispatch pm params c).
Proof. unfold csi_dispatch. cbn zeta. repeat reads_step. Qed.

Lemma scan_params_suffix (input : list Z) (count : nat) (params : list Z) (c : Z) :
  match scan_params input count params c with
  | scanned _ _ rest | abandoned rest => rest `suffix_of` input
  end.
Proof.
  revert count params c. induction input as [|c' input IH]; intros count params c.
  - rewrite scan_params_unfold. unfold scan_from.
    repeat match goal with |- context [if ?b then _ else _] => destruct b end; reflexivity.
  - rewrite scan_params_unfold. unfold scan_from.
    repeat match goal with |- context [if ?b then _ else _] => destruct b end;
      try reflexivity;
      match goal with |- context [scan_params input ?n ?p ?x] =>
        specialize (IH n p x);
        destruct (scan_params input n p x); by apply suffix_cons_r
      end.
Qed.

Lemma reads_parse_csi (u : NCursesUI) : reads_at u parse_csi.
Proof.
  unfold parse_csi.
  apply reads_bind_all; [apply reads_next_char|]. intros c u1.
  apply reads_bind_all; [repeat reads_step|]. intros [pm c'] u2.
  apply reads_bind; [apply reads_get_ui|]. intros u3 u4 E _.
  injection E as <- <-.
  pose proof (scan_params_suffix (stdin u2) 0 (replicate 16 0) c') as Hs.
  destruct (scan_params (stdin u2) 0 (replicate 16 0) c') as [params cf rest|rest].
  - apply reads_bind.
    + eexists tt, _. split; [reflexivity | by apply only_reads_set_stdin].
    + intros _ u5 _ _. destruct ((cf <? 64) || (cf >? 126));
        [apply reads_ret | apply reads_csi_dispatch].
  - apply reads_bind.
    + eexists tt, _. split; [reflexivity | by apply only_reads_set_stdin].
    + intros; apply reads_ret.
Qed.

Lemma reads_parse_ss3 (u : NCursesUI) : reads_at u parse_ss3.
Proof.
  unfold parse_ss3. apply reads_bind_all; [repeat reads_step|].
  intros; apply reads_ret.
Qed.

Lemma get_next_key_progress (u : NCursesUI) (c : Z) (rest : list Z)
  (Hu : idle u) (E : stdin u = c :: rest)
  (Hz : c <> 26 /\ (c = 27 -> head rest <> Some 26)) :
  exists k u',
    get_next_key u = Some (Some k, u') /\
    stdin u' `suffix_of` rest /\
    u' = set_stdin (set_m_mouse_state u (m_mouse_state u')) (stdin u').
Proof.
  destruct Hz as (Hc & Hesc).
  rewrite get_next_key_idle by assumption.
  assert (K : exists k u', read_key u = Some (Some k, u') /\
                           only_reads (set_stdin u rest) u').
  { destruct (Z.eq_dec c 27) as [->|Hne].
    - destruct rest as [|c' r].
      + unfold read_key, bind, get_char. rewrite E. cbn.
        eexists _, _. split; [reflexivity | apply only_reads_refl].
      + destruct (Z.eq_dec c' 91) as [->|H91]; [|destruct (Z.eq_dec c' 79) as [->|H79]].
        * rewrite (read_key_csi u _ E).
          destruct (reads_parse_csi (set_stdin u r)) as (k & u' & -> & R).
          eexists _, u'. split; [reflexivity|].
          by apply only_reads_drop.
        * rewrite (read_key_ss3 u _ E).
          destruct (reads_parse_ss3 (set_stdin u r)) as (k & u' & -> & R).
          eexists _, u'. split; [reflexivity|].
          by apply only_reads_drop.
        * rewrite (read_key_esc_byte u c' r E H91 H79).
          assert (c' <> 26) by (intros ->; by apply Hesc).
          destruct (reads_parse_key c' (set_stdin u r)) as (k & u' & -> & R);
            [assumption|].
          eexists _, u'. split; [reflexivity|].
          by apply only_reads_drop.
    - rewrite (read_key_byte u c rest E Hne).
      destruct (reads_parse_key c (set_stdin u rest)) as (k & u' & -> & R); [assumption|].
      eexists _, u'. split; [reflexivity | exact R]. }
  destruct K as (k & u' & -> & Hs & Hu').
  exists k, u'. split; [reflexivity|]. split; [exact Hs|].
  rewrite Hu' at 1. by destruct u.
Qed.


(** X10. The stdin watcher drains its input: when no byte is Ctrl-Z and the
    bound on the calls exceeds the bytes waiting, the loop ends with stdin
    empty, hands the callback at most one key per byte and at least one key
    if there was input, and leaves the UI as it was but for the tracked
    mouse buttons. *)
Theorem watcher_drains_input (n : nat) (u : NCursesUI)
  (Hu : idle u) (Hz : 26 ∉ stdin u) (Hn : (length (stdin u) < n)%nat) :
  exists keys u',
    on_stdin_readable n u = Some (keys, u') /\
    stdin u' = [] /\
    (length keys <= length (stdin u))%nat /\
    (stdin u <> [] -> keys <> []) /\
    u' = set_stdin (set_m_mouse_state u (m_mouse_state u')) [].
Proof.
  revert u Hu Hz Hn. induction n as [|n IH]; intros u Hu Hz Hn; [lia|].
  cbn [on_stdin_readable]. unfold bind at 1.
  destruct (stdin u) as [|c rest] eqn:E.
  - rewrite get_next_key_idle by assumption.
    unfold read_key, bind, get_char, ret. rewrite E.
    exists [], u. split; [reflexivity|]. split; [exact E|].
    split; [cbn; lia|]. split; [done|].
    destruct u; cbn in *; by subst.
  - destruct (get_next_key_progress u c rest Hu E) as (k & u1 & -> & Hs & Hu1).
    { split; [intros ->; apply Hz; left|].
      intros _ H. destruct rest as [|c' r]; [discriminate|].
      injection H as ->. apply Hz. right; left. }
    assert (Hlen : (length (stdin u1) <= length rest)%nat) by (by apply suffix_length).
    destruct (IH u1) as (keys & u2 & E2 & Hnil & Hk & _ & Hu2).
    + rewrite Hu1. exact Hu.
    + intros H. apply Hz. right. destruct Hs as (l & ->). apply elem_of_app. by right.
    + cbn [length] in Hn. lia.
    + unfold bind. rewrite E2. exists (k :: keys), u2.
      split; [reflexivity|]. split; [exact Hnil|].
      split; [cbn [length]; lia|]. split; [done|].
      rewrite Hu2 at 1. rewrite Hu1. by destruct u.
Qed.

End DecoderProgress.

(** ** More on the layout *)
Section LayoutMore.

(** X11. The box [compute_pos] places never covers a cell of [to_avoid],
    whatever the anchor, the sizes and the bounding rectangle are. *)
Theorem compute_pos_never_overlaps (anchor sz : DisplayCoord) (rect to_avoid : Rect)
  (prefer_above : bool) (l c : Z) :
  ~ (in_box (compute_pos anchor sz rect to_avoid prefer_above) sz l c /\
     in_box (pos to_avoid) (size to_avoid) l c).
Proof.
  unfold compute_pos, in_box.
  destruct (coord_eqb (size to_avoid) coord_zero) eqn:Hz; cbn [negb].
  - apply coord_eqb_eq in Hz. rewrite Hz. cbn. lia.
  - destruct (avoid_test _ sz to_avoid) eqn:Ht.
    + cbn zeta.
      destruct (Z.ltb_spec (line (set_line (place_pos anchor sz rect prefer_above)
                  (Z.min (line (pos to_avoid)) (line anchor) - line sz))) 0)
        as [Hneg|Hpos]; cbn [set_line line column coord_add] in *; lia.
    + assert (Hn : ~ boxes_meet_inclusive (place_pos anchor sz rect prefer_above) sz
                     (pos to_avoid) (size to_avoid)).
      { intros H. apply avoid_test_inclusive in H. congruence. }
      unfold boxes_meet_inclusive in Hn. lia.
Qed.

Lemma place_pos_column (anchor sz : DisplayCoord) (rect : Rect) (prefer_above : bool) :
  let rect_end := column (pos rect) + column (size rect) in
  column (place_pos anchor sz rect prefer_above) =
  if column anchor + column sz >? rect_end
  then Z.max (column (pos rect)) (rect_end - column sz)
  else column anchor.
Proof.
  unfold place_pos. cbn zeta.
  destruct prefer_above; cbn [negb];
    repeat match goal with
           | |- context [if ?b then _ else _] => destruct b eqn:?
           end; cbn [coord_add coord_sub set_line set_column line column negb] in *;
    try reflexivity; try lia.
Qed.

Lemma compute_pos_column (anchor sz : DisplayCoord) (rect to_avoid : Rect)
  (prefer_above : bool) :
  column (compute_pos anchor sz rect to_avoid prefer_above) =
  column (place_pos anchor sz rect prefer_above).
Proof.
  unfold compute_pos.
  repeat match goal with
         | |- context [if ?b then _ else _] => destruct b
         end; reflexivity.
Qed.

(** X12. A box no wider than the bounding rectangle, anchored at a column of
    the rectangle, is placed within the columns of the rectangle; avoiding
    [to_avoid] never moves it sideways. *)
Theorem compute_pos_within_columns (anchor sz : DisplayCoord) (rect to_avoid : Rect)
  (prefer_above : bool)
  (Hfit : column sz <= column (size rect))
  (Hanchor : column (pos rect) <= column anchor) :
  let p := compute_pos anchor sz rect to_avoid prefer_above in
  column (pos rect) <= column p /\
  column p + column sz <= column (pos rect) + column (size rect).
Proof.
  cbn zeta. rewrite compute_pos_column, place_pos_column. cbn zeta.
  destruct (Z.gtb_spec (column anchor + column sz) (column (pos rect) + column (size rect)));
    lia.
Qed.

(** X13. With nothing to avoid, a box that fits the bounding rectangle, for an
    anchor on a line of the rectangle, is placed within the lines of the
    rectangle when it goes below the anchor, and when it goes above the
    anchor in a rectangle that starts at line 0.  (Above the anchor the
    code tests the line against 0, not against the top of the rectangle.) *)
Theorem compute_pos_within_lines (anchor sz : DisplayCoord) (rect to_avoid : Rect)
  (prefer_above : bool)
  (Hnone : size to_avoid = coord_zero)
  (Hfit : 0 <= line sz <= line (size rect))
  (Hanchor : line (pos rect) <= line anchor <= line (pos rect) + line (size rect))
  (Htop : prefer_above = false \/ line (pos rect) <= 0) :
  let p := compute_pos anchor sz rect to_avoid prefer_above in
  line (pos rect) <= line p /\
  line p + line sz <= line (pos rect) + line (size rect).
Proof.
  cbn zeta. rewrite compute_pos_nothing_to_avoid by assumption.
  unfold place_pos. cbn zeta.
  destruct Htop as [-> | Htop]; [|destruct prefer_above]; cbn [negb];
    repeat match goal with
           | |- context [if ?b then _ else _] => destruct b eqn:?
           end; cbn [coord_add coord_sub set_line set_column line column negb] in *;
    lia.
Qed.

End LayoutMore.

(** ** More on windows *)
Section WindowMore.
Context {prim : DisplayPrimitives}.

Lemma line_redrawn_refl (w : Window) : line_redrawn w w.
Proof. repeat split. Qed.

Lemma line_redrawn_trans (w1 w2 w3 : Window) :
  line_redrawn w1 w2 -> line_redrawn w2 w3 -> line_redrawn w1 w3.
Proof.
  intros (P1 & S1 & L1 & C1 & O1) (P2 & S2 & L2 & C2 & O2).
  repeat split; try congruence.
  intros i Hi. rewrite O2 by congruence. by apply O1.
Qed.

Lemma line_redrawn_set_line (w : Window) (ls : list Line) (l : Line) :
  set_at_Z (lines w) (line (cursor w)) l = Some ls -> line_redrawn w (set_lines w ls).
Proof.
  unfold set_at_Z. intros H.
  destruct ((0 <=? line (cursor w)) && (line (cursor w) <? Z.of_nat (length (lines w))))
    eqn:Hr; [|discriminate].
  injection H as <-. repeat split; cbn [lines set_lines].
  - apply length_insert.
  - intros i Hi. unfold at_Z. destruct (Z.ltb_spec i 0); [reflexivity|].
    apply list_lookup_insert_ne. lia.
Qed.

Lemma cursor_on_line_redrawn (w w' : Window) :
  line_redrawn w w' -> cursor_on_line w -> 0 <= column (cursor w') -> cursor_on_line w'.
Proof. intros (_ & _ & L & C & _) [H1 H2] H3. split; [rewrite L, C; exact H1 | exact H3]. Qed.

Lemma at_Z_in_range {A} (l : list A) (i : Z) :
  0 <= i < Z.of_nat (length l) -> exists x, at_Z l i = Some x.
Proof.
  intros H. unfold at_Z. replace (i <? 0) with false by lia.
  apply lookup_lt_is_Some_2. lia.
Qed.

Lemma at_Z_None {A} (l : list A) (i : Z) :
  ~ 0 <= i < Z.of_nat (length l) -> at_Z l i = None.
Proof.
  intros H. unfold at_Z. destruct (Z.ltb_spec i 0); [reflexivity|].
  apply lookup_ge_None_2. lia.
Qed.

Lemma push_back_redrawn (atoms : Line) (w : Window) :
  0 <= line (cursor w) < Z.of_nat (length (lines w)) ->
  exists w', push_back atoms w = Some w' /\ line_redrawn w w' /\ cursor w' = cursor w.
Proof.
  intros H. unfold push_back.
  destruct (at_Z_in_range (lines w) _ H) as (ln & ->). cbn [mbind option_bind].
  rewrite set_at_Z_in_range by assumption. cbn [mbind option_bind].
  eexists. split; [reflexivity|]. split; [|reflexivity].
  eapply line_redrawn_set_line. by apply set_at_Z_in_range.
Qed.

Lemma clear_scan_nothing (l : Line) (col cc : Z) :
  fst (clear_scan l col cc) = [] -> snd (clear_scan l col cc) = col.
Proof.
  destruct l as [|a r]; cbn [clear_scan]; [reflexivity|].
  destruct (col <? cc); [|reflexivity].
  destruct (clear_scan r _ cc). discriminate.
Qed.

Lemma resize_back_snoc (k : Line) (a : Atom) (f : string -> string) :
  resize_back (k ++ [a]) f = Some (k ++ [mkAtom (f (text a)) (face a)]).
Proof.
  unfold resize_back. rewrite reverse_app. cbn [reverse app].
  change (reverse [a]) with [a]. cbn [app].
  by rewrite reverse_cons, reverse_involutive.
Qed.

Lemma clear_line_redrawn (w : Window) :
  cursor_on_line w ->
  exists w', clear_line w = Some w' /\ line_redrawn w w' /\ cursor w' = cursor w.
Proof.
  intros [Hl Hc]. unfold clear_line.
  destruct (at_Z_in_range (lines w) _ Hl) as (ln & ->). cbn [mbind option_bind].
  pose proof (clear_scan_nothing ln 0 (column (cursor w))) as Hn.
  destruct (clear_scan ln 0 (column (cursor w))) as [kept col]. cbn [fst snd] in Hn.
  assert (E : exists ln', (if col >? column (cursor w)
                 then resize_back kept (fun text =>
                        string_resize text
                          (byte_count_to text
                             (column_length text - (col - column (cursor w)))))
                 else Some kept) = Some ln').
  { destruct (Z.gtb_spec col (column (cursor w))) as [Hgt|]; [|by eexists].
    destruct (decide (kept = [])) as [->|Hne].
    - specialize (Hn eq_refl). lia.
    - destruct (exists_last Hne) as (k & a & ->).
      rewrite resize_back_snoc. by eexists. }
  destruct E as (ln' & ->). cbn [mbind option_bind].
  rewrite set_at_Z_in_range by assumption. cbn [mbind option_bind].
  eexists. split; [reflexivity|]. split; [|reflexivity].
  eapply line_redrawn_set_line. by apply set_at_Z_in_range.
Qed.

Lemma draw_atom_redrawn (default_face : Face) (a : DisplayAtom) (w : Window) :
  0 <= line (cursor w) < Z.of_nat (length (lines w)) ->
  exists w', draw_atom default_face a w = Some w' /\ line_redrawn w w'.
Proof.
  intros H. unfold draw_atom. cbn zeta.
  destruct (string_empty (content a)).
  - eexists. split; [reflexivity | apply line_redrawn_refl].
  - destruct (match string_back (content a) with Some c => _ | None => _ end);
      match goal with |- context [push_back ?atoms w] =>
        destruct (push_back_redrawn atoms w H) as (w1 & -> & R1 & _) end;
      cbn [mbind option_bind]; (eexists; split; [reflexivity|]);
      destruct R1 as (? & ? & ? & ? & ?); repeat split; assumption.
Qed.

Lemma draw_atoms_redrawn (default_face : Face) (atoms : list DisplayAtom) (w : Window) :
  0 <= line (cursor w) < Z.of_nat (length (lines w)) ->
  exists w', draw_atoms default_face atoms w = Some w' /\ line_redrawn w w'.
Proof.
  revert w. induction atoms as [|a atoms IH]; intros w H; cbn [draw_atoms].
  - eexists. split; [reflexivity | apply line_redrawn_refl].
  - destruct (draw_atom_redrawn default_face a w H) as (w1 & -> & R1).
    cbn [mbind option_bind].
    destruct (IH w1) as (w2 & -> & R2).
    { destruct R1 as (_ & _ & L & C & _). by rewrite L, C. }
    eexists. split; [reflexivity | by eapply line_redrawn_trans].
Qed.

Lemma Window_draw_redrawn (atoms : list DisplayAtom) (default_face : Face) (w : Window) :
  cursor_on_line w ->
  exists w', Window_draw atoms default_face w = Some w' /\ line_redrawn w w'.
Proof.
  intros Hw. unfold Window_draw.
  destruct (clear_line_redrawn w Hw) as (w1 & -> & R1 & C1). cbn [mbind option_bind].
  assert (H1 : 0 <= line (cursor w1) < Z.of_nat (length (lines w1))).
  { destruct R1 as (_ & _ & L & C & _). rewrite L, C. apply Hw. }
  destruct (draw_atoms_redrawn default_face atoms w1 H1) as (w2 & -> & R2).
  cbn [mbind option_bind].
  assert (H2 : 0 <= line (cursor w2) < Z.of_nat (length (lines w2))).
  { destruct R2 as (_ & _ & L & C & _). by rewrite L, C. }
  destruct (column (cursor w2) <? column (win_size w2)).
  - match goal with |- context [push_back ?l w2] =>
      destruct (push_back_redrawn l w2 H2) as (w3 & -> & R3 & _) end.
    eexists. split; [reflexivity|].
    eapply line_redrawn_trans; [|exact R3]. by eapply line_redrawn_trans.
  - eexists. split; [reflexivity | by eapply line_redrawn_trans].
Qed.

(** X14. [Window::draw] is defined exactly when the cursor stands on a line of
    the window at a column that is not negative; it then redraws that line
    only: position, size, number of lines, cursor line and all other lines
    of the window are as before.  With the cursor elsewhere the call
    indexes a vector out of range. *)
Theorem Window_draw_defined (atoms : list DisplayAtom) (default_face : Face) (w : Window) :
  (cursor_on_line w ->
   exists w', Window_draw atoms default_face w = Some w' /\ line_redrawn w w') /\
  (~ cursor_on_line w -> Window_draw atoms default_face w = None).
Proof.
  split; [apply Window_draw_redrawn|].
  intros Hn. unfold Window_draw, clear_line.
  destruct (decide (0 <= line (cursor w) < Z.of_nat (length (lines w)))) as [Hl|Hl].
  - assert (Hc : column (cursor w) < 0) by (unfold cursor_on_line in Hn; lia).
    destruct (at_Z_in_range (lines w) _ Hl) as (ln & ->). cbn [mbind option_bind].
    assert (E : clear_scan ln 0 (column (cursor w)) = ([], 0)).
    { destruct ln as [|a r]; cbn [clear_scan]; [reflexivity|].
      by replace (0 <? column (cursor w)) with false by lia. }
    rewrite E. replace (0 >? column (cursor w)) with true by lia. reflexivity.
  - by rewrite at_Z_None.
Qed.

Lemma line_columns_nonneg (l : Line) : column_length_laws -> 0 <= line_columns l.
Proof.
  intros (H1 & _). induction l as [|a l IH]; cbn; [lia|].
  pose proof (H1 (text a)). fold (line_columns l). lia.
Qed.

Lemma clear_scan_past (l : Line) (col cc : Z) :
  cc <= col -> clear_scan l col cc = ([], col).
Proof.
  intros H. destruct l as [|a r]; cbn [clear_scan]; [reflexivity|].
  by replace (col <? cc) with false by lia.
Qed.

(** The scan of [clear_line] from column [col]: it keeps a prefix of the
    line that reaches or passes the cursor column, or the whole line; when
    it passes the column, what it kept before the last atom falls short of
    the column. *)
Lemma clear_scan_cut (l : Line) (col cc : Z) :
  column_length_laws -> col <= cc ->
  exists kept dropped c,
    clear_scan l col cc = (kept, c) /\ l = kept ++ dropped /\
    c = col + line_columns kept /\
    (c < cc -> dropped = []) /\
    (cc < c -> exists k a, kept = k ++ [a] /\ col + line_columns k < cc).
Proof.
  intros Hlaws. revert col. induction l as [|a r IH]; intros col Hcol.
  - exists [], [], col. cbn. repeat split; try lia.
  - cbn [clear_scan]. destruct (Z.ltb_spec col cc) as [Hlt|Hge].
    + destruct (Z.le_gt_cases (col + column_length (text a)) cc) as [Hle|Hgt].
      * destruct (IH _ Hle) as (kept & dropped & c & -> & -> & -> & Hend & Hcut).
        exists (a :: kept), dropped, (col + column_length (text a) + line_columns kept).
        split; [reflexivity|]. split; [reflexivity|].
        split; [cbn; fold (line_columns kept); lia|]. split; [exact Hend|].
        intros H. destruct (Hcut H) as (k & b & -> & Hk).
        exists (a :: k), b. split; [reflexivity|].
        cbn. fold (line_columns k). lia.
      * rewrite clear_scan_past by lia.
        exists [a], r, (col + column_length (text a)).
        split; [reflexivity|]. split; [reflexivity|]. split; [cbn; lia|].
        split; [lia|]. intros _. exists [], a. split; [reflexivity | cbn; lia].
    + exists [], (a :: r), col. split; [reflexivity|]. split; [reflexivity|].
      split; [cbn; lia|]. split; lia.
Qed.

Lemma clear_line_cut (w : Window) (ln : Line) :
  column_length_laws -> truncation_law ->
  current_line w = Some ln -> 0 <= column (cursor w) ->
  exists ln',
    clear_line w = Some (with_line w ln') /\
    line_columns ln' = Z.min (column (cursor w)) (line_columns ln).
Proof.
  intros Hlaws Htrunc Hcur Hc.
  destruct (clear_scan_cut ln 0 (column (cursor w)) Hlaws Hc)
    as (kept & dropped & c & Hscan & -> & -> & Hend & Hcut).
  unfold clear_line. unfold current_line in Hcur. rewrite Hcur. cbn [mbind option_bind].
  rewrite Hscan. destruct (at_Z_Some _ _ _ Hcur) as [Hr _].
  pose proof (line_columns_nonneg dropped Hlaws) as Hd.
  rewrite line_columns_app.
  destruct (Z.gtb_spec (0 + line_columns kept) (column (cursor w))) as [Hgt|Hle].
  - destruct (Hcut ltac:(lia)) as (k & a & -> & Hk).
    rewrite resize_back_snoc. cbn [mbind option_bind].
    rewrite set_at_Z_in_range by assumption. cbn [mbind option_bind].
    eexists. split; [reflexivity|].
    rewrite !line_columns_app in *. cbn in *.
    rewrite Htrunc by lia. lia.
  - cbn [mbind option_bind]. rewrite set_at_Z_in_range by assumption.
    cbn [mbind option_bind]. exists kept. split; [reflexivity|].
    destruct (Z.lt_ge_cases (0 + line_columns kept) (column (cursor w))) as [Hlt|Hge].
    + rewrite (Hend Hlt). cbn. lia.
    + lia.
Qed.

(** X15. [clear_line] cuts the line under the cursor at the cursor column, in
    the middle of an atom if need be: what is left is as wide as the
    cursor column, or as the line was when it ended before the cursor. *)
Theorem clear_line_cuts_at_cursor (w : Window) (ln : Line)
  (Hlaws : column_length_laws) (Htrunc : truncation_law)
  (Hcur : current_line w = Some ln) (Hc : 0 <= column (cursor w)) :
  exists w' ln',
    clear_line w = Some w' /\ line_redrawn w w' /\ cursor w' = cursor w /\
    current_line w' = Some ln' /\
    line_columns ln' = Z.min (column (cursor w)) (line_columns ln).
Proof.
  destruct (clear_line_cut w ln Hlaws Htrunc Hcur Hc) as (ln' & E & Hw).
  destruct (at_Z_Some _ _ _ Hcur) as [Hr _].
  destruct (clear_line_redrawn w (conj Hr Hc)) as (w' & E' & R & C).
  exists w', ln'. split; [exact E'|]. split; [exact R|]. split; [exact C|].
  split; [|exact Hw]. rewrite E in E'. injection E' as <-.
  apply (current_line_with_line _ _ _ Hcur).
Qed.

Lemma Window_draw_over (w : Window) (atoms : list DisplayAtom) (default_face : Face)
  (ln : Line)
  (Hlaws : column_length_laws) (Htrunc : truncation_law)
  (Hcur : current_line w = Some ln)
  (Hc : 0 <= column (cursor w) <= line_columns ln)
  (Hfit : column (cursor w) + DisplayLine_length atoms <= column (win_size w)) :
  exists w' ln',
    Window_draw atoms default_face w = Some w' /\
    current_line w' = Some ln' /\
    line_columns ln' = column (win_size w') /\
    win_size w' = win_size w /\
    cursor w' = mkCoord (line (cursor w)) (column (cursor w) + DisplayLine_length atoms).
Proof.
  destruct (clear_line_cut w ln Hlaws Htrunc Hcur ltac:(lia)) as (kept & Hclear & Hkept).
  rewrite Z.min_l in Hkept by lia.
  set (stored := flat_map (stored_atoms default_face) atoms).
  set (col := column (cursor w) + DisplayLine_length atoms).
  set (w2 := advance_column (DisplayLine_length atoms)
               (with_line (with_line w kept) (kept ++ stored))).
  assert (Hdraw : draw_atoms default_face atoms (with_line w kept) = Some w2).
  { apply draw_atoms_current; [assumption|]. apply (current_line_with_line _ _ _ Hcur). }
  assert (Hcur2 : current_line w2 = Some (kept ++ stored)).
  { unfold w2, advance_column, current_line. cbn [cursor lines set_cursor_of line].
    rewrite with_line_with_line. apply (current_line_with_line _ _ _ Hcur). }
  assert (Hstored : line_columns stored = DisplayLine_length atoms).
  { unfold stored. clear -Hlaws. induction atoms as [|a atoms IH]; [reflexivity|].
    cbn [flat_map]. rewrite line_columns_app, IH, stored_atoms_columns by assumption.
    reflexivity. }
  destruct (at_Z_Some _ _ _ Hcur) as [Hrange _].
  unfold Window_draw. rewrite Hclear. cbn [mbind option_bind]. rewrite Hdraw.
  cbn [mbind option_bind].
  change (column (cursor w2)) with col. change (win_size w2) with (win_size w).
  destruct (Z.ltb_spec col (column (win_size w))) as [Hlt|Hge].
  - rewrite (push_back_current _ _ _ Hcur2).
    eexists _, _. split; [reflexivity|]. split.
    + apply (current_line_with_line _ _ _ Hcur2).
    + split; [|split; reflexivity]. cbn [win_size with_line set_lines].
      rewrite !line_columns_app, Hstored, Hkept. cbn.
      destruct Hlaws as (_ & H2 & _). rewrite H2 by lia. unfold col in *.
      change (win_size w2) with (win_size w). lia.
  - eexists _, _. split; [reflexivity|]. split; [exact Hcur2|].
    split; [|split; reflexivity].
    rewrite !line_columns_app, Hstored, Hkept. change (win_size w2) with (win_size w).
    unfold col in *. lia.
Qed.

(** X16. Drawing over a line that is written already: with the cursor anywhere
    on the text of the line, in the middle of an atom too, and the atoms
    fitting between the cursor and the width of the window, the line is
    exactly as wide as the window after [draw], and the cursor stands at
    the end of what was drawn. *)
Theorem draw_over_fills_line (w : Window) (atoms : list DisplayAtom) (default_face : Face)
  (ln : Line)
  (Hlaws : column_length_laws) (Htrunc : truncation_law)
  (Hcur : current_line w = Some ln)
  (Hc : 0 <= column (cursor w) <= line_columns ln)
  (Hfit : column (cursor w) + DisplayLine_length atoms <= column (win_size w)) :
  exists w' ln',
    Window_draw atoms default_face w = Some w' /\
    current_line w' = Some ln' /\
    line_columns ln' = column (win_size w') /\
    win_size w' = win_size w /\
    cursor w' = mkCoord (line (cursor w)) (column (cursor w) + DisplayLine_length atoms).
Proof. exact (Window_draw_over w atoms default_face ln Hlaws Htrunc Hcur Hc Hfit). Qed.

End WindowMore.

(** Opens the first step of a computation in [option] that is known to
    succeed. *)
Ltac open_opt H :=
  match type of H with
  | mbind _ ?x = Some _ =>
      let E := fresh "E" in
      destruct x eqn:E; [cbn [mbind option_bind] in H | discriminate H]
  end.

(** ** More on the menu *)
Section MenuMore.
Context {prim : DisplayPrimitives}.

Lemma menu_redrawn_refl (d : Display) : menu_redrawn d d.
Proof.
  exists (cursor (menu_win (m_menu d))), (lines (menu_win (m_menu d))), (m_dirty d).
  split; [reflexivity|]. by destruct d as [w [[] ? ? ? ? ? ? ? ?] i dm s a b].
Qed.

Lemma menu_redrawn_trans (d1 d2 d3 : Display) :
  menu_redrawn d1 d2 -> menu_redrawn d2 d3 -> menu_redrawn d1 d3.
Proof.
  intros (c1 & l1 & b1 & L1 & ->) (c2 & l2 & b2 & L2 & ->).
  exists c2, l2, b2. split; [|reflexivity]. cbn in L2. congruence.
Qed.

Lemma menu_redrawn_dirty (d : Display) (b : bool) : menu_redrawn d (set_m_dirty d b).
Proof.
  exists (cursor (menu_win (m_menu d))), (lines (menu_win (m_menu d))), b.
  split; [reflexivity|]. by destruct d as [w [[] ? ? ? ? ? ? ? ?] i dm s a b'].
Qed.

Lemma on_menu_win_redrawn (f : Window -> option Window) (d d' : Display) :
  (forall w w', f w = Some w' -> line_redrawn w w') ->
  on_menu_win f d = Some d' -> menu_redrawn d d'.
Proof.
  intros Hf H. unfold on_menu_win in H. open_opt H. injection H as <-.
  destruct (Hf _ _ E) as (P & S & L & _).
  exists (cursor w), (lines w), (m_dirty d). split; [exact L|].
  rewrite <- P, <- S. destruct d as [mw m i dm s a b]. by destruct w.
Qed.

Lemma Window_draw_Some (atoms : list DisplayAtom) (face : Face) (w w' : Window) :
  Window_draw atoms face w = Some w' -> cursor_on_line w /\ line_redrawn w w'.
Proof.
  intros H.
  assert (Hc : cursor_on_line w).
  { unfold cursor_on_line.
    destruct (decide (0 <= line (cursor w) < Z.of_nat (length (lines w)) /\
                      0 <= column (cursor w))) as [Hc|Hc]; [exact Hc|].
    unfold Window_draw, clear_line in H.
    destruct (decide (0 <= line (cursor w) < Z.of_nat (length (lines w)))) as [Hl|Hl].
    - destruct (at_Z_in_range (lines w) _ Hl) as (ln & E). rewrite E in H.
      cbn [mbind option_bind] in H.
      assert (E2 : clear_scan ln 0 (column (cursor w)) = ([], 0))
        by (apply clear_scan_past; lia).
      rewrite E2 in H. replace (0 >? column (cursor w)) with true in H by lia.
      discriminate H.
    - rewrite at_Z_None in H by assumption. discriminate H. }
  split; [exact Hc|].
  destruct (Window_draw_redrawn atoms face w Hc) as (w'' & E & R). congruence.
Qed.

Lemma menu_draw_redrawn (atoms : list DisplayAtom) (face : Face) (d d' : Display) :
  menu_draw atoms face d = Some d' -> menu_redrawn d d'.
Proof. apply on_menu_win_redrawn. intros w w' H. exact (proj2 (Window_draw_Some _ _ _ _ H)). Qed.

Lemma menu_move_cursor_redrawn (c : DisplayCoord) (d d' : Display) :
  menu_move_cursor c d = Some d' -> menu_redrawn d d'.
Proof.
  unfold menu_move_cursor, on_menu_win. cbn. intros [= <-].
  exists c, (lines (menu_win (m_menu d))), (m_dirty d). split; [reflexivity|].
  destruct d as [mw m i dm s a b]. reflexivity.
Qed.

Lemma draw_menu_items_redrawn (n : nat) (i p win_width : Z) (d d' : Display) (j : Z) :
  draw_menu_items n i p win_width d = Some (j, d') -> menu_redrawn d d'.
Proof.
  revert i p d. induction n as [|n IH]; intros i p d H; cbn [draw_menu_items] in H.
  - destruct ((i <? _) && (p <? win_width)); [discriminate|]. injection H as _ <-.
    apply menu_redrawn_refl.
  - destruct ((i <? _) && (p <? win_width));
      [|injection H as _ <-; apply menu_redrawn_refl].
    open_opt H. open_opt H. rename E0 into E1. apply menu_draw_redrawn in E1.
    open_opt H. rename E0 into E2. apply IH in H.
    eapply menu_redrawn_trans; [exact E1|]. eapply menu_redrawn_trans; [|exact H].
    match type of E2 with (if ?b then _ else _) = _ => destruct b end.
    + by apply menu_draw_redrawn in E2.
    + open_opt E2. apply menu_move_cursor_redrawn in E0. apply menu_draw_redrawn in E2.
      by eapply menu_redrawn_trans.
Qed.

Lemma draw_menu_cells_redrawn (n : nat) (col ln : Z) (mk : Mark) (d d' : Display) :
  draw_menu_cells n col ln mk d = Some d' -> menu_redrawn d d'.
Proof.
  revert col d. induction n as [|n IH]; intros col d H; cbn [draw_menu_cells] in H.
  - injection H as <-. apply menu_redrawn_refl.
  - open_opt H. rename E into E1. open_opt H. open_opt H. rename E0 into E2.
    apply menu_move_cursor_redrawn in E1. apply menu_draw_redrawn in E2.
    apply IH in H. eapply menu_redrawn_trans; [exact E1|]. by eapply menu_redrawn_trans.
Qed.

Lemma draw_menu_lines_redrawn (n : nat) (ln : Z) (mk : Mark) (d d' : Display) :
  draw_menu_lines n ln mk d = Some d' -> menu_redrawn d d'.
Proof.
  revert ln d. induction n as [|n IH]; intros ln d H; cbn [draw_menu_lines] in H.
  - injection H as <-. apply menu_redrawn_refl.
  - open_opt H. rename E into E1. open_opt H. rename E into E2.
    open_opt H. rename E into E3.
    apply draw_menu_cells_redrawn in E1. apply menu_move_cursor_redrawn in E2.
    apply menu_draw_redrawn in E3. apply IH in H.
    eapply menu_redrawn_trans; [exact E1|]. eapply menu_redrawn_trans; [exact E2|].
    by eapply menu_redrawn_trans.
Qed.

Lemma draw_menu_redrawn (d d' : Display) : draw_menu d = Some d' -> menu_redrawn d d'.
Proof.
  unfold draw_menu. intros H.
  destruct (negb (Window_present (menu_win (m_menu d))));
    [injection H as <-; apply menu_redrawn_refl|].
  destruct (columns (m_menu d) =? 0).
  - open_opt H. rename E into E1. open_opt H. rename E into E2.
    open_opt H. rename E into E3. destruct p as [i d3].
    open_opt H. rename E into E4. open_opt H. rename E into E5.
    injection H as <-.
    apply menu_move_cursor_redrawn in E1, E4. apply menu_draw_redrawn in E2, E5.
    apply draw_menu_items_redrawn in E3.
    eapply menu_redrawn_trans; [exact E1|]. eapply menu_redrawn_trans; [exact E2|].
    eapply menu_redrawn_trans; [exact E3|]. eapply menu_redrawn_trans; [exact E4|].
    eapply menu_redrawn_trans; [exact E5|]. apply menu_redrawn_dirty.
  - open_opt H. open_opt H. rename E0 into E1. injection H as <-.
    apply draw_menu_lines_redrawn in E1.
    eapply menu_redrawn_trans; [exact E1 | apply menu_redrawn_dirty].
Qed.

Lemma menu_select_frame (selected : Z) (d d' : Display)
  (H : menu_select selected d = Some d') :
  let m := m_menu d in
  let m' := m_menu d' in
  items m' = items m /\ columns m' = columns m /\
  win_pos (menu_win m') = win_pos (menu_win m) /\
  win_size (menu_win m') = win_size (menu_win m) /\
  length (lines (menu_win m')) = length (lines (menu_win m)) /\
  m_window d' = m_window d /\ m_info d' = m_info d /\ m_dimensions d' = m_dimensions d /\
  (selected < 0 \/ Z.of_nat (length (items m)) <= selected ->
   selected_item m' = -1 /\ first_item m' = 0) /\
  (0 <= selected < Z.of_nat (length (items m)) -> selected_item m' = selected).
Proof.
  cbn zeta. unfold menu_select in H. open_opt H. apply draw_menu_redrawn in H.
  destruct H as (c & ls & b & L & ->). cbn.
  destruct ((selected <? 0) || (selected >=? Z.of_nat (length (items (m_menu d))))) eqn:Hs.
  - injection E as <-. cbn. repeat split; try exact L; intros; lia.
  - assert (Hd : exists f, d0 = set_m_menu d (set_selection (m_menu d) selected f)).
    { destruct (columns (m_menu d) =? 0).
      - open_opt E. injection E as <-. by eexists.
      - do 3 open_opt E. injection E as <-. by eexists. }
    destruct Hd as (f & ->). cbn. repeat split; try exact L; intros; lia.
Qed.

(** X17. [menu_select] changes the selection and repaints the menu window; the
    items, the grid, the geometry of the menu window, the main window and
    the info box are left alone, for every argument. *)
Theorem menu_select_only_repaints (selected : Z) (d d' : Display)
  (H : menu_select selected d = Some d') :
  let m := m_menu d in
  let m' := m_menu d' in
  items m' = items m /\ columns m' = columns m /\
  win_pos (menu_win m') = win_pos (menu_win m) /\
  win_size (menu_win m') = win_size (menu_win m) /\
  length (lines (menu_win m')) = length (lines (menu_win m)) /\
  m_window d' = m_window d /\ m_info d' = m_info d /\ m_dimensions d' = m_dimensions d /\
  (selected < 0 \/ Z.of_nat (length (items m)) <= selected ->
   selected_item m' = -1 /\ first_item m' = 0) /\
  (0 <= selected < Z.of_nat (length (items m)) -> selected_item m' = selected).
Proof. exact (menu_select_frame selected d d' H). Qed.

(** *** The item selected is shown *)

Lemma menu_select_grid_first (selected : Z) (d d' : Display) :
  menu_inv (m_menu d) ->
  1 <= columns (m_menu d) -> 1 <= line (win_size (menu_win (m_menu d))) ->
  0 <= selected < Z.of_nat (length (items (m_menu d))) ->
  menu_select selected d = Some d' ->
  let h := line (win_size (menu_win (m_menu d))) in
  0 <= first_item (m_menu d') /\
  Z.quot (first_item (m_menu d')) h <= Z.quot selected h
    < Z.quot (first_item (m_menu d')) h + columns (m_menu d).
Proof.
  intros [_ Hinv] Hc Hh Hsel H. cbn zeta.
  destruct (Hinv Hc Hh) as (_ & Hf0 & _).
  unfold menu_select in H. open_opt H. apply draw_menu_redrawn in H.
  destruct H as (c & ls & b & L & ->). cbn.
  replace ((selected <? 0) || (selected >=? Z.of_nat (length (items (m_menu d)))))
    with false in E by lia.
  replace (columns (m_menu d) =? 0) with false in E by lia.
  open_opt E. rename E0 into Emc. open_opt E. rename E0 into Efc.
  open_opt E. rename E0 into Esc. injection E as <-. cbn.
  apply div_round_up_Some in Emc. destruct Emc as [_ ->].
  apply cdiv_Some in Efc. destruct Efc as [_ ->].
  apply cdiv_Some in Esc. destruct Esc as [_ ->].
  set (m := m_menu d) in *.
  set (h := line (win_size (menu_win m))) in *.
  set (n := Z.of_nat (length (items m))) in *.
  set (cs := columns m) in *. set (first := first_item m) in *.
  rewrite !Z.quot_div_nonneg in * by lia.
  assert (Hsc0 : 0 <= selected / h) by (apply Z.div_pos; lia).
  assert (Hscn : selected / h <= (n - 1) / h) by (apply Z.div_le_mono; lia).
  assert (Hfc0 : 0 <= first / h) by (apply Z.div_pos; lia).
  destruct (Z.ltb_spec (selected / h) (first / h)) as [Hlt|Hge].
  - replace (selected / h >=? first / h + cs) with false by lia.
    rewrite Z.quot_mul by lia. split; [nia | lia].
  - destruct (Z.geb_spec (selected / h) (first / h + cs)) as [Hge2|Hlt2].
    + rewrite Z.quot_mul by lia. split; [nia | lia].
    + rewrite Z.quot_div_nonneg by lia. lia.
Qed.

(** X18. In a grid menu reached through [menu_show] and [menu_select], selecting
    one of the items scrolls the grid so that the item is in one of the
    cells [draw_menu] paints: it is the item of some column [col] of the
    grid and some line [ln] of the window, counted from the first column
    shown. *)
Theorem menu_select_grid_visible (selected : Z) (d d' : Display)
  (Hreach : menu_reachable d) (Hgrid : 1 <= columns (m_menu d))
  (Hh : 1 <= line (win_size (menu_win (m_menu d))))
  (Hsel : 0 <= selected < Z.of_nat (length (items (m_menu d))))
  (H : menu_select selected d = Some d') :
  let m' := m_menu d' in
  let h := line (win_size (menu_win m')) in
  selected_item m' = selected /\
  exists col ln,
    0 <= col < columns m' /\ 0 <= ln < h /\
    (Z.quot (first_item m') h + col) * h + ln = selected.
Proof.
  cbn zeta. apply menu_reachable_inv in Hreach.
  pose proof (menu_select_grid_first selected d d' Hreach Hgrid Hh Hsel H) as (Hf & Hv).
  cbn zeta in Hv.
  destruct (menu_select_frame selected d d' H)
    as (_ & Hc & _ & Hs & _ & _ & _ & _ & _ & Hsi).
  cbn zeta in Hc, Hs. rewrite Hc, Hs. split; [by apply Hsi|].
  set (h := line (win_size (menu_win (m_menu d)))) in *.
  set (f := first_item (m_menu d')) in *.
  rewrite !Z.quot_div_nonneg in * by lia.
  exists (selected / h - f / h), (selected mod h).
  split; [lia|]. split; [apply Z.mod_pos_bound; lia|].
  replace (f / h + (selected / h - f / h)) with (selected / h) by lia.
  pose proof (Z.div_mod selected h ltac:(lia)). lia.
Qed.

Lemma span_width_empty (l : list DisplayLine) (i : Z) : span_width l i (i - 1) = 0.
Proof. unfold span_width. by replace (i - 1 + 1 - i) with 0 by lia. Qed.

Lemma span_width_single (l : list DisplayLine) (i : Z) (item : DisplayLine) :
  at_Z l i = Some item -> span_width l i i = DisplayLine_length item + 1.
Proof.
  intros H. apply at_Z_Some in H. destruct H as [Hr Hl]. unfold span_width.
  replace (i + 1 - i) with 1 by lia. change (Z.to_nat 1) with 1%nat.
  erewrite drop_S by (rewrite list_lookup_fmap, Hl; reflexivity).
  cbn [take fold_right]. rewrite take_0. cbn [fold_right]. lia.
Qed.

Lemma span_width_snoc (l : list DisplayLine) (first i : Z) (item : DisplayLine) :
  0 <= first <= i -> at_Z l i = Some item ->
  span_width l first i = span_width l first (i - 1) + (DisplayLine_length item + 1).
Proof.
  intros Hf H. apply at_Z_Some in H. destruct H as [Hr Hl]. unfold span_width.
  replace (Z.to_nat (i + 1 - first)) with (S (Z.to_nat (i - 1 + 1 - first))) by lia.
  erewrite take_S_r.
  2:{ rewrite lookup_drop, list_lookup_fmap.
      replace (Z.to_nat first + Z.to_nat (i - 1 + 1 - first))%nat with (Z.to_nat i) by lia.
      rewrite Hl. reflexivity. }
  generalize (take (Z.to_nat (i - 1 + 1 - first))
                (drop (Z.to_nat first) (map (fun it => DisplayLine_length it + 1) l))).
  intros ws. induction ws as [|w ws IH]; cbn; [lia|]. rewrite IH. lia.
Qed.

(** The scan of [menu_select] over the items [i .. i + n - 1], entered with
    the items [first .. i - 1] taking [item_col] columns. *)
Lemma select_scan_fits (l : list DisplayLine) (width : Z) (n : nat) :
  forall i first item_col,
    0 <= first <= i -> i + Z.of_nat n <= Z.of_nat (length l) ->
    item_col = span_width l first (i - 1) ->
    item_col <= width \/ first = i - 1 \/ first = i ->
    exists r,
      select_scan l n i first item_col width = Some r /\
      first <= r <= i + Z.of_nat n /\
      (span_width l r (i + Z.of_nat n - 1) <= width \/ r = i + Z.of_nat n - 1 \/
       r = i + Z.of_nat n).
Proof.
  induction n as [|n IH]; intros i first item_col Hf Hn Hcol Hfit.
  - exists first. cbn [select_scan]. split; [reflexivity|].
    replace (i + Z.of_nat 0) with i by lia. split; [lia|]. subst item_col. exact Hfit.
  - cbn [select_scan].
    destruct (at_Z_in_range l i ltac:(lia)) as (item & Hitem). rewrite Hitem.
    cbn [mbind option_bind].
    destruct (Z.gtb_spec (item_col + (DisplayLine_length item + 1)) width) as [Hgt|Hle].
    + destruct (IH (i + 1) i (DisplayLine_length item + 1)) as (r & -> & Hr & Hw).
      * lia.
      * lia.
      * replace (i + 1 - 1) with i by lia. symmetry. by apply span_width_single.
      * right. left. lia.
      * exists r. split; [reflexivity|].
        replace (i + Z.of_nat (S n)) with (i + 1 + Z.of_nat n) by lia.
        split; [lia | exact Hw].
    + destruct (IH (i + 1) first (item_col + (DisplayLine_length item + 1)))
        as (r & -> & Hr & Hw).
      * lia.
      * lia.
      * replace (i + 1 - 1) with i by lia. subst item_col. symmetry.
        apply span_width_snoc; [lia | exact Hitem].
      * left. exact Hle.
      * exists r. split; [reflexivity|].
        replace (i + Z.of_nat (S n)) with (i + 1 + Z.of_nat n) by lia.
        split; [lia | exact Hw].
Qed.

Lemma select_scan_first_before (l : list DisplayLine) (width : Z) (n : nat) :
  forall i first item_col r,
    first <= i ->
    select_scan l (S n) i first item_col width = Some r -> r <= i + Z.of_nat n.
Proof.
  induction n as [|n IH]; intros i first item_col r Hf H.
  - cbn [select_scan] in H. open_opt H.
    destruct (_ >? width); injection H as <-; lia.
  - change (select_scan l (S (S n)) i first item_col width)
      with (item ← at_Z l i;
            let item_width := DisplayLine_length item + 1 in
            if item_col + item_width >? width
            then select_scan l (S n) (i + 1) i item_width width
            else select_scan l (S n) (i + 1) first (item_col + item_width) width) in H.
    open_opt H. cbn zeta in H.
    destruct (_ >? width); apply IH in H; lia.
Qed.

(** X19. In a horizontal menu, selecting one of the items sets the first item
    shown so that it does not come after the one selected, and so that the
    items from the first shown to the selected one, with a column between
    them, fit the width the scan allows (three columns less than the
    window), unless the selected item alone is too wide, in which case it
    is the first shown. *)
Theorem menu_select_horizontal_visible (selected : Z) (d d' : Display)
  (Hcols : columns (m_menu d) = 0)
  (Hsel : 0 <= selected < Z.of_nat (length (items (m_menu d))))
  (H : menu_select selected d = Some d') :
  let m' := m_menu d' in
  selected_item m' = selected /\
  0 <= first_item m' <= selected /\
  (span_width (items m') (first_item m') selected <= column (win_size (menu_win m')) - 3 \/
   first_item m' = selected).
Proof.
  cbn zeta.
  destruct (menu_select_frame selected d d' H)
    as (Hi & _ & _ & Hs & _ & _ & _ & _ & _ & Hsi).
  cbn zeta in Hi, Hs. rewrite Hi, Hs. split; [by apply Hsi|].
  unfold menu_select in H. open_opt H. apply draw_menu_redrawn in H.
  destruct H as (c & ls & b & L & ->). cbn.
  replace ((selected <? 0) || (selected >=? Z.of_nat (length (items (m_menu d)))))
    with false in E by lia.
  rewrite Hcols in E. cbn [Z.eqb] in E. open_opt E. injection E as <-. cbn.
  set (l := items (m_menu d)) in *.
  set (width := column (win_size (menu_win (m_menu d))) - 3) in *.
  pose proof (select_scan_first_before l width (Z.to_nat selected) 0 0 0 z ltac:(lia)) as Hb.
  replace (S (Z.to_nat selected)) with (Z.to_nat (selected + 1)) in Hb by lia.
  specialize (Hb E0).
  destruct (select_scan_fits l width (Z.to_nat (selected + 1)) 0 0 0) as (r & Er & Hr & Hw).
  - lia.
  - lia.
  - symmetry. apply span_width_empty.
  - right. right. reflexivity.
  - rewrite Er in E0. injection E0 as <-.
    replace (0 + Z.of_nat (Z.to_nat (selected + 1)) - 1) with selected in Hw by lia.
    split; [lia|]. destruct Hw as [Hw|[Hw|Hw]]; [by left | by right | lia].
Qed.

End MenuMore.

(** ** Where [menu_show] puts the menu *)
Section MenuShow.
Context {prim : DisplayPrimitives}.

Lemma resize_lines_length (l : list Line) (n : nat) : length (resize_lines l n) = n.
Proof.
  unfold resize_lines. rewrite length_app, length_take, length_replicate. lia.
Qed.

Lemma Window_create_Some (p s : DisplayCoord) (w w' : Window) :
  Window_create p s w = Some w' ->
  0 <= line s /\ win_pos w' = p /\ win_size w' = s /\ cursor w' = cursor w /\
  length (lines w') = Z.to_nat (line s).
Proof.
  unfold Window_create. destruct (Z.ltb_spec (line s) 0); [discriminate|].
  intros [= <-]. cbn. repeat split; [assumption | apply resize_lines_length].
Qed.

(** The menu [menu_show] leaves on a screen of more than two columns, in
    terms of the values it computes on the way. *)
Lemma menu_show_created (new_items : list DisplayLine) (anchor : DisplayCoord)
  (fg bg : Face) (style : MenuStyle) (d0 d : Display) :
  menu_show new_items anchor fg bg style d0 = Some d ->
  2 < column (m_dimensions d0) ->
  let dims := m_dimensions d0 in
  let item_count := Z.of_nat (length new_items) in
  let longest := fold_left (fun lhs rhs => Z.max lhs rhs)
                           (map DisplayLine_length new_items) 1 in
  let max_width := column dims - 1 in
  let max_height := Z.min (height_limit style)
                          (Z.max (line anchor) (line dims - line anchor - 1)) in
  let offset := if m_status_on_top d0 then 1 else 0 in
  exists cols height maxlen c ls,
    match style with
    | MenuSearch => cols = 0 /\ height = 1
    | MenuInline => cols = 1 /\ height = Z.min max_height (Z.quot (item_count - 1) 1 + 1)
    | MenuPrompt => cols = Z.max (Z.quot max_width (longest + 1)) 1 /\
                    height = Z.min max_height (Z.quot (item_count - 1) cols + 1)
    end /\
    0 <= height /\ length ls = Z.to_nat height /\
    m_menu d =
    mkMenu (mkWindow
              (match style with
               | MenuSearch => mkCoord (if m_status_on_top d0 then 0 else line dims)
                                       (Z.quot (column dims) 2)
               | MenuPrompt => mkCoord (if m_status_on_top d0 then 1 else line dims - height)
                                       (Z.max 0 (Z.min (column anchor)
                                                       (column dims - longest - 1)))
               | MenuInline => mkCoord (if line anchor + offset + 1 + height >? line dims
                                        then line anchor + offset - height
                                        else line anchor + offset + 1)
                                       (Z.max 0 (Z.min (column anchor)
                                                       (column dims - longest - 1)))
               end)
              (mkCoord height
                 (match style with
                  | MenuSearch => column dims - Z.quot (column dims) 2
                  | MenuInline => Z.min (longest + 1) (column dims)
                  | MenuPrompt => column dims
                  end))
              c ls)
           (map (fun item => trim item 0 maxlen) new_items) fg bg anchor style
           item_count 0 cols.
Proof.
  intros H Hdim. cbn zeta. unfold menu_show in H.
  destruct (Window_present (menu_win (m_menu d0))); cbn zeta in H;
    (match type of H with (if ?b then _ else _) = _ => destruct b eqn:Hd end;
       [cbn in Hd; lia|]);
    (open_opt H; rename E into Ecols; open_opt H; rename E into Eh;
     open_opt H; rename E into Elen);
    match type of H with context [if ?b then (?x, ?y) else ?e] =>
      destruct (if b then (x, y) else e) as [ln col] eqn:Epos end;
    (open_opt H; rename E into Ecreate; open_opt H; rename E into Edraw);
    apply info_reshow_menu in H; rewrite H; clear H d;
    apply draw_menu_redrawn in Edraw; destruct Edraw as (c & ls & b & L & ->);
    unfold on_menu_win in Ecreate; open_opt Ecreate; injection Ecreate as <-;
    apply Window_create_Some in E; destruct E as (Hh & Hp & Hs & _ & Hl);
    cbn [line] in Hh, Hl; cbn in L; rewrite Hl in L;
    exists z, z0, z1, c, ls; cbn; rewrite Hp, Hs;
    cbn in Ecols, Eh, Elen, Epos; unfold content_line_offset in Epos; cbn in Epos;
    destruct style; cbn in *.
  all: try (open_opt Ecols; apply cdiv_Some in E; destruct E as [_ ->]).
  all: injection Ecols as <-.
  all: try (open_opt Eh; apply div_round_up_Some in E; destruct E as [_ ->]).
  all: injection Eh as <-.
  all: try (injection Epos as <- <-).
  all: repeat split; try assumption; try reflexivity.
  all: match type of Epos with (if ?b then _ else _) = _ => destruct b end;
    injection Epos as <- <-; reflexivity.
Qed.

Lemma fold_left_max_ge (l : list Z) (a : Z) : a <= fold_left (fun lhs rhs => Z.max lhs rhs) l a.
Proof.
  revert a. induction l as [|x l IH]; intros a; cbn; [lia|].
  specialize (IH (Z.max a x)). lia.
Qed.

(** X20. What [menu_show] sets up on a screen of more than two columns: all the
    items are taken, none is selected and the first is shown first; the
    window has as many lines as its height, which is not negative and at
    most the limit of the style, and is between two columns and the screen
    wide; a search menu is horizontal and one line high, the others are
    grids whose columns leave the last column of the window to the
    scrollbar; search and inline menus lie within the columns of the
    screen, a prompt menu is as wide as the screen. *)
Theorem menu_show_geometry (new_items : list DisplayLine) (anchor : DisplayCoord)
  (fg bg : Face) (style : MenuStyle) (d0 d : Display)
  (H : menu_show new_items anchor fg bg style d0 = Some d)
  (Hdim : 2 < column (m_dimensions d0)) :
  let m := m_menu d in
  let w := menu_win m in
  let dims := m_dimensions d0 in
  length (items m) = length new_items /\
  selected_item m = Z.of_nat (length new_items) /\ first_item m = 0 /\
  0 <= line (win_size w) <= height_limit style /\
  length (lines w) = Z.to_nat (line (win_size w)) /\
  2 <= column (win_size w) <= column dims /\
  (style = MenuSearch -> columns m = 0 /\ line (win_size w) = 1) /\
  (style <> MenuSearch ->
   1 <= columns m /\
   columns m * Z.quot (column (win_size w) - 1) (columns m) <= column (win_size w) - 1) /\
  (style <> MenuPrompt ->
   0 <= column (win_pos w) /\ column (win_pos w) + column (win_size w) <= column dims) /\
  (style = MenuPrompt -> column (win_size w) = column dims).
Proof.
  cbn zeta.
  destruct (menu_show_created _ _ _ _ _ _ _ H Hdim)
    as (cols & height & maxlen & c & ls & Hstyle & Hh & Hls & ->).
  cbn. rewrite length_map.
  pose proof (fold_left_max_ge (map DisplayLine_length new_items) 1) as Hlong.
  set (longest := fold_left _ (map DisplayLine_length new_items) 1) in *.
  assert (Hq : forall a b, 0 <= a -> 1 <= b -> b * Z.quot a b <= a).
  { intros a b Ha Hb. rewrite Z.quot_div_nonneg by lia.
    apply Z.mul_div_le. lia. }
  assert (Hhalf : 0 <= Z.quot (column (m_dimensions d0)) 2 /\
                  2 * Z.quot (column (m_dimensions d0)) 2 <= column (m_dimensions d0)).
  { rewrite Z.quot_div_nonneg by lia. split; [apply Z.div_pos; lia|].
    apply Z.mul_div_le. lia. }
  destruct style; cbn in *; destruct Hstyle as [-> ->];
    repeat match goal with
           | |- _ /\ _ => split
           | |- _ = _ -> _ => intros ?
           | |- _ <> _ -> _ => intros ?
           end; try congruence; try lia; try (apply Hq; lia).
Qed.

(** X21. Where the menu goes.  A search menu is one line on the status row.  A
    prompt menu, for an anchor on a line of the screen, lies within the
    content rows and touches the status row.  An inline menu starts on the
    line after the anchor or ends on the line before it, so it never
    covers the line of the anchor; with the status row at the bottom and
    the anchor on a line of the screen it lies within the content rows. *)
Theorem menu_show_placement (new_items : list DisplayLine) (anchor : DisplayCoord)
  (fg bg : Face) (style : MenuStyle) (d0 d : Display)
  (H : menu_show new_items anchor fg bg style d0 = Some d)
  (Hdim : 2 < column (m_dimensions d0)) :
  let w := menu_win (m_menu d) in
  let rows := line (m_dimensions d0) in
  let offset := content_line_offset d0 in
  let top := line (win_pos w) in
  let bottom := line (win_pos w) + line (win_size w) in
  (style = MenuSearch ->
   top = (if m_status_on_top d0 then 0 else rows) /\ bottom = top + 1) /\
  (style = MenuPrompt -> 0 <= line anchor <= rows ->
   offset <= top /\ bottom <= offset + rows /\
   (if m_status_on_top d0 then top = 1 else bottom = rows)) /\
  (style = MenuInline ->
   (top = line anchor + offset + 1 \/ bottom = line anchor + offset) /\
   (m_status_on_top d0 = false -> 0 <= line anchor <= rows ->
    0 <= top /\ bottom <= rows)).
Proof.
  cbn zeta.
  destruct (menu_show_created _ _ _ _ _ _ _ H Hdim)
    as (cols & height & maxlen & c & ls & Hstyle & Hh & Hls & ->).
  unfold content_line_offset. cbn.
  destruct style; cbn in *; destruct Hstyle as [-> ->];
    (split; [|split]); try discriminate; intros _.
  - intros Ha. destruct (m_status_on_top d0); cbn; lia.
  - destruct (m_status_on_top d0); cbn; lia.
  - split.
    + match goal with |- context [if ?b then _ else _] => destruct b end; cbn; lia.
    + intros -> Ha.
      match goal with |- context [if ?b then _ else _] => destruct b eqn:Hb end; cbn; lia.
Qed.

End MenuShow.

(** ** The menu operations are defined *)
Section MenuDefined.
Context {prim : DisplayPrimitives}.

Lemma menu_redrawn_same (d d' : Display) :
  menu_redrawn d d' ->
  menu_shape d' = menu_shape d /\
  length (lines (menu_win (m_menu d'))) = length (lines (menu_win (m_menu d))) /\
  menu_fg (m_menu d') = menu_fg (m_menu d) /\ menu_bg (m_menu d') = menu_bg (m_menu d).
Proof. intros (c & ls & b & L & ->). unfold menu_shape. cbn. auto. Qed.

Lemma push_back_cursor (atoms : Line) (w w' : Window) :
  push_back atoms w = Some w' -> cursor w' = cursor w.
Proof. unfold push_back. intros H. do 2 open_opt H. by injection H as <-. Qed.

Lemma clear_line_cursor (w w' : Window) : clear_line w = Some w' -> cursor w' = cursor w.
Proof.
  unfold clear_line. intros H. open_opt H.
  destruct (clear_scan _ 0 (column (cursor w))) as [kept col].
  do 2 open_opt H. by injection H as <-.
Qed.

Lemma draw_atom_cursor (default_face : Face) (a : DisplayAtom) (w w' : Window) :
  column_length_nonneg -> draw_atom default_face a w = Some w' ->
  column (cursor w) <= column (cursor w').
Proof.
  intros Hn. unfold draw_atom. cbn zeta.
  destruct (string_empty (content a)); [intros [= <-]; lia|].
  intros H. open_opt H. injection H as <-. cbn.
  pose proof (Hn (content a)).
  destruct (match string_back (content a) with Some c => _ | None => _ end);
    apply push_back_cursor in E; rewrite E; lia.
Qed.

Lemma draw_atoms_cursor (default_face : Face) (atoms : list DisplayAtom) (w w' : Window) :
  column_length_nonneg -> draw_atoms default_face atoms w = Some w' ->
  column (cursor w) <= column (cursor w').
Proof.
  intros Hn. revert w. induction atoms as [|a atoms IH]; intros w H; cbn [draw_atoms] in H.
  - injection H as <-. lia.
  - open_opt H. apply (draw_atom_cursor _ _ _ _ Hn) in E. apply IH in H. lia.
Qed.

Lemma Window_draw_cursor (atoms : list DisplayAtom) (face : Face) (w w' : Window) :
  column_length_nonneg -> Window_draw atoms face w = Some w' ->
  column (cursor w) <= column (cursor w').
Proof.
  intros Hn. unfold Window_draw. intros H. open_opt H. rename E into E1.
  open_opt H. rename E into E2.
  apply clear_line_cursor in E1. apply (draw_atoms_cursor _ _ _ _ Hn) in E2.
  destruct (_ <? _).
  - apply push_back_cursor in H. rewrite H, <- E1. exact E2.
  - injection H as <-. by rewrite <- E1.
Qed.

(** A draw into the menu window with the cursor on one of its lines. *)
Lemma menu_draw_defined (atoms : list DisplayAtom) (face : Face) (d : Display) :
  cursor_on_line (menu_win (m_menu d)) ->
  exists d', menu_draw atoms face d = Some d' /\ menu_redrawn d d' /\
             (column_length_nonneg -> cursor_on_line (menu_win (m_menu d'))).
Proof.
  intros Hc. destruct (Window_draw_redrawn atoms face _ Hc) as (w' & E & R).
  unfold menu_draw, on_menu_win. rewrite E. cbn [mbind option_bind].
  eexists. split; [reflexivity|]. split.
  - eapply (on_menu_win_redrawn (Window_draw atoms face)).
    + intros w1 w2 H. exact (proj2 (Window_draw_Some _ _ _ _ H)).
    + unfold on_menu_win. rewrite E. reflexivity.
  - intros Hn. cbn. apply (cursor_on_line_redrawn _ _ R Hc).
    pose proof (Window_draw_cursor _ _ _ _ Hn E). destruct Hc as [_ Hc]. lia.
Qed.

Lemma menu_draw_at (c : DisplayCoord) (atoms : list DisplayAtom) (face : Face) (d : Display) :
  0 <= line c < Z.of_nat (length (lines (menu_win (m_menu d)))) -> 0 <= column c ->
  exists d1 d2,
    menu_move_cursor c d = Some d1 /\ menu_draw atoms face d1 = Some d2 /\
    menu_redrawn d d2 /\
    (column_length_nonneg -> cursor_on_line (menu_win (m_menu d2))).
Proof.
  intros Hl Hc.
  destruct (menu_move_cursor c d) as [d1|] eqn:E1; [|discriminate E1].
  assert (Hon : cursor_on_line (menu_win (m_menu d1))).
  { unfold menu_move_cursor, on_menu_win in E1. cbn in E1. injection E1 as <-.
    split; assumption. }
  destruct (menu_draw_defined atoms face d1 Hon) as (d2 & E2 & R2 & C2).
  exists d1, d2. split; [reflexivity|]. split; [exact E2|]. split; [|exact C2].
  apply menu_move_cursor_redrawn in E1. by eapply menu_redrawn_trans.
Qed.

(** *** The grid *)

Lemma draw_menu_cells_defined (n : nat) (ln : Z) (mk : Mark) :
  0 <= column_width mk -> 0 <= first_col mk ->
  forall col d,
    0 <= col ->
    0 <= ln < Z.of_nat (length (lines (menu_win (m_menu d)))) ->
    0 <= line (win_size (menu_win (m_menu d))) ->
    exists d', draw_menu_cells n col ln mk d = Some d'.
Proof.
  intros Hcw Hfc. induction n as [|n IH]; intros col d Hcol Hln Hh;
    cbn [draw_menu_cells]; [by eexists|].
  cbn zeta.
  set (idx := (first_col mk + col) * line (win_size (menu_win (m_menu d))) + ln).
  destruct (menu_move_cursor (mkCoord ln (col * column_width mk)) d) as [d1|] eqn:E1;
    [|discriminate E1].
  cbn [mbind option_bind].
  match goal with |- exists _, mbind _ ?x = _ => set (oa := x) end.
  assert (Hat : exists atoms, oa = Some atoms).
  { unfold oa. destruct (Z.ltb_spec idx (Z.of_nat (length (items (m_menu d)))));
      [|by eexists].
    apply at_Z_in_range.
    assert (0 <= (first_col mk + col) * line (win_size (menu_win (m_menu d))))
      by (apply Z.mul_nonneg_nonneg; lia).
    subst oa idx. split; [lia | exact H]. }
  destruct Hat as (atoms & ->). cbn [mbind option_bind].
  match goal with |- context [menu_draw atoms ?f] =>
    destruct (menu_draw_at (mkCoord ln (col * column_width mk)) atoms f d)
      as (d1' & d2 & E1' & E2 & R & _);
      [exact Hln | cbn; apply Z.mul_nonneg_nonneg; lia |]
  end.
  rewrite E1 in E1'. injection E1' as <-. rewrite E2. cbn [mbind option_bind].
  apply menu_redrawn_same in R. destruct R as (Hshape & Hlen & _).
  apply IH; [lia | by rewrite Hlen |].
  unfold menu_shape in Hshape. injection Hshape as -> _. exact Hh.
Qed.

Lemma draw_menu_cells_same (n : nat) (col ln : Z) (mk : Mark) (d d' : Display) :
  draw_menu_cells n col ln mk d = Some d' ->
  menu_shape d' = menu_shape d /\
  length (lines (menu_win (m_menu d'))) = length (lines (menu_win (m_menu d))) /\
  menu_bg (m_menu d') = menu_bg (m_menu d).
Proof.
  intros H. apply draw_menu_cells_redrawn, menu_redrawn_same in H.
  destruct H as (H1 & H2 & _ & H3). auto.
Qed.

Lemma draw_menu_lines_defined (n : nat) (mk : Mark) :
  0 <= column_width mk -> 0 <= first_col mk ->
  forall ln d,
    0 <= ln ->
    ln + Z.of_nat n <= Z.of_nat (length (lines (menu_win (m_menu d)))) ->
    0 <= line (win_size (menu_win (m_menu d))) ->
    1 <= column (win_size (menu_win (m_menu d))) ->
    exists d', draw_menu_lines n ln mk d = Some d'.
Proof.
  intros Hcw Hfc. induction n as [|n IH]; intros ln d Hln Hn Hh Hw;
    cbn [draw_menu_lines]; [by eexists|].
  cbn zeta.
  destruct (draw_menu_cells_defined (Z.to_nat (columns (m_menu d))) ln mk Hcw Hfc 0 d)
    as (d1 & E1); [lia | lia | exact Hh |].
  rewrite E1. cbn [mbind option_bind].
  apply draw_menu_cells_same in E1. destruct E1 as (Hshape & Hlen & _).
  match goal with |- context [menu_draw ?atoms ?f] =>
    destruct (menu_draw_at (mkCoord ln (column (win_size (menu_win (m_menu d))) - 1))
                atoms f d1) as (d2 & d3 & E2 & E3 & R & _);
      [cbn; rewrite Hlen; lia | cbn; lia |]
  end.
  rewrite E2. cbn [mbind option_bind]. rewrite E3. cbn [mbind option_bind].
  apply menu_redrawn_same in R. destruct R as (Hshape3 & Hlen3 & _).
  assert (Hsz : win_size (menu_win (m_menu d3)) = win_size (menu_win (m_menu d))).
  { unfold menu_shape in Hshape, Hshape3.
    injection Hshape as Hs _. injection Hshape3 as Hs3 _. congruence. }
  apply IH; [lia | rewrite Hlen3, Hlen; lia | by rewrite Hsz | by rewrite Hsz].
Qed.

Lemma menu_mark_defined (m : Menu) :
  menu_inv m -> 1 <= columns m -> 1 <= line (win_size (menu_win m)) ->
  1 <= column (win_size (menu_win m)) ->
  exists mk, menu_mark m = Some mk /\ 0 <= column_width mk /\ 0 <= first_col mk.
Proof.
  intros [_ Hinv] Hc Hh Hw. destruct (Hinv Hc Hh) as (HL & Hf0 & _).
  unfold menu_mark, div_round_up, cdiv.
  repeat match goal with
         | |- context [if ?x =? 0 then None else _] =>
             destruct (Z.eqb_spec x 0); [lia|]; cbn [mbind option_bind]
         end.
  eexists. split; [reflexivity|]. cbn [column_width first_col].
  rewrite !Z.quot_div_nonneg by lia. split; apply Z.div_pos; lia.
Qed.

(** *** The horizontal menu *)

Lemma draw_menu_items_defined (n : nat) (win_width : Z) :
  column_length_nonneg -> 0 <= win_width + 2 ->
  forall i p d,
    0 <= i -> Z.of_nat (length (items (m_menu d))) - i <= Z.of_nat n ->
    cursor_on_line (menu_win (m_menu d)) ->
    (0 < length (lines (menu_win (m_menu d))))%nat ->
    exists j d', draw_menu_items n i p win_width d = Some (j, d') /\
                 (0 < length (lines (menu_win (m_menu d'))))%nat.
Proof.
  intros Hnn Hww. induction n as [|n IH]; intros i p d Hi Hn Hc Hl;
    cbn [draw_menu_items].
  - replace (i <? Z.of_nat (length (items (m_menu d)))) with false by lia.
    cbn [andb]. by eexists _, _.
  - cbn zeta.
    destruct ((i <? Z.of_nat (length (items (m_menu d)))) && (p <? win_width)) eqn:Hguard;
      [|by eexists _, _].
    apply andb_true_iff in Hguard. destruct Hguard as [Hlt _]. apply Z.ltb_lt in Hlt.
    destruct (at_Z_in_range (items (m_menu d)) i ltac:(lia)) as (item & ->).
    cbn [mbind option_bind].
    match goal with |- context [menu_draw item ?f d] =>
      destruct (menu_draw_defined item f d Hc) as (d1 & E1 & R1 & C1) end.
    rewrite E1. cbn [mbind option_bind]. specialize (C1 Hnn).
    apply menu_redrawn_same in R1. destruct R1 as (Hshape1 & Hlen1 & _ & Hbg1).
    assert (Hstep : exists d2,
              (if p + DisplayLine_length item <? win_width
               then menu_draw [atom_of " "] (menu_bg (m_menu d)) d1
               else dm ← menu_move_cursor (mkCoord 0 (win_width + 2)) d1;
                    menu_draw [atom_of "…"] (menu_bg (m_menu d)) dm) = Some d2 /\
              menu_redrawn d1 d2 /\ cursor_on_line (menu_win (m_menu d2))).
    { destruct (p + DisplayLine_length item <? win_width).
      - destruct (menu_draw_defined [atom_of " "] (menu_bg (m_menu d)) d1 C1)
          as (d2 & E2 & R2 & C2).
        exists d2. split; [exact E2|]. split; [exact R2 | exact (C2 Hnn)].
      - destruct (menu_draw_at (mkCoord 0 (win_width + 2)) [atom_of "…"]
                    (menu_bg (m_menu d)) d1) as (d2 & d3 & E2 & E3 & R & C3).
        + cbn. rewrite Hlen1. lia.
        + cbn. lia.
        + exists d3. rewrite E2. cbn [mbind option_bind].
          split; [exact E3|]. split; [exact R | exact (C3 Hnn)]. }
    destruct Hstep as (d2 & -> & R2 & C2). cbn [mbind option_bind].
    apply menu_redrawn_same in R2. destruct R2 as (Hshape2 & Hlen2 & _).
    assert (Hitems : items (m_menu d2) = items (m_menu d)).
    { unfold menu_shape in Hshape1, Hshape2.
      injection Hshape1 as _ Hi1 _ _ _. injection Hshape2 as _ Hi2 _ _ _. congruence. }
    apply IH; [lia | rewrite Hitems; lia | exact C2 | rewrite Hlen2, Hlen1; exact Hl].
Qed.

(** [draw_menu] is defined on a menu window of at least one line that
    holds as many lines as it is high and is two columns wide or more,
    with the first item shown and the number of columns not negative. *)
Lemma draw_menu_defined (d : Display) :
  column_length_nonneg -> menu_inv (m_menu d) -> menu_wf (m_menu d) ->
  1 <= line (win_size (menu_win (m_menu d))) ->
  exists d', draw_menu d = Some d'.
Proof.
  intros Hnn Hinv Hwf Hh. destruct (Hwf Hh) as (Hlen & Hw & Hf & Hc).
  unfold draw_menu. cbn zeta.
  destruct (negb (Window_present (menu_win (m_menu d)))); [by eexists|].
  destruct (Z.eqb_spec (columns (m_menu d)) 0) as [Hc0|Hc0].
  - match goal with |- context [menu_draw ?atoms ?f] =>
      destruct (menu_draw_at (mkCoord 0 0) atoms f d) as (d1 & d2 & E1 & E2 & R2 & C2);
        [cbn; lia | cbn; lia |]
    end.
    rewrite E1. cbn [mbind option_bind]. rewrite E2. cbn [mbind option_bind].
    apply menu_redrawn_same in R2. destruct R2 as (Hshape2 & Hlen2 & _).
    destruct (draw_menu_items_defined (length (items (m_menu d)))
                (column (win_size (menu_win (m_menu d))) - 4) Hnn ltac:(lia)
                (first_item (m_menu d)) 0 d2) as (j & d3 & E3 & Hl3).
    + exact Hf.
    + unfold menu_shape in Hshape2. injection Hshape2 as _ -> _ _ _. lia.
    + exact (C2 Hnn).
    + rewrite Hlen2. lia.
    + rewrite E3. cbn [mbind option_bind].
      match goal with |- context [menu_draw ?atoms ?f] =>
        destruct (menu_draw_at (mkCoord 0 (column (win_size (menu_win (m_menu d))) - 4 + 3))
                    atoms f d3) as (d4 & d5 & E4 & E5 & _);
          [cbn; lia | cbn; lia |]
      end.
      rewrite E4. cbn [mbind option_bind]. rewrite E5. cbn [mbind option_bind].
      by eexists.
  - destruct (menu_mark_defined (m_menu d) Hinv ltac:(lia) Hh ltac:(lia))
      as (mk & -> & Hcw & Hfc).
    cbn [mbind option_bind].
    destruct (draw_menu_lines_defined (Z.to_nat (line (win_size (menu_win (m_menu d)))))
                mk Hcw Hfc 0 d) as (d1 & ->); [lia | lia | lia | lia |].
    cbn [mbind option_bind]. by eexists.
Qed.

(** *** Reachable menus *)

Lemma menu_show_wf (new_items : list DisplayLine) (anchor : DisplayCoord) (fg bg : Face)
  (style : MenuStyle) (d0 d : Display) :
  menu_show new_items anchor fg bg style d0 = Some d -> menu_wf (m_menu d).
Proof.
  intros H. destruct (Z.le_gt_cases (column (m_dimensions d0)) 2) as [Hd|Hd].
  - unfold menu_show in H.
    destruct (Window_present (menu_win (m_menu d0))) eqn:Hp; cbn zeta in H;
      (match type of H with (if ?b then _ else _) = _ =>
         replace b with true in H by (cbn; lia) end);
      injection H as <-; unfold menu_wf; cbn; [lia|].
    rewrite (not_present_size _ Hp). cbn. lia.
  - destruct (menu_show_created _ _ _ _ _ _ _ H ltac:(lia))
      as (cols & height & maxlen & c & ls & Hstyle & Hh & Hls & ->).
    unfold menu_wf. cbn. intros Hh1. split; [exact Hls|].
    pose proof (fold_left_max_ge (map DisplayLine_length new_items) 1) as Hlong.
    assert (Hhalf : 2 * Z.quot (column (m_dimensions d0)) 2 <= column (m_dimensions d0)).
    { rewrite Z.quot_div_nonneg by lia. apply Z.mul_div_le. lia. }
    destruct style; cbn in *; destruct Hstyle as [-> _]; lia.
Qed.

(** The first item shown that [menu_select] computes for a grid. *)
Lemma grid_scroll_ok (h n cs first selected : Z) :
  1 <= h -> 1 <= cs -> 0 <= first -> 0 <= selected < n ->
  Z.quot first h <= Z.max 0 (Z.quot (n - 1) h + 1 - cs) ->
  let menu_cols := Z.quot (n - 1) h + 1 in
  let first_col := Z.quot first h in
  let selected_col := Z.quot selected h in
  let first1 := if selected_col <? first_col then selected_col * h else first in
  let first2 := if selected_col >=? first_col + cs
                then Z.min selected_col (menu_cols - cs) * h else first1 in
  0 <= first2 /\ Z.quot first2 h <= Z.max 0 (Z.quot (n - 1) h + 1 - cs).
Proof.
  intros Hh Hc Hf0 Hsel Hfc. cbn zeta.
  rewrite !Z.quot_div_nonneg in * by lia.
  assert (Hsc0 : 0 <= selected / h) by (apply Z.div_pos; lia).
  assert (Hscn : selected / h <= (n - 1) / h) by (apply Z.div_le_mono; lia).
  assert (Hfc0 : 0 <= first / h) by (apply Z.div_pos; lia).
  destruct (Z.ltb_spec (selected / h) (first / h)) as [Hlt|Hge].
  - replace (selected / h >=? first / h + cs) with false by lia.
    split; [nia|]. rewrite Z.quot_mul by lia. lia.
  - destruct (Z.geb_spec (selected / h) (first / h + cs)) as [Hge2|Hlt2].
    + split; [nia|]. rewrite Z.quot_mul by lia. lia.
    + split; [exact Hf0|]. rewrite Z.quot_div_nonneg by lia. exact Hfc.
Qed.

(** The menu [menu_select] hands to [draw_menu]. *)
Lemma menu_select_scrolled (selected : Z) (d : Display) :
  menu_inv (m_menu d) -> menu_wf (m_menu d) ->
  1 <= line (win_size (menu_win (m_menu d))) ->
  exists s f,
    menu_select selected d = draw_menu (set_m_menu d (set_selection (m_menu d) s f)) /\
    0 <= f /\ menu_inv (set_selection (m_menu d) s f).
Proof.
  intros [Hh0 Hinv] Hwf Hh. destruct (Hwf Hh) as (Hlen & Hw & Hf & Hc).
  unfold menu_select. cbn zeta.
  destruct ((selected <? 0) || (selected >=? Z.of_nat (length (items (m_menu d))))) eqn:Hs.
  - exists (-1), 0. cbn [mbind option_bind]. split; [reflexivity|]. split; [lia|].
    unfold menu_inv. cbn. split; [exact Hh0|]. intros Hc1 _.
    destruct (Hinv Hc1 Hh) as (H1 & _). split; [exact H1|]. split; [lia|].
    rewrite Z.quot_0_l by lia. lia.
  - apply orb_false_iff in Hs. destruct Hs as [Hs0 Hsn].
    apply Z.ltb_ge in Hs0. rewrite Z.geb_leb in Hsn. apply Z.leb_gt in Hsn.
    destruct (Z.eqb_spec (columns (m_menu d)) 0) as [Hc0|Hc0].
    + destruct (select_scan_fits (items (m_menu d))
                  (column (win_size (menu_win (m_menu d))) - 3)
                  (Z.to_nat (selected + 1)) 0 0 0) as (r & -> & Hr & _).
      * lia.
      * lia.
      * symmetry. apply span_width_empty.
      * right. right. reflexivity.
      * exists selected, r. cbn [mbind option_bind]. split; [reflexivity|].
        split; [lia|]. unfold menu_inv. cbn. split; [exact Hh0|]. lia.
    + unfold div_round_up, cdiv.
      destruct (Z.eqb_spec (line (win_size (menu_win (m_menu d)))) 0); [lia|].
      cbn [mbind option_bind].
      destruct (Hinv ltac:(lia) Hh) as (H1 & _ & Hfc).
      destruct (grid_scroll_ok (line (win_size (menu_win (m_menu d))))
                  (Z.of_nat (length (items (m_menu d)))) (columns (m_menu d))
                  (first_item (m_menu d)) selected Hh ltac:(lia) Hf ltac:(lia) Hfc)
        as (Hf2 & Hq2).
      eexists selected, _. split; [reflexivity|]. split; [exact Hf2|].
      unfold menu_inv. cbn. split; [exact Hh0|]. intros _ _.
      split; [exact H1|]. split; [exact Hf2 | exact Hq2].
Qed.

Lemma menu_select_wf (selected : Z) (d d' : Display) :
  menu_inv (m_menu d) -> menu_wf (m_menu d) ->
  menu_select selected d = Some d' -> menu_wf (m_menu d').
Proof.
  intros Hinv Hwf H. unfold menu_wf. intros Hh.
  destruct (menu_select_frame selected d d' H) as (_ & Hc & _ & Hs & Hl & _).
  cbn zeta in Hc, Hs, Hl. rewrite Hs in Hh |- *. rewrite Hl, Hc.
  destruct (Hwf Hh) as (Hlen & Hw & Hf & Hcs).
  split; [exact Hlen|]. split; [exact Hw|]. split; [|exact Hcs].
  destruct (menu_select_scrolled selected d Hinv Hwf Hh) as (s & f & E & Hf0 & _).
  rewrite E in H. apply draw_menu_redrawn in H. destruct H as (c & ls & b & _ & ->).
  exact Hf0.
Qed.

Lemma menu_reachable_wf (d : Display) : menu_reachable d -> menu_wf (m_menu d).
Proof.
  induction 1 as [d0 new_items anchor fg bg style d H|d selected d' Hr IH H].
  - by apply menu_show_wf in H.
  - apply (menu_select_wf selected d d'); [by apply menu_reachable_inv | exact IH | exact H].
Qed.

(** X22. [menu_select] is defined on every menu reached through [menu_show]
    and [menu_select] whose window has a line, for every argument, item or
    not: no division by zero, no item or window line out of range. *)
Theorem menu_select_defined (selected : Z) (d : Display)
  (Hnn : column_length_nonneg) (Hreach : menu_reachable d)
  (Hh : 1 <= line (win_size (menu_win (m_menu d)))) :
  exists d', menu_select selected d = Some d' /\ menu_reachable d'.
Proof.
  pose proof (menu_reachable_inv d Hreach) as Hinv.
  pose proof (menu_reachable_wf d Hreach) as Hwf.
  destruct (menu_select_scrolled selected d Hinv Hwf Hh) as (s & f & E & Hf0 & Hinv').
  destruct (draw_menu_defined (set_m_menu d (set_selection (m_menu d) s f)) Hnn)
    as (d' & E').
  - exact Hinv'.
  - unfold menu_wf. cbn. intros _. destruct (Hwf Hh) as (H1 & H2 & _ & H4). auto.
  - exact Hh.
  - exists d'. rewrite E. split; [exact E'|].
    apply (reach_menu_select d selected d' Hreach). by rewrite E.
Qed.

End MenuDefined.

(** ** The info box *)
Section InfoFacts.
Context {prim : DisplayPrimitives}.

Lemma info_changed_refl (d : Display) : info_changed d d.
Proof. exists (m_info d), (m_dirty d). by destruct d. Qed.

Lemma info_changed_trans (d1 d2 d3 : Display) :
  info_changed d1 d2 -> info_changed d2 d3 -> info_changed d1 d3.
Proof. intros (i1 & b1 & ->) (i2 & b2 & ->). by exists i2, b2. Qed.

Lemma info_hide_changed (d : Display) : info_changed d (info_hide d).
Proof.
  unfold info_hide. destruct (negb _); [apply info_changed_refl|]. by eexists _, _.
Qed.

Lemma info_box_line_defined (title : string) (wrapped assistant : list string)
  (assistant_size : DisplayCoord) (bubble_width margin i : Z) :
  0 <= i ->
  assistant = [] \/ (assistant <> [] /\ line assistant_size = Z.of_nat (length assistant)) ->
  exists s, info_box_line title wrapped assistant assistant_size bubble_width margin i
            = Some s.
Proof.
  intros Hi Ha. unfold info_box_line.
  assert (E : exists ln,
            match assistant with
            | [] => Some EmptyString
            | _ :: _ =>
                if i >=? margin
                then at_Z assistant (Z.min (i - margin) (line assistant_size - 1))
                else at_Z assistant (line assistant_size - 1)
            end = Some ln).
  { destruct Ha as [->|[Hne Hl]]; [by eexists|].
    destruct assistant as [|a r]; [congruence|].
    cbn [length] in Hl.
    destruct (Z.geb_spec i margin); apply at_Z_in_range; cbn [length]; lia. }
  destruct E as (ln & ->). cbn [mbind option_bind].
  destruct (i =? 0) eqn:H0; [destruct (string_empty title); by eexists|].
  destruct (Z.ltb_spec i (Z.of_nat (length wrapped) + 1)).
  - destruct (at_Z_in_range wrapped (i - 1)) as (x & ->); [lia|].
    cbn [mbind option_bind]. by eexists.
  - match goal with |- context [if ?b then _ else _] => destruct b end; by eexists.
Qed.

Lemma info_box_lines_defined (title : string) (wrapped assistant : list string)
  (assistant_size : DisplayCoord) (bubble_width margin : Z) (n : nat) :
  assistant = [] \/ (assistant <> [] /\ line assistant_size = Z.of_nat (length assistant)) ->
  forall i, 0 <= i ->
  exists ls, info_box_lines title wrapped assistant assistant_size bubble_width margin i n
             = Some ls /\ length ls = n.
Proof.
  intros Ha. induction n as [|n IH]; intros i Hi; cbn [info_box_lines].
  - by exists [].
  - destruct (info_box_line_defined title wrapped assistant assistant_size bubble_width
                margin i Hi Ha) as (s & ->).
    cbn [mbind option_bind]. destruct (IH (i + 1) ltac:(lia)) as (ls & -> & Hl).
    cbn [mbind option_bind]. exists (s :: ls). split; [reflexivity | cbn; lia].
Qed.

Lemma make_info_box_defined (title message : string) (max_width : Z)
  (assistant : list string) :
  exists box,
    make_info_box title message max_width assistant = Some box /\
    0 <= line (box_size box) /\
    length (contents box) = Z.to_nat (line (box_size box)).
Proof.
  unfold make_info_box. cbn zeta.
  match goal with |- context [if ?b then _ else _] => destruct b end.
  - eexists. split; [reflexivity|]. cbn. split; [lia | reflexivity].
  - match goal with |- context [info_box_lines ?t ?w ?a ?sz ?bw ?m 0 ?n] =>
      destruct (info_box_lines_defined t w a sz bw m n) with (i := 0) as (ls & -> & Hl)
    end.
    + destruct assistant as [|a r]; [by left | right]. split; [congruence | reflexivity].
    + lia.
    + cbn [mbind option_bind]. eexists. split; [reflexivity|]. cbn.
      split; [lia | exact Hl].
Qed.

Lemma make_simple_info_box_size (message : string) (max_width : Z) :
  let box := make_simple_info_box message max_width in
  contents box = wrap_lines message max_width /\
  line (box_size box) = Z.of_nat (length (wrap_lines message max_width)) /\
  Forall (fun ln => column_length ln <= column (box_size box)) (contents box) /\
  0 <= column (box_size box).
Proof.
  cbn zeta. unfold make_simple_info_box.
  set (f := fun box ln =>
              mkInfoBox (mkCoord (line (box_size box) + 1)
                                 (Z.max (column_length ln) (column (box_size box))))
                        (contents box ++ [ln])).
  assert (H : forall l box0,
            let r := fold_left f l box0 in
            contents r = contents box0 ++ l /\
            line (box_size r) = line (box_size box0) + Z.of_nat (length l) /\
            column (box_size box0) <= column (box_size r) /\
            (Forall (fun ln => column_length ln <= column (box_size box0)) (contents box0) ->
             Forall (fun ln => column_length ln <= column (box_size r)) (contents r))).
  { induction l as [|x l IH]; intros box0; cbn zeta; cbn [fold_left].
    - rewrite app_nil_r. cbn. repeat split; auto with zarith.
    - destruct (IH (f box0 x)) as (H1 & H2 & H3 & H4). cbn zeta in *. cbn in H1, H2, H3, H4.
      split; [rewrite H1, <- app_assoc; reflexivity|].
      split; [rewrite H2; cbn [length]; lia|]. split; [lia|]. intros HF. apply H4.
      apply Forall_app. split.
      + eapply Forall_impl; [exact HF|]. cbn. intros; lia.
      + constructor; [lia | constructor]. }
  destruct (H (wrap_lines message max_width) (mkInfoBox coord_zero [])) as (H1 & H2 & H3 & H4).
  cbn zeta in *. cbn in *. split; [exact H1|]. split; [lia|]. split; [|exact H3].
  apply H4. constructor.
Qed.

Lemma on_info_win_changed (f : Window -> option Window) (d d' : Display) :
  on_info_win f d = Some d' -> info_changed d d'.
Proof.
  unfold on_info_win. intros H. open_opt H. injection H as <-.
  exists (set_info_win (m_info d) w), (m_dirty d). by destruct d.
Qed.

Lemma info_draw_lines_defined (box : InfoBox) (face : Face) (n : nat) :
  forall ln d,
    0 <= ln ->
    ln + Z.of_nat n <= Z.of_nat (length (contents box)) ->
    ln + Z.of_nat n <= Z.of_nat (length (lines (info_win (m_info d)))) ->
    exists d',
      info_draw_lines box face ln n d = Some d' /\ info_changed d d' /\
      win_pos (info_win (m_info d')) = win_pos (info_win (m_info d)) /\
      win_size (info_win (m_info d')) = win_size (info_win (m_info d)) /\
      length (lines (info_win (m_info d'))) = length (lines (info_win (m_info d))) /\
      title (m_info d') = title (m_info d) /\
      info_content (m_info d') = info_content (m_info d) /\
      info_anchor (m_info d') = info_anchor (m_info d) /\
      info_face (m_info d') = info_face (m_info d) /\
      info_style (m_info d') = info_style (m_info d).
Proof.
  induction n as [|n IH]; intros ln d Hln Hc Hl; cbn [info_draw_lines].
  - exists d. split; [reflexivity|]. split; [apply info_changed_refl|]. auto 10.
  - destruct (at_Z_in_range (contents box) ln ltac:(lia)) as (txt & ->).
    cbn [mbind option_bind].
    destruct (Window_draw_redrawn [atom_of txt] face
                (Window_move_cursor (mkCoord ln 0) (info_win (m_info d))))
      as (w' & E & R).
    { split; cbn; lia. }
    unfold on_info_win at 1. rewrite E. cbn [mbind option_bind].
    destruct R as (RP & RS & RL & RC & RO). cbn in RP, RS, RL, RC.
    destruct (IH (ln + 1) (set_m_info d (set_info_win (m_info d) w')))
      as (d' & E' & Hch & P & S & L & Ht & Hco & Han & Hfa & Hst);
      [lia | lia | cbn; lia |].
    exists d'. split; [exact E'|]. split.
    { eapply info_changed_trans; [|exact Hch].
      exists (set_info_win (m_info d) w'), (m_dirty d). by destruct d. }
    cbn in P, S, L, Ht, Hco, Han, Hfa, Hst.
    repeat match goal with |- _ /\ _ => split end; congruence.
Qed.

Lemma info_hide_absent (d : Display) :
  Window_present (info_win (m_info (info_hide d))) = false.
Proof.
  unfold info_hide. destruct (Window_present (info_win (m_info d))) eqn:E; cbn [negb].
  - reflexivity.
  - exact E.
Qed.

(** The last steps of [info_show]: the fit test, and for a box that passes
    it the creation of the window and the drawing of its lines. *)
Lemma info_place_defined (d : Display) (box : InfoBox) (a : DisplayCoord) (face : Face) :
  0 <= line (box_size box) ->
  length (contents box) = Z.to_nat (line (box_size box)) ->
  Window_present (info_win (m_info d)) = false ->
  let rect := mkRect (mkCoord (content_line_offset d) 0) (m_dimensions d) in
  exists d',
    (if coord_ltb a (pos rect)
        || coord_gtb (coord_add a (box_size box)) (coord_add (pos rect) (size rect))
     then Some d
     else d1 ← on_info_win (Window_create a (box_size box)) d;
          d2 ← info_draw_lines box face 0 (Z.to_nat (line (box_size box))) d1;
          Some (set_m_dirty d2 true)) = Some d' /\
    info_changed d d' /\
    title (m_info d') = title (m_info d) /\
    info_content (m_info d') = info_content (m_info d) /\
    info_anchor (m_info d') = info_anchor (m_info d) /\
    info_face (m_info d') = info_face (m_info d) /\
    info_style (m_info d') = info_style (m_info d) /\
    (Window_present (info_win (m_info d')) = true ->
     win_pos (info_win (m_info d')) = a /\
     win_size (info_win (m_info d')) = box_size box /\
     length (lines (info_win (m_info d'))) = Z.to_nat (line (box_size box)) /\
     content_line_offset d <= line a /\
     line a + line (box_size box) <= content_line_offset d + line (m_dimensions d)).
Proof.
  intros Hh Hc Habs. cbn zeta.
  destruct (coord_ltb a _ || coord_gtb _ _) eqn:Hfit.
  - exists d. split; [reflexivity|]. split; [apply info_changed_refl|].
    repeat match goal with |- _ /\ _ => split end; try reflexivity.
    intros Hp. congruence.
  - unfold on_info_win at 1. unfold Window_create.
    replace (line (box_size box) <? 0) with false by lia. cbn [mbind option_bind].
    match goal with |- context [info_draw_lines box face 0 ?n ?s] =>
      destruct (info_draw_lines_defined box face n 0 s)
        as (d2 & -> & Hch & P & S & L & Ht & Hco & Han & Hfa & Hst)
    end.
    + lia.
    + lia.
    + cbn. rewrite resize_lines_length. lia.
    + cbn [mbind option_bind]. eexists. split; [reflexivity|].
      cbn in P, S, L, Ht, Hco, Han, Hfa, Hst. rewrite resize_lines_length in L.
      split.
      { destruct Hch as (i & b & ->). exists i, true. by destruct d. }
      cbn. repeat match goal with |- _ /\ _ => split end; try assumption.
      intros _. apply orb_false_iff in Hfit. destruct Hfit as [H1 H2].
      unfold coord_gtb, coord_ltb in H1, H2. cbn in H1, H2.
      repeat match goal with |- _ /\ _ => split end; try assumption; lia.
Qed.

(** X24. [info_show] is defined for every argument and every display.  It
    changes nothing but the info box and the dirty flag, and records the
    arguments as the info box of the display.  When it leaves an info
    window, the window has the size of the box built for the text, holds
    as many lines as it is high, and lies within the lines of the content
    area. *)
Theorem info_show_defined (ttl msg : string) (anchor : DisplayCoord) (face : Face)
  (style : InfoStyle) (d : Display) :
  exists d',
    info_show ttl msg anchor face style d = Some d' /\
    info_changed d d' /\
    (let i := m_info d' in
     (title i, info_content i, info_anchor i, info_face i, info_style i)
     = (ttl, msg, anchor, face, style)) /\
    (let w := info_win (m_info d') in
     Window_present w = true ->
     length (lines w) = Z.to_nat (line (win_size w)) /\
     content_line_offset d <= line (win_pos w) /\
     line (win_pos w) + line (win_size w) <= content_line_offset d + line (m_dimensions d)).
Proof.
  pose proof (info_hide_changed d) as Hhide. pose proof (info_hide_absent d) as Habs.
  unfold info_show. cbn zeta.
  set (d1 := info_hide d) in *.
  set (d2 := set_m_info d1 (mkInfo (info_win (m_info d1)) ttl msg anchor face style)).
  assert (Hch : info_changed d d2).
  { destruct Hhide as (i & b & ->). eexists _, b. reflexivity. }
  assert (Hoff : content_line_offset d2 = content_line_offset d /\
                 m_dimensions d2 = m_dimensions d).
  { destruct Hch as (i & b & ->). split; reflexivity. }
  destruct Hoff as (Hoff & Hdim).
  assert (Hnone : exists d',
            Some d2 = Some d' /\ info_changed d d' /\
            (let i := m_info d' in
             (title i, info_content i, info_anchor i, info_face i, info_style i)
             = (ttl, msg, anchor, face, style)) /\
            (let w := info_win (m_info d') in
             Window_present w = true ->
             length (lines w) = Z.to_nat (line (win_size w)) /\
             content_line_offset d <= line (win_pos w) /\
             line (win_pos w) + line (win_size w)
               <= content_line_offset d + line (m_dimensions d))).
  { exists d2. split; [reflexivity|]. split; [exact Hch|]. split; [reflexivity|].
    cbn. intros Hp. congruence. }
  assert (Hplace : forall box a,
            0 <= line (box_size box) ->
            length (contents box) = Z.to_nat (line (box_size box)) ->
            exists d',
              (if coord_ltb a (mkCoord (content_line_offset d2) 0)
                  || coord_gtb (coord_add a (box_size box))
                       (coord_add (mkCoord (content_line_offset d2) 0) (m_dimensions d2))
               then Some d2
               else d3 ← on_info_win (Window_create a (box_size box)) d2;
                    d4 ← info_draw_lines box face 0 (Z.to_nat (line (box_size box))) d3;
                    Some (set_m_dirty d4 true)) = Some d' /\
              info_changed d d' /\
              (let i := m_info d' in
               (title i, info_content i, info_anchor i, info_face i, info_style i)
               = (ttl, msg, anchor, face, style)) /\
              (let w := info_win (m_info d') in
               Window_present w = true ->
               length (lines w) = Z.to_nat (line (win_size w)) /\
               content_line_offset d <= line (win_pos w) /\
               line (win_pos w) + line (win_size w)
                 <= content_line_offset d + line (m_dimensions d))).
  { intros box a Hh Hc.
    destruct (info_place_defined d2 box a face Hh Hc Habs)
      as (d' & E & Hch' & Ht & Hco & Han & Hfa & Hst & Hw).
    cbn zeta in E. exists d'. split; [exact E|].
    split; [by eapply info_changed_trans|]. cbn zeta.
    split; [cbn in Ht, Hco, Han, Hfa, Hst; congruence|].
    intros Hp. destruct (Hw Hp) as (HP & HS & HL & H1 & H2).
    rewrite HP, HS, <- Hoff, <- Hdim. auto. }
  cbn [pos size] in *.
  destruct style; cbn [InfoStyle_eqb].
  - destruct (make_info_box_defined ttl msg (column (m_dimensions d2)) (m_assistant d2))
      as (box & -> & Hh & Hc).
    cbn [mbind option_bind]. by apply Hplace.
  - destruct (make_info_box_defined ttl msg (column (m_dimensions d2)) [])
      as (box & -> & Hh & Hc).
    cbn [mbind option_bind]. by apply Hplace.
  - destruct (negb (Window_present (menu_win (m_menu d2)))); [exact Hnone|].
    match goal with |- context [if ?b then Some None else _] => destruct b end;
      [exact Hnone|].
    cbn [mbind option_bind].
    match goal with |- context [make_simple_info_box ?c ?w] =>
      destruct (make_simple_info_box_size c w) as (H1 & H2 & _) end.
    apply Hplace; [lia | rewrite H1, H2; lia].
  - match goal with |- context [if ?b then Some None else _] => destruct b end;
      [exact Hnone|].
    cbn [mbind option_bind].
    match goal with |- context [make_simple_info_box ?c ?w] =>
      destruct (make_simple_info_box_size c w) as (H1 & H2 & _) end.
    apply Hplace; [lia | rewrite H1, H2; lia].
  - match goal with |- context [if ?b then Some None else _] => destruct b end;
      [exact Hnone|].
    cbn [mbind option_bind].
    match goal with |- context [make_simple_info_box ?c ?w] =>
      destruct (make_simple_info_box_size c w) as (H1 & H2 & _) end.
    apply Hplace; [lia | rewrite H1, H2; lia].
Qed.

End InfoFacts.

(** ** Showing again, hiding, resizing *)
Section Reshow.
Context {prim : DisplayPrimitives}.

Lemma info_show_total (ttl msg : string) (anchor : DisplayCoord) (face : Face)
  (style : InfoStyle) (d : Display) :
  exists d', info_show ttl msg anchor face style d = Some d' /\ info_changed d d'.
Proof.
  pose proof (info_hide_changed d) as Hhide. pose proof (info_hide_absent d) as Habs.
  unfold info_show. cbn zeta.
  set (d1 := info_hide d) in *.
  set (d2 := set_m_info d1 (mkInfo (info_win (m_info d1)) ttl msg anchor face style)).
  assert (Hch : info_changed d d2).
  { destruct Hhide as (i & b & ->). eexists _, b. reflexivity. }
  assert (Hnone : exists d', Some d2 = Some d' /\ info_changed d d') by (by exists d2).
  assert (Hplace : forall box a,
            0 <= line (box_size box) ->
            length (contents box) = Z.to_nat (line (box_size box)) ->
            exists d',
              (if coord_ltb a (mkCoord (content_line_offset d2) 0)
                  || coord_gtb (coord_add a (box_size box))
                       (coord_add (mkCoord (content_line_offset d2) 0) (m_dimensions d2))
               then Some d2
               else d3 ← on_info_win (Window_create a (box_size box)) d2;
                    d4 ← info_draw_lines box face 0 (Z.to_nat (line (box_size box))) d3;
                    Some (set_m_dirty d4 true)) = Some d' /\
              info_changed d d').
  { intros box a Hh Hc.
    destruct (info_place_defined d2 box a face Hh Hc Habs) as (d' & E & Hch' & _).
    cbn zeta in E. exists d'. split; [exact E | by eapply info_changed_trans]. }
  cbn [pos size] in *.
  destruct style; cbn [InfoStyle_eqb].
  - destruct (make_info_box_defined ttl msg (column (m_dimensions d2)) (m_assistant d2))
      as (box & -> & Hh & Hc).
    cbn [mbind option_bind]. by apply Hplace.
  - destruct (make_info_box_defined ttl msg (column (m_dimensions d2)) [])
      as (box & -> & Hh & Hc).
    cbn [mbind option_bind]. by apply Hplace.
  - destruct (negb (Window_present (menu_win (m_menu d2)))); [exact Hnone|].
    match goal with |- context [if ?b then Some None else _] => destruct b end;
      [exact Hnone|].
    cbn [mbind option_bind].
    match goal with |- context [make_simple_info_box ?c ?w] =>
      destruct (make_simple_info_box_size c w) as (H1 & H2 & _) end.
    apply Hplace; [lia | rewrite H1, H2; lia].
  - match goal with |- context [if ?b then Some None else _] => destruct b end;
      [exact Hnone|].
    cbn [mbind option_bind].
    match goal with |- context [make_simple_info_box ?c ?w] =>
      destruct (make_simple_info_box_size c w) as (H1 & H2 & _) end.
    apply Hplace; [lia | rewrite H1, H2; lia].
  - match goal with |- context [if ?b then Some None else _] => destruct b end;
      [exact Hnone|].
    cbn [mbind option_bind].
    match goal with |- context [make_simple_info_box ?c ?w] =>
      destruct (make_simple_info_box_size c w) as (H1 & H2 & _) end.
    apply Hplace; [lia | rewrite H1, H2; lia].
Qed.

Lemma info_reshow_defined (d : Display) :
  exists d', info_reshow d = Some d' /\ info_changed d d'.
Proof.
  unfold info_reshow. destruct (Window_present _).
  - apply info_show_total.
  - exists d. split; [reflexivity | apply info_changed_refl].
Qed.

(** X25. [menu_hide] is defined on every display.  It leaves no menu window,
    drops the items of a menu that was shown, and touches neither the main
    window nor the dimensions; hiding again changes nothing. *)
Theorem menu_hide_defined (d : Display) :
  exists d',
    menu_hide d = Some d' /\
    Window_present (menu_win (m_menu d')) = false /\
    (Window_present (menu_win (m_menu d)) = true -> items (m_menu d') = []) /\
    m_window d' = m_window d /\ m_dimensions d' = m_dimensions d /\
    menu_hide d' = Some d'.
Proof.
  unfold menu_hide at 1.
  destruct (Window_present (menu_win (m_menu d))) eqn:Hp; cbn [negb].
  - cbn zeta.
    match goal with |- context [info_reshow ?s] =>
      destruct (info_reshow_defined s) as (d' & -> & (i & b & ->)) end.
    eexists. split; [reflexivity|]. cbn.
    repeat match goal with |- _ /\ _ => split end; reflexivity.
  - exists d. split; [reflexivity|]. split; [exact Hp|].
    split; [congruence|]. split; [reflexivity|]. split; [reflexivity|].
    unfold menu_hide. by rewrite Hp.
Qed.

(** The last steps of [menu_show]: the window is created, the selection
    reset, the menu drawn and the info box shown again. *)
Lemma menu_create_draw (S : Display) (p : DisplayCoord) (height width count : Z) :
  column_length_nonneg ->
  1 <= height -> 2 <= width -> 0 <= columns (m_menu S) ->
  (1 <= columns (m_menu S) ->
   height <= Z.quot (Z.of_nat (length (items (m_menu S))) - 1) (columns (m_menu S)) + 1) ->
  exists d,
    (d1 ← on_menu_win (Window_create p (mkCoord height width)) S;
     d2 ← draw_menu (set_m_menu d1 (set_selection (m_menu d1) count 0));
     info_reshow d2) = Some d /\
    line (win_size (menu_win (m_menu d))) = height.
Proof.
  intros Hnn Hh Hw Hc Hfit.
  unfold on_menu_win, Window_create. cbn [line].
  replace (height <? 0) with false by lia. cbn [mbind option_bind].
  match goal with |- context [draw_menu ?s] =>
    destruct (draw_menu_defined s Hnn) as (d2 & E2) end.
  - unfold menu_inv. cbn. split; [lia|]. intros Hc1 _.
    split; [by apply Hfit|]. split; [lia|]. rewrite Z.quot_0_l by lia. lia.
  - unfold menu_wf. cbn. intros _. rewrite resize_lines_length. auto with zarith.
  - cbn. exact Hh.
  - rewrite E2. cbn [mbind option_bind].
    apply draw_menu_redrawn in E2. destruct E2 as (c & ls & b & _ & ->).
    match goal with |- context [info_reshow ?s] =>
      destruct (info_reshow_defined s) as (d & -> & (i & b' & ->)) end.
    eexists. split; reflexivity.
Qed.

Lemma menu_show_total (new_items : list DisplayLine) (anchor : DisplayCoord)
  (fg bg : Face) (style : MenuStyle) (d0 : Display)
  (Hnn : column_length_nonneg)
  (Hroom : style = MenuSearch \/ column (m_dimensions d0) <= 2 \/
           (new_items <> [] /\
            1 <= Z.max (line anchor) (line (m_dimensions d0) - line anchor - 1))) :
  exists d,
    menu_show new_items anchor fg bg style d0 = Some d /\
    (2 < column (m_dimensions d0) -> 1 <= line (win_size (menu_win (m_menu d)))).
Proof.
  pose proof (fold_left_max_ge (map DisplayLine_length new_items) 1) as Hlong.
  assert (Hcount : new_items <> [] -> 1 <= Z.of_nat (length new_items)).
  { destruct new_items; [congruence | cbn; lia]. }
  assert (Hhalf : 2 * Z.quot (column (m_dimensions d0)) 2 <= column (m_dimensions d0) \/
                  column (m_dimensions d0) <= 2).
  { destruct (Z.le_gt_cases (column (m_dimensions d0)) 2); [by right | left].
    rewrite Z.quot_div_nonneg by lia. apply Z.mul_div_le. lia. }
  assert (Hrows : forall n c, 1 <= n -> 1 <= c -> 1 <= Z.quot (n - 1) c + 1).
  { intros n c Hn Hc. rewrite Z.quot_div_nonneg by lia.
    pose proof (Z.div_pos (n - 1) c). lia. }
  assert (Hfinish : forall S p height width count,
            1 <= height -> 2 <= width -> 0 <= columns (m_menu S) ->
            (1 <= columns (m_menu S) ->
             height <= Z.quot (Z.of_nat (length (items (m_menu S))) - 1)
                              (columns (m_menu S)) + 1) ->
            exists d,
              (d1 ← on_menu_win (Window_create p (mkCoord height width)) S;
               d2 ← draw_menu (set_m_menu d1 (set_selection (m_menu d1) count 0));
               info_reshow d2) = Some d /\
              (2 < column (m_dimensions d0) -> 1 <= line (win_size (menu_win (m_menu d))))).
  { intros S p height width count H1 H2 H3 H4.
    destruct (menu_create_draw S p height width count Hnn H1 H2 H3 H4) as (d & E & Hl).
    exists d. split; [exact E | intros _; lia]. }
  unfold menu_show.
  destruct (Window_present (menu_win (m_menu d0))) eqn:Hp; cbn zeta;
    (match goal with |- context [if ?b then Some ?x else _] =>
       destruct b eqn:Hd; [exists x; split; [reflexivity | cbn in Hd; lia]|] end);
    cbn in Hd; apply Z.leb_gt in Hd;
    (destruct Hhalf as [Hhalf|Hhalf]; [|lia]);
    (destruct Hroom as [->|[Hroom|[Hne Hroom]]];
       [|lia|specialize (Hcount Hne); destruct style]).
  all: cbn -[draw_menu info_reshow cdiv div_round_up Z.min Z.max Z.quot Z.gtb Z.ltb Z.leb
             Z.add Z.sub Z.mul Z.of_nat].
  all: unfold div_round_up, cdiv;
    repeat match goal with
           | |- context [if ?x =? 0 then None else _] =>
               destruct (Z.eqb_spec x 0); [lia|]; cbn [mbind option_bind]
           end.
  all: try change (0 >? 1) with false; try change (1 >? 1) with false;
    cbn [andb mbind option_bind].
  all: repeat match goal with
              | |- context [if ?b && ?c then _ else _] =>
                  destruct (b && c);
                  repeat match goal with
                         | |- context [if ?x =? 0 then None else _] =>
                             destruct (Z.eqb_spec x 0); [lia|]; cbn [mbind option_bind]
                         end; cbn [mbind option_bind]
              | |- context [if ?b then (?x, ?y) else ?e] => destruct b
              end.
  all: apply Hfinish; cbn; rewrite ?length_map; try assumption; try lia.
  all: match goal with
       | |- 1 <= Z.min _ (Z.quot (?n - 1) ?c + 1) =>
           pose proof (Hrows n c ltac:(lia) ltac:(lia)); lia
       end.
Qed.

(** X23. [menu_show] is defined: always for a search menu or a screen of two
    columns or less, and for the other styles when there is an item to show
    and a line of room above or below the anchor.  On a screen of more than
    two columns the menu window then has a line. *)
Theorem menu_show_defined (new_items : list DisplayLine) (anchor : DisplayCoord)
  (fg bg : Face) (style : MenuStyle) (d0 : Display)
  (Hnn : column_length_nonneg)
  (Hroom : style = MenuSearch \/ column (m_dimensions d0) <= 2 \/
           (new_items <> [] /\
            1 <= Z.max (line anchor) (line (m_dimensions d0) - line anchor - 1))) :
  exists d,
    menu_show new_items anchor fg bg style d0 = Some d /\
    (2 < column (m_dimensions d0) -> 1 <= line (win_size (menu_win (m_menu d)))).
Proof. exact (menu_show_total new_items anchor fg bg style d0 Hnn Hroom). Qed.

Lemma info_reshow_Some (d d' : Display) : info_reshow d = Some d' -> info_changed d d'.
Proof. intros H. destruct (info_reshow_defined d) as (d'' & E & Hch). congruence. Qed.

Lemma menu_show_frame (new_items : list DisplayLine) (anchor : DisplayCoord) (fg bg : Face)
  (style : MenuStyle) (d0 d : Display) :
  menu_show new_items anchor fg bg style d0 = Some d ->
  m_window d = m_window d0 /\ m_dimensions d = m_dimensions d0.
Proof.
  intros H. unfold menu_show in H.
  destruct (Window_present (menu_win (m_menu d0))); cbn zeta in H;
    (match type of H with (if ?b then _ else _) = _ => destruct b end;
       [by injection H as <-|]);
    (open_opt H; open_opt H; open_opt H);
    match type of H with context [if ?b then (?x, ?y) else ?e] =>
      destruct (if b then (x, y) else e) as [ln col] end;
    (open_opt H; rename E2 into Ecreate; open_opt H; rename E2 into Edraw);
    apply info_reshow_Some in H; destruct H as (i & b & ->);
    apply draw_menu_redrawn in Edraw; destruct Edraw as (c & ls & b' & _ & ->);
    unfold on_menu_win in Ecreate; open_opt Ecreate; injection Ecreate as <-;
    split; reflexivity.
Qed.

(** The windows [check_resize] rebuilds for a terminal of [rows] rows and
    [cols] columns. *)
Lemma rebuild_windows_defined (rows cols : Z) (d : Display) :
  0 <= rows ->
  Window_present (menu_win (m_menu d)) = false \/
  (column_length_nonneg /\
   (menu_style (m_menu d) = MenuSearch \/ cols <= 2 \/
    (items (m_menu d) <> [] /\
     1 <= Z.max (line (menu_anchor (m_menu d)))
                (rows - 1 - line (menu_anchor (m_menu d)) - 1)))) ->
  exists d',
    rebuild_windows rows cols d = Some d' /\
    m_dimensions d' = mkCoord (rows - 1) cols /\
    win_pos (m_window d') = coord_zero /\
    win_size (m_window d') = mkCoord rows cols /\
    length (lines (m_window d')) = Z.to_nat rows.
Proof.
  intros Hrows Hmenu. unfold rebuild_windows. cbn zeta.
  destruct (Window_present (m_window d)) eqn:Hw,
           (Window_present (info_win (m_info d))) eqn:Hi,
           (Window_present (menu_win (m_menu d))) eqn:Hp;
    unfold Window_create; cbn [line];
    (replace (rows <? 0) with false by lia); cbn [mbind option_bind].
  all: try (destruct Hmenu as [Hmenu|(Hnn & Hroom)]; [discriminate|];
            unfold menu_reshow; cbn -[menu_show info_show];
            match goal with |- context [menu_show ?l ?a ?f ?b ?s ?d0] =>
              destruct (menu_show_total l a f b s d0 Hnn) as (dM & E & _);
                [cbn; exact Hroom|];
              rewrite E; cbn [mbind option_bind];
              apply menu_show_frame in E; cbn in E; destruct E as [EM1 EM2]
            end).
  all: try match goal with |- context [info_show ?t ?c ?a ?f ?s ?d0] =>
             destruct (info_show_total t c a f s d0) as (d' & -> & (i & b & ->))
           end.
  all: eexists; (split; [reflexivity|]); cbn; rewrite ?EM1, ?EM2; cbn;
    rewrite ?resize_lines_length; auto.
Qed.

(** X26. A change of the window size.  When [get_next_key] finds the flag of
    SIGWINCH raised and reads a size of [rows] by [cols] from the terminal,
    it rebuilds the main window with [rows] lines of [cols] columns, sets
    the dimensions to [rows - 1] by [cols], lowers the flag and returns
    the key Resize with those dimensions, reading nothing from stdin; this
    holds when no menu is shown, and with a menu shown when [menu_show]
    has the room it needs on the new screen.  When the size cannot be
    read, the flag is lowered and the call goes on as if it had not been
    raised. *)
Theorem resize_rebuilds_windows (u : NCursesUI)
  (Hh : sighup_raised u = false) (Hr : resize_pending u = true) :
  (forall rows cols,
     tty_winsize u = Some (rows, cols) -> 0 <= rows ->
     Window_present (menu_win (m_menu (display u))) = false \/
     (column_length_nonneg /\
      (menu_style (m_menu (display u)) = MenuSearch \/ cols <= 2 \/
       (items (m_menu (display u)) <> [] /\
        1 <= Z.max (line (menu_anchor (m_menu (display u))))
                   (rows - 1 - line (menu_anchor (m_menu (display u))) - 1)))) ->
     exists u',
       get_next_key u = Some (Some (resize (mkCoord (rows - 1) cols)), u') /\
       resize_pending u' = false /\ m_resize_pending u' = false /\
       stdin u' = stdin u /\
       dimensions (display u') = mkCoord (rows - 1) cols /\
       win_size (m_window (display u')) = mkCoord rows cols /\
       length (lines (m_window (display u'))) = Z.to_nat rows) /\
  (tty_winsize u = None -> m_resize_pending u = false ->
   get_next_key u = read_key (set_resize_pending_flag u false)).
Proof.
  split.
  - intros rows cols Ht Hrows Hmenu.
    destruct (rebuild_windows_defined rows cols (display u) Hrows Hmenu)
      as (d' & E & H1 & H2 & H3 & H4).
    unfold get_next_key, check_resize, bind, get_ui, ret, modify, on_display,
      set_resize_pending.
    rewrite Hh, Hr. cbn [negb andb]. rewrite Ht.
    cbn [display set_resize_pending_flag]. rewrite E. cbn.
    eexists. split; [unfold dimensions; rewrite H1; reflexivity|]. cbn.
    unfold dimensions. auto 10.
  - intros Ht Hm.
    unfold get_next_key, check_resize, bind, get_ui, ret, modify.
    rewrite Hh, Hr. cbn [negb andb]. rewrite Ht. cbn. rewrite Hm. reflexivity.
Qed.

End Reshow.

(** ** Painting the main window *)
Section MainWindowFacts.
Context {prim : DisplayPrimitives}.

(** A draw from column 0 of line [r] replaces that line. *)
Lemma Window_draw_row (atoms : list DisplayAtom) (face : Face) (r : Z) (w : Window) :
  column_length_laws -> 0 <= r < Z.of_nat (length (lines w)) ->
  exists c,
    Window_draw atoms face (Window_move_cursor (mkCoord r 0) w) =
    Some (mkWindow (win_pos w) (win_size w) c
                   (<[Z.to_nat r := drawn_row w face atoms]> (lines w))).
Proof.
  intros Hlaws Hr.
  set (w0 := Window_move_cursor (mkCoord r 0) w).
  destruct (at_Z_in_range (lines w) r Hr) as (ln & Hln).
  assert (Hcur : current_line w0 = Some ([] ++ ln)) by exact Hln.
  destruct (clear_line_boundary w0 [] ln Hlaws Hcur eq_refl)
    as (kept & dropped & Hclear & Hsplit & _).
  symmetry in Hsplit. apply app_eq_nil in Hsplit. destruct Hsplit as [-> _].
  set (stored := flat_map (stored_atoms face) atoms).
  pose proof (draw_atoms_current face atoms (with_line w0 []) [] Hlaws
                (current_line_with_line _ _ _ Hcur)) as Hdraw.
  cbn [app] in Hdraw. fold stored in Hdraw.
  unfold Window_draw. rewrite Hclear. cbn [mbind option_bind]. rewrite Hdraw.
  cbn [mbind option_bind]. rewrite with_line_with_line.
  set (w2 := advance_column (DisplayLine_length atoms) (with_line w0 stored)).
  assert (Hcur2 : current_line w2 = Some stored).
  { unfold w2, advance_column, current_line. cbn [cursor lines set_cursor_of line].
    apply (current_line_with_line _ _ _ Hcur). }
  change (column (cursor w2)) with (0 + DisplayLine_length atoms).
  change (win_size w2) with (win_size w).
  unfold drawn_row, padding_atoms. fold stored. rewrite Z.add_0_l.
  destruct (DisplayLine_length atoms <? column (win_size w)).
  - rewrite (push_back_current _ _ _ Hcur2). eexists. f_equal.
    unfold w2, w0, advance_column, with_line, set_cursor_of, set_lines, Window_move_cursor.
    cbn. by rewrite list_insert_insert_eq.
  - eexists. f_equal.
    unfold w2, w0, advance_column, with_line, set_cursor_of, set_lines, Window_move_cursor.
    cbn. by rewrite app_nil_r.
Qed.

Lemma draw_row_defined (atoms : list DisplayAtom) (face : Face) (r : Z) (d : Display) :
  column_length_laws -> 0 <= r < Z.of_nat (length (lines (m_window d))) ->
  exists c,
    draw_row atoms face r d =
    Some (set_m_window d
            (mkWindow (win_pos (m_window d)) (win_size (m_window d)) c
                      (<[Z.to_nat r := drawn_row (m_window d) face atoms]>
                         (lines (m_window d))))).
Proof.
  intros Hlaws Hr. destruct (Window_draw_row atoms face r (m_window d) Hlaws Hr) as (c & E).
  exists c. unfold draw_row, on_main_win, coord_of_line. rewrite E. reflexivity.
Qed.

Lemma set_m_window_id (d : Display) :
  set_m_window d (mkWindow (win_pos (m_window d)) (win_size (m_window d))
                           (cursor (m_window d)) (lines (m_window d))) = d.
Proof. by destruct d as [[] ? ? ? ? ? ?]. Qed.

Lemma drawn_row_size (w w' : Window) (face : Face) (atoms : list DisplayAtom) :
  win_size w' = win_size w -> drawn_row w' face atoms = drawn_row w face atoms.
Proof. intros H. unfold drawn_row, padding_atoms. by rewrite H. Qed.

Lemma draw_lines_paint (buffer : list DisplayLine) (face : Face) :
  column_length_laws ->
  forall idx d,
    0 <= idx ->
    idx + Z.of_nat (length buffer) <= Z.of_nat (length (lines (m_window d))) ->
    exists c ls,
      draw_lines buffer face idx d =
      Some (idx + Z.of_nat (length buffer),
            set_m_window d (mkWindow (win_pos (m_window d)) (win_size (m_window d)) c ls)) /\
      length ls = length (lines (m_window d)) /\
      (forall k ln, buffer !! k = Some ln ->
         ls !! (Z.to_nat idx + k)%nat = Some (drawn_row (m_window d) face ln)) /\
      (forall r, (r < Z.to_nat idx)%nat \/ (Z.to_nat idx + length buffer <= r)%nat ->
         ls !! r = lines (m_window d) !! r).
Proof.
  intros Hlaws. induction buffer as [|ln rest IH]; intros idx d Hidx Hlen.
  - exists (cursor (m_window d)), (lines (m_window d)). cbn [draw_lines length].
    rewrite set_m_window_id, Z.add_0_r. split; [reflexivity|]. split; [reflexivity|].
    split; [intros k l H; discriminate H | reflexivity].
  - cbn [draw_lines length] in *.
    destruct (draw_row_defined ln face idx d Hlaws ltac:(lia)) as (c1 & ->).
    cbn [mbind option_bind].
    match goal with |- context [draw_lines rest face (idx + 1) ?d1] =>
      destruct (IH (idx + 1) d1) as (c & ls & -> & Hl & Hrows & Hother) end.
    + lia.
    + cbn. rewrite length_insert. lia.
    + cbn [m_window set_m_window lines win_pos win_size] in Hl, Hrows, Hother |- *.
      rewrite length_insert in Hl.
      exists c, ls. split.
      { replace (idx + 1 + Z.of_nat (length rest))
          with (idx + Z.of_nat (S (length rest))) by lia.
        by destruct d. }
      split; [exact Hl|]. split.
      * intros [|k] l Hk.
        -- injection Hk as <-. rewrite Hother by lia. rewrite Nat.add_0_r.
           apply list_lookup_insert_eq. lia.
        -- cbn in Hk.
           replace (Z.to_nat idx + S k)%nat with (Z.to_nat (idx + 1) + k)%nat by lia.
           rewrite (Hrows k l Hk). reflexivity.
      * intros r Hr. rewrite Hother by lia. apply list_lookup_insert_ne. lia.
Qed.

Lemma draw_padding_paint (face : Face) (limit : Z) :
  column_length_laws ->
  forall n idx d,
    0 <= idx -> limit <= Z.of_nat (length (lines (m_window d))) ->
    limit - idx <= Z.of_nat n ->
    exists c ls,
      draw_padding n face idx limit d =
      Some (set_m_window d (mkWindow (win_pos (m_window d)) (win_size (m_window d)) c ls)) /\
      length ls = length (lines (m_window d)) /\
      (forall r, (Z.to_nat idx <= r < Z.to_nat limit)%nat ->
         ls !! r = Some (drawn_row (m_window d) face [atom_of "~"])) /\
      (forall r, (r < Z.to_nat idx)%nat \/ (Z.to_nat limit <= r)%nat ->
         ls !! r = lines (m_window d) !! r).
Proof.
  intros Hlaws.
  assert (Hdone : forall d,
            exists c ls,
              Some d = Some (set_m_window d (mkWindow (win_pos (m_window d))
                                               (win_size (m_window d)) c ls)) /\
              length ls = length (lines (m_window d)) /\
              (forall r, ls !! r = lines (m_window d) !! r)).
  { intros d. exists (cursor (m_window d)), (lines (m_window d)).
    by rewrite set_m_window_id. }
  induction n as [|n IH]; intros idx d Hidx Hlim Hn; cbn [draw_padding].
  - replace (idx <? limit) with false by lia.
    destruct (Hdone d) as (c & ls & E & Hl & Hsame). exists c, ls.
    split; [exact E|]. split; [exact Hl|]. split; [intros r Hr; lia | intros; apply Hsame].
  - destruct (Z.ltb_spec idx limit) as [Hlt|Hge].
    + destruct (draw_row_defined [atom_of "~"] face idx d Hlaws ltac:(lia)) as (c1 & ->).
      cbn [mbind option_bind].
      match goal with |- context [draw_padding n face (idx + 1) limit ?d1] =>
        destruct (IH (idx + 1) d1) as (c & ls & -> & Hl & Hrows & Hother) end.
      * lia.
      * cbn. rewrite length_insert. lia.
      * lia.
      * cbn [m_window set_m_window lines win_pos win_size] in Hl, Hrows, Hother |- *.
        rewrite length_insert in Hl.
        exists c, ls. split; [by destruct d|]. split; [exact Hl|]. split.
        -- intros r Hr. destruct (decide (r = Z.to_nat idx)) as [->|Hne].
           ++ rewrite Hother by lia. apply list_lookup_insert_eq. lia.
           ++ rewrite Hrows by lia. reflexivity.
        -- intros r Hr. rewrite Hother by lia. apply list_lookup_insert_ne. lia.
    + destruct (Hdone d) as (c & ls & E & Hl & Hsame). exists c, ls.
      split; [exact E|]. split; [exact Hl|].
      split; [intros r Hr; lia | intros; apply Hsame].
Qed.

(** X27. [NCursesUI::draw] on the main window that [check_resize] builds, for a
    display buffer of no more lines than the content area: the call is
    defined; every row of the content area is painted, the rows of the
    buffer first and a row of [~] in the padding face for each row left,
    each from column 0 and padded to the width of the window; the status
    row and everything else of the UI but the dirty flag are as before. *)
Theorem draw_paints_content_rows (u : NCursesUI) (display_buffer : list DisplayLine)
  (default_face padding_face : Face)
  (Hlaws : column_length_laws) (Hr : resize_pending u = false)
  (Hwin : main_window_ok (display u))
  (Hfit : Z.of_nat (length display_buffer) <= line (m_dimensions (display u))) :
  let d := display u in
  let w := m_window d in
  exists c ls,
    draw display_buffer default_face padding_face u =
    Some (tt, set_display u
                (set_m_dirty
                   (set_m_window d (mkWindow (win_pos w) (win_size w) c ls)) true)) /\
    length ls = length (lines w) /\
    (forall k, (k < Z.to_nat (line (m_dimensions d)))%nat ->
       ls !! (Z.to_nat (content_line_offset d) + k)%nat =
       Some (painted_row w default_face padding_face display_buffer k)) /\
    at_Z ls (status_row d) = at_Z (lines w) (status_row d).
Proof.
  cbn zeta. destruct Hwin as [Hrows Hlen].
  set (d := display u). fold d in Hrows, Hlen, Hfit.
  set (offset := content_line_offset d).
  assert (Hoff : 0 <= offset <= 1) by (unfold offset, content_line_offset; destruct (m_status_on_top d); lia).
  assert (Hstatus : status_row d = if m_status_on_top d then 0 else line (m_dimensions d))
    by reflexivity.
  unfold draw, check_resize, bind, get_ui, ret, on_display. rewrite Hr. cbn [negb andb].
  unfold draw_display. cbn zeta. unfold dimensions. fold d offset.
  destruct (draw_lines_paint display_buffer default_face Hlaws offset d)
    as (c1 & ls1 & -> & Hl1 & Hrows1 & Hother1).
  { lia. }
  { unfold offset, content_line_offset. destruct (m_status_on_top d); lia. }
  cbn [mbind option_bind].
  match goal with |- context [draw_padding ?n ?f ?i ?lim ?d1] =>
    destruct (draw_padding_paint f lim Hlaws n i d1) as (c2 & ls2 & -> & Hl2 & Hrows2 & Hother2)
  end.
  { lia. }
  { cbn. rewrite Hl1, Hlen. unfold offset, content_line_offset.
    destruct (m_status_on_top d); lia. }
  { lia. }
  cbn [mbind option_bind]. cbn in Hl2, Hrows2, Hother2 |- *.
  exists c2, ls2. split; [reflexivity|]. split; [congruence|]. split.
  - intros k Hk. unfold painted_row.
    destruct (display_buffer !! k) as [ln|] eqn:Hbuf.
    + rewrite Hother2.
      * by apply Hrows1.
      * left. apply lookup_lt_Some in Hbuf. unfold DisplayLine in *. lia.
    + apply lookup_ge_None in Hbuf. apply Hrows2. unfold DisplayLine in *. lia.
  - unfold at_Z. rewrite Hstatus.
    destruct (m_status_on_top d) eqn:Htop.
    + cbn. rewrite Hother2, Hother1; [reflexivity | |];
        unfold offset, content_line_offset; rewrite Htop; lia.
    + replace (line (m_dimensions d) <? 0) with false by lia.
      rewrite Hother2, Hother1; [reflexivity | |];
        unfold offset, content_line_offset; rewrite Htop; lia.
Qed.

End MainWindowFacts.

(** ** The status row *)
Section StatusFacts.
Context {prim : DisplayPrimitives}.

Lemma DisplayLine_length_nonneg (l : DisplayLine) :
  column_length_laws -> 0 <= DisplayLine_length l.
Proof.
  intros (H1 & _). induction l as [|a l IH]; cbn; [lia|].
  pose proof (H1 (content a)). fold (DisplayLine_length l). lia.
Qed.

Lemma stored_columns (face : Face) (atoms : list DisplayAtom) :
  column_length_laws ->
  line_columns (flat_map (stored_atoms face) atoms) = DisplayLine_length atoms.
Proof.
  intros Hlaws. induction atoms as [|a atoms IH]; [reflexivity|].
  cbn [flat_map]. rewrite line_columns_app, IH, stored_atoms_columns by assumption.
  reflexivity.
Qed.

Lemma drawn_row_columns (w : Window) (face : Face) (atoms : list DisplayAtom) :
  column_length_laws -> DisplayLine_length atoms <= column (win_size w) ->
  line_columns (drawn_row w face atoms) = column (win_size w).
Proof.
  intros Hlaws Hfit. unfold drawn_row, padding_atoms.
  rewrite line_columns_app, stored_columns by assumption.
  destruct (Z.ltb_spec (DisplayLine_length atoms) (column (win_size w))); cbn.
  - destruct Hlaws as (_ & H2 & _). rewrite H2 by lia. lia.
  - lia.
Qed.

(** A draw into the main window with the cursor moved to a line of the
    window and a column that is not negative. *)
Lemma main_draw_at (atoms : list DisplayAtom) (face : Face) (p : DisplayCoord) (d : Display) :
  0 <= line p < Z.of_nat (length (lines (m_window d))) -> 0 <= column p ->
  exists c ls,
    on_main_win (fun w => Window_draw atoms face (Window_move_cursor p w)) d =
    Some (set_m_window d (mkWindow (win_pos (m_window d)) (win_size (m_window d)) c ls)) /\
    length ls = length (lines (m_window d)) /\
    (forall r, r <> Z.to_nat (line p) -> ls !! r = lines (m_window d) !! r) /\
    Window_draw atoms face (Window_move_cursor p (m_window d)) =
    Some (mkWindow (win_pos (m_window d)) (win_size (m_window d)) c ls).
Proof.
  intros Hl Hc.
  destruct (Window_draw_redrawn atoms face (Window_move_cursor p (m_window d)))
    as (w' & E & (HP & HS & HL & _ & HO)).
  { split; cbn; lia. }
  cbn in HP, HS, HL, HO.
  exists (cursor w'), (lines w').
  assert (Hw : w' = mkWindow (win_pos (m_window d)) (win_size (m_window d))
                             (cursor w') (lines w')).
  { rewrite <- HP, <- HS. by destruct w'. }
  unfold on_main_win. rewrite E. cbn [mbind option_bind].
  split; [by rewrite Hw at 1|]. split; [exact HL|]. split; [|by rewrite Hw at 1].
  intros r Hr. specialize (HO (Z.of_nat r) ltac:(lia)). unfold at_Z in HO.
  replace (Z.of_nat r <? 0) with false in HO by lia. by rewrite Nat2Z.id in HO.
Qed.

(** X28. [draw_status] on the main window that [check_resize] builds, as wide
    as the dimensions say, for a status line that fits the width: the call
    is defined and repaints the status row only.  When the mode line fits
    beside the status line, it is drawn flush right over the padding of
    the status line, and the row is exactly as wide as the window. *)
Theorem draw_status_paints_status_row (status_line mode_line : DisplayLine)
  (default_face : Face) (d : Display)
  (Hlaws : column_length_laws) (Htrunc : truncation_law)
  (Hwin : main_window_ok d)
  (Hwidth : column (win_size (m_window d)) = column (m_dimensions d))
  (Hstatus : DisplayLine_length status_line <= column (m_dimensions d)) :
  let w := m_window d in
  exists c ls,
    draw_status status_line mode_line default_face d =
    Some (set_m_dirty (set_m_window d (mkWindow (win_pos w) (win_size w) c ls)) true) /\
    length ls = length (lines w) /\
    (forall r, r <> Z.to_nat (status_row d) -> ls !! r = lines w !! r) /\
    (DisplayLine_length mode_line
       < column (m_dimensions d) - DisplayLine_length status_line ->
     exists row,
       ls !! Z.to_nat (status_row d) = Some row /\
       line_columns row = column (m_dimensions d) /\
       c = mkCoord (status_row d) (column (m_dimensions d))).
Proof.
  cbn zeta. destruct Hwin as [Hrows Hlen].
  pose proof (DisplayLine_length_nonneg status_line Hlaws) as Hs0.
  pose proof (DisplayLine_length_nonneg mode_line Hlaws) as Hm0.
  assert (Hrow : 0 <= status_row d < Z.of_nat (length (lines (m_window d)))).
  { unfold status_row. destruct (m_status_on_top d); lia. }
  unfold draw_status. cbn zeta. fold (status_row d).
  destruct (draw_row_defined status_line default_face (status_row d) d Hlaws Hrow)
    as (c1 & ->).
  cbn [mbind option_bind].
  set (row1 := drawn_row (m_window d) default_face status_line).
  set (ls1 := <[Z.to_nat (status_row d) := row1]> (lines (m_window d))).
  set (d1 := set_m_window d _).
  assert (Hd1 : m_dimensions d1 = m_dimensions d) by reflexivity.
  rewrite Hd1.
  assert (Hfinish : forall atoms col,
            0 <= col ->
            exists c ls,
              (d2 ← on_main_win (fun w => Window_draw atoms default_face
                                    (Window_move_cursor (mkCoord (status_row d) col) w)) d1;
               Some (set_m_dirty d2 true)) =
              Some (set_m_dirty
                      (set_m_window d (mkWindow (win_pos (m_window d))
                                         (win_size (m_window d)) c ls)) true) /\
              length ls = length (lines (m_window d)) /\
              (forall r, r <> Z.to_nat (status_row d) -> ls !! r = lines (m_window d) !! r) /\
              Window_draw atoms default_face
                (Window_move_cursor (mkCoord (status_row d) col) (m_window d1)) =
              Some (mkWindow (win_pos (m_window d)) (win_size (m_window d)) c ls)).
  { intros atoms col Hcol.
    destruct (main_draw_at atoms default_face (mkCoord (status_row d) col) d1)
      as (c & ls & -> & Hl & Ho & Hw).
    - cbn. unfold ls1. rewrite length_insert. lia.
    - exact Hcol.
    - cbn [mbind option_bind]. exists c, ls. cbn in Hl, Ho, Hw |- *.
      unfold ls1 in Hl. rewrite length_insert in Hl.
      split; [reflexivity|]. split; [exact Hl|]. split; [|exact Hw].
      intros r Hr. rewrite Ho by exact Hr. unfold ls1.
      apply list_lookup_insert_ne. lia. }
  destruct (Z.ltb_spec (DisplayLine_length mode_line)
              (column (m_dimensions d) - DisplayLine_length status_line)) as [Hfit|Hno].
  - assert (Hcol : 0 <= column (m_dimensions d) - DisplayLine_length mode_line) by lia.
    destruct (Hfinish mode_line _ Hcol) as (c & ls & -> & Hl & Ho & Hw).
    exists c, ls. split; [reflexivity|]. split; [exact Hl|]. split; [exact Ho|].
    intros _.
    destruct (Window_draw_over
                (Window_move_cursor
                   (mkCoord (status_row d)
                            (column (m_dimensions d) - DisplayLine_length mode_line))
                   (m_window d1))
                mode_line default_face row1 Hlaws Htrunc)
      as (w' & row & E & Hcur & Hcols & Hsize & Hcursor).
    + unfold current_line, at_Z. cbn. replace (status_row d <? 0) with false by lia.
      unfold ls1. apply list_lookup_insert_eq. lia.
    + cbn. unfold row1. rewrite drawn_row_columns by (assumption || lia). lia.
    + cbn. lia.
    + rewrite Hw in E. injection E as <-. cbn in Hcur, Hcols, Hcursor.
      exists row. split.
      * unfold current_line, at_Z in Hcur. rewrite Hcursor in Hcur. cbn in Hcur.
        replace (status_row d <? 0) with false in Hcur by lia. exact Hcur.
      * split; [lia|]. rewrite Hcursor. f_equal. lia.
  - destruct (Z.gtb_spec (column (m_dimensions d) - DisplayLine_length status_line) 2)
      as [Hgt|Hle].
    + assert (Hcol : 0 <= column (m_dimensions d)
                          - (column (m_dimensions d) - DisplayLine_length status_line) + 1)
        by lia.
      match goal with |- context [Window_draw ?atoms default_face] =>
        destruct (Hfinish atoms _ Hcol) as (c & ls & -> & Hl & Ho & _)
      end.
      exists c, ls. split; [reflexivity|]. split; [exact Hl|]. split; [exact Ho | lia].
    + cbn [mbind option_bind]. exists c1, ls1. split; [reflexivity|].
      split; [unfold ls1; apply length_insert|]. split; [|lia].
      intros r Hr. unfold ls1. apply list_lookup_insert_ne. lia.
Qed.

End StatusFacts.

(** ** Suspend and resume *)
Section SuspendFacts.
Context {prim : DisplayPrimitives}.


End SuspendFacts.

(** ** Further instances on concrete input *)

Lemma ascii_column_length_nonneg : @column_length_nonneg ascii_primitives.
Proof. intros s. cbn. unfold ascii_column_length. lia. Qed.

Lemma ascii_truncation_law : @truncation_law ascii_primitives.
Proof.
  intros s n Hn. cbn [column_length byte_count_to ascii_primitives] in *.
  unfold ascii_column_length, string_resize in *.
  replace (Z.to_nat n - String.length s)%nat with 0%nat by lia. cbn [string_repeat].
  assert (Happ : forall a : string, (a ++ "")%string = a)
    by (induction a as [|c a IH]; cbn; [reflexivity | by rewrite IH]).
  rewrite Happ.
  assert (Hsub : forall (t : string) (k : nat),
            (k <= String.length t)%nat -> String.length (String.substring 0 k t) = k).
  { induction t as [|c t IH]; intros [|k] Hk; cbn in *; try reflexivity; try lia.
    rewrite IH by lia. reflexivity. }
  rewrite Hsub by lia. lia.
Qed.

Lemma get_next_key_hangup_witness :
  exists u',
    @get_next_key ascii_primitives (hung_up_ui [97]) = Some (None, u') /\
    stdin u' = [97] /\ m_stdin_watcher u' = false.
Proof.
  destruct (@get_next_key_hangup ascii_primitives (hung_up_ui [97]) eq_refl)
    as (u' & Hk & Hs & _ & Hw & _).
  exists u'. split; [exact Hk|]. split; [exact Hs | exact Hw].
Defined.

Lemma control_bytes_witness :
  @get_next_key ascii_primitives (blank_ui [1; 120]) =
  Some (Some (mkKey Mod_Control (Codepoint 97)), set_stdin (blank_ui [1; 120]) [120]).
Proof.
  assert (Hu : idle (blank_ui [1; 120])) by (repeat split).
  apply (proj1 (@control_bytes ascii_primitives (blank_ui [1; 120]) 1 [120] Hu eq_refl));
    lia.
Defined.

Lemma esc_prefix_adds_alt_witness :
  @get_next_key ascii_primitives (blank_ui [27]) =
  Some (Some (key_of_named Key_Escape), set_stdin (blank_ui [27]) []).
Proof.
  assert (Hu : idle (blank_ui [27])) by (repeat split).
  apply (proj1 (@esc_prefix_adds_alt ascii_primitives (blank_ui [27]) Hu)). reflexivity.
Defined.

Lemma csi_keys_without_parameters_witness :
  @get_next_key ascii_primitives (blank_ui [27; 91; 49; 59; 50; 90; 120]) =
  Some (Some (mkKey Mod_Shift (Named Key_Tab)),
        set_stdin (blank_ui [27; 91; 49; 59; 50; 90; 120]) [120]).
Proof.
  assert (Hu : idle (blank_ui [27; 91; 49; 59; 50; 90; 120])) by (repeat split).
  assert (Hl : Forall param_byte [49; 59; 50]).
  { constructor; [by left|]. constructor; [by right|]. constructor; [by left|]. constructor. }
  assert (Hn : Nat.lt (semicolons [49; 59; 50]) 16) by (cbn; lia).
  apply (proj1 (@csi_keys_without_parameters ascii_primitives
                  (blank_ui [27; 91; 49; 59; 50; 90; 120]) [] [49; 59; 50] 90 [120]
                  Hu (or_introl eq_refl) Hl Hn eq_refl)).
  reflexivity.
Defined.

Lemma ss3_agrees_with_csi_witness :
  @get_next_key ascii_primitives (blank_ui [27; 79; 65; 120]) =
  Some (Some (key_of_named Key_Up), set_stdin (blank_ui [27; 79; 65; 120]) [120]).
Proof.
  assert (Hu : idle (blank_ui [27; 79; 65; 120])) by (repeat split).
  apply (proj1 (@ss3_agrees_with_csi ascii_primitives (blank_ui [27; 79; 65; 120])
                  [] 65 Key_Up [120] Hu eq_refl ltac:(constructor))).
  reflexivity.
Defined.

Lemma csi_u_key_witness :
  @get_next_key ascii_primitives (blank_ui [27; 91; 57; 55; 59; 53; 117]) =
  Some (Some (mkKey Mod_Control (Codepoint 97)),
        set_stdin (blank_ui [27; 91; 57; 55; 59; 53; 117]) []).
Proof.
  assert (Hu : idle (blank_ui [27; 91; 57; 55; 59; 53; 117])) by (repeat split).
  apply (@csi_u_key ascii_primitives (blank_ui [27; 91; 57; 55; 59; 53; 117]) 97 4 []
           Hu ltac:(lia) ltac:(lia) eq_refl).
Defined.

Lemma sgr_wheel_scroll_witness :
  @get_next_key ascii_primitives (blank_ui (sgr_mouse 65 1 1 77 ++ [120])) =
  Some (Some (mkKey Mod_Scroll (Codepoint 3)),
        set_stdin (blank_ui (sgr_mouse 65 1 1 77 ++ [120])) [120]).
Proof.
  assert (Hu : idle (blank_ui (sgr_mouse 65 1 1 77 ++ [120]))) by (repeat split).
  apply (@sgr_wheel_scroll ascii_primitives (blank_ui (sgr_mouse 65 1 1 77 ++ [120]))
           65 1 1 [120] Hu ltac:(lia) (or_intror eq_refl) eq_refl).
Defined.

Lemma undecoded_mouse_reports_witness :
  @get_next_key ascii_primitives (blank_ui (sgr_mouse 3 1 1 77 ++ [120])) =
  Some (Some (alt (key_of_codepoint 91)),
        set_stdin (blank_ui (sgr_mouse 3 1 1 77 ++ [120])) [120]).
Proof.
  assert (Hu : idle (blank_ui (sgr_mouse 3 1 1 77 ++ [120]))) by (repeat split).
  apply (proj1 (@undecoded_mouse_reports ascii_primitives
                  (blank_ui (sgr_mouse 3 1 1 77 ++ [120])) Hu) 3 1 1 77 [120]);
    try lia; try reflexivity; by left.
Defined.


Lemma watcher_drains_input_witness :
  exists keys u',
    @on_stdin_readable ascii_primitives 3 (blank_ui [97; 98]) = Some (keys, u') /\
    stdin u' = [] /\ keys <> [].
Proof.
  assert (Hu : idle (blank_ui [97; 98])) by (repeat split).
  destruct (@watcher_drains_input ascii_primitives 3 (blank_ui [97; 98]) Hu)
    as (keys & u' & Hk & Hs & _ & Hne & _).
  - cbn. intros H. repeat (apply elem_of_cons in H; destruct H as [H|H]; [lia|]).
    by apply elem_of_nil in H.
  - cbn. lia.
  - exists keys, u'. split; [exact Hk|]. split; [exact Hs|]. apply Hne. discriminate.
Defined.

Lemma compute_pos_within_columns_witness :
  let p := compute_pos (mkCoord 5 75) (mkCoord 3 10) (mkRect coord_zero (mkCoord 24 80))
             (mkRect (mkCoord 6 0) (mkCoord 10 80)) false in
  0 <= column p /\ column p + 10 <= 80.
Proof.
  apply (compute_pos_within_columns (mkCoord 5 75) (mkCoord 3 10)
           (mkRect coord_zero (mkCoord 24 80)) (mkRect (mkCoord 6 0) (mkCoord 10 80)) false);
    cbn; lia.
Defined.

Lemma compute_pos_within_lines_witness :
  let p := compute_pos (mkCoord 22 5) (mkCoord 3 10) (mkRect coord_zero (mkCoord 24 80))
             (mkRect coord_zero coord_zero) false in
  0 <= line p /\ line p + 3 <= 24.
Proof.
  apply (compute_pos_within_lines (mkCoord 22 5) (mkCoord 3 10)
           (mkRect coord_zero (mkCoord 24 80)) (mkRect coord_zero coord_zero) false);
    cbn; try reflexivity; try lia; by left.
Defined.

Lemma Window_draw_defined_witness :
  exists w',
    @Window_draw ascii_primitives [atom_of "ab"] default_Face small_window = Some w' /\
    line_redrawn small_window w'.
Proof.
  apply (proj1 (@Window_draw_defined ascii_primitives [atom_of "ab"] default_Face
                  small_window)).
  split; cbn; lia.
Defined.

Lemma clear_line_cuts_at_cursor_witness :
  exists w' ln',
    @clear_line ascii_primitives written_window = Some w' /\
    current_line w' = Some ln' /\ @line_columns ascii_primitives ln' = 4.
Proof.
  destruct (@clear_line_cuts_at_cursor ascii_primitives written_window
              [mkAtom "0123456789" default_Face]
              ascii_column_length_laws ascii_truncation_law eq_refl ltac:(cbn; lia))
    as (w' & ln' & E & _ & _ & Hcur & Hw).
  exists w', ln'. split; [exact E|]. split; [exact Hcur | exact Hw].
Defined.

Lemma draw_over_fills_line_witness :
  exists w' ln',
    @Window_draw ascii_primitives [atom_of "ab"] default_Face written_window = Some w' /\
    current_line w' = Some ln' /\ @line_columns ascii_primitives ln' = 10 /\
    cursor w' = mkCoord 0 6.
Proof.
  destruct (@draw_over_fills_line ascii_primitives written_window [atom_of "ab"]
              default_Face [mkAtom "0123456789" default_Face]
              ascii_column_length_laws ascii_truncation_law eq_refl
              ltac:(vm_compute; split; discriminate) ltac:(vm_compute; discriminate))
    as (w' & ln' & E & Hcur & Hcols & Hsize & Hcursor).
  exists w', ln'. split; [exact E|]. split; [exact Hcur|].
  split; [rewrite Hcols, Hsize; reflexivity | exact Hcursor].
Defined.

Lemma menu_select_only_repaints_witness :
  exists d d',
    @menu_select ascii_primitives 5 d = Some d' /\
    items (m_menu d') = items (m_menu d) /\ selected_item (m_menu d') = 5.
Proof.
  eassert (E1 : @menu_show ascii_primitives demo_items coord_zero default_Face default_Face
                  MenuPrompt demo_display = Some _) by (vm_compute; reflexivity).
  match type of E1 with
  | _ = Some ?d1 =>
      eassert (E2 : @menu_select ascii_primitives 5 d1 = Some _)
        by (vm_compute; reflexivity);
      match type of E2 with
      | _ = Some ?d2 =>
          destruct (@menu_select_only_repaints ascii_primitives 5 d1 d2 E2)
            as (Hi & _ & _ & _ & _ & _ & _ & _ & _ & Hs);
          exists d1, d2
      end
  end.
  split; [exact E2|]. split; [exact Hi|]. apply Hs. clear.
  vm_compute. split; [discriminate | reflexivity].
Defined.

Lemma menu_select_grid_visible_witness :
  exists d d' col ln,
    @menu_select ascii_primitives 99 d = Some d' /\
    0 <= col < columns (m_menu d') /\ 0 <= ln < 10 /\
    (Z.quot (first_item (m_menu d')) 10 + col) * 10 + ln = 99.
Proof.
  eassert (E1 : @menu_show ascii_primitives demo_items coord_zero default_Face default_Face
                  MenuPrompt demo_display = Some _) by (vm_compute; reflexivity).
  match type of E1 with
  | _ = Some ?d1 =>
      eassert (E2 : @menu_select ascii_primitives 99 d1 = Some _)
        by (vm_compute; reflexivity);
      match type of E2 with
      | _ = Some ?d2 =>
          destruct (@menu_select_grid_visible ascii_primitives 99 d1 d2
                      (reach_menu_show _ _ _ _ _ _ _ E1)
                      ltac:(clear; vm_compute; discriminate) ltac:(clear; vm_compute; discriminate)
                      ltac:(clear; vm_compute; split; [discriminate | reflexivity]) E2)
            as (_ & col & ln & Hcol & Hln & Hidx);
          exists d1, d2, col, ln
      end
  end.
  split; [exact E2|]. split; [exact Hcol|]. split; [exact Hln | exact Hidx].
Defined.

Lemma menu_select_horizontal_visible_witness :
  exists d d',
    @menu_select ascii_primitives 7 d = Some d' /\
    selected_item (m_menu d') = 7 /\ 0 <= first_item (m_menu d') <= 7.
Proof.
  eassert (E1 : @menu_show ascii_primitives demo_items coord_zero default_Face default_Face
                  MenuSearch demo_display = Some _) by (vm_compute; reflexivity).
  match type of E1 with
  | _ = Some ?d1 =>
      eassert (E2 : @menu_select ascii_primitives 7 d1 = Some _)
        by (vm_compute; reflexivity);
      match type of E2 with
      | _ = Some ?d2 =>
          destruct (@menu_select_horizontal_visible ascii_primitives 7 d1 d2
                      eq_refl ltac:(clear; vm_compute; split; [discriminate | reflexivity]) E2)
            as (Hs & Hf & _);
          exists d1, d2
      end
  end.
  split; [exact E2|]. split; [exact Hs | exact Hf].
Defined.

Lemma menu_show_geometry_witness :
  exists d,
    @menu_show ascii_primitives demo_items coord_zero default_Face default_Face
      MenuPrompt demo_display = Some d /\
    length (items (m_menu d)) = 100%nat /\
    0 <= line (win_size (menu_win (m_menu d))) <= 10 /\
    column (win_size (menu_win (m_menu d))) = 20.
Proof.
  eassert (E1 : @menu_show ascii_primitives demo_items coord_zero default_Face default_Face
                  MenuPrompt demo_display = Some _) by (vm_compute; reflexivity).
  match type of E1 with
  | _ = Some ?d1 =>
      destruct (@menu_show_geometry ascii_primitives demo_items coord_zero default_Face
                  default_Face MenuPrompt demo_display d1 E1 ltac:(clear; vm_compute; reflexivity))
        as (Hi & _ & _ & Hh & _ & _ & _ & _ & _ & Hw);
      exists d1
  end.
  split; [exact E1|]. split; [exact Hi|]. split; [exact Hh | by apply Hw].
Defined.

Lemma menu_show_placement_witness :
  exists d,
    @menu_show ascii_primitives demo_items (mkCoord 5 3) default_Face default_Face
      MenuInline demo_display = Some d /\
    (line (win_pos (menu_win (m_menu d))) = 6 \/
     line (win_pos (menu_win (m_menu d))) + line (win_size (menu_win (m_menu d))) = 5).
Proof.
  eassert (E1 : @menu_show ascii_primitives demo_items (mkCoord 5 3) default_Face
                  default_Face MenuInline demo_display = Some _)
    by (vm_compute; reflexivity).
  match type of E1 with
  | _ = Some ?d1 =>
      destruct (@menu_show_placement ascii_primitives demo_items (mkCoord 5 3) default_Face
                  default_Face MenuInline demo_display d1 E1 ltac:(clear; vm_compute; reflexivity))
        as (_ & _ & Hinline);
      exists d1
  end.
  split; [exact E1|]. exact (proj1 (Hinline eq_refl)).
Defined.

Lemma menu_select_defined_witness :
  exists d d',
    @menu_reachable ascii_primitives d /\
    @menu_select ascii_primitives 1000 d = Some d' /\ @menu_reachable ascii_primitives d'.
Proof.
  eassert (E1 : @menu_show ascii_primitives demo_items coord_zero default_Face default_Face
                  MenuPrompt demo_display = Some _) by (vm_compute; reflexivity).
  match type of E1 with
  | _ = Some ?d1 =>
      destruct (@menu_select_defined ascii_primitives 1000 d1 ascii_column_length_nonneg
                  (reach_menu_show _ _ _ _ _ _ _ E1) ltac:(clear; vm_compute; discriminate))
        as (d' & E2 & Hr);
      exists d1, d'
  end.
  split; [exact (reach_menu_show _ _ _ _ _ _ _ E1)|]. split; [exact E2 | exact Hr].
Defined.

Lemma menu_show_defined_witness :
  exists d,
    @menu_show ascii_primitives demo_items (mkCoord 5 3) default_Face default_Face
      MenuInline demo_display = Some d /\
    1 <= line (win_size (menu_win (m_menu d))).
Proof.
  destruct (@menu_show_defined ascii_primitives demo_items (mkCoord 5 3) default_Face
              default_Face MenuInline demo_display ascii_column_length_nonneg)
    as (d & E & Hh).
  - right. right. split; [discriminate | vm_compute; discriminate].
  - exists d. split; [exact E|]. apply Hh. vm_compute. reflexivity.
Defined.

Lemma resize_rebuilds_windows_witness :
  exists u',
    @get_next_key ascii_primitives (resized_ui [97]) =
      Some (Some (resize (mkCoord 23 80)), u') /\
    stdin u' = [97] /\ length (lines (m_window (display u'))) = 24%nat.
Proof.
  destruct (proj1 (@resize_rebuilds_windows ascii_primitives (resized_ui [97])
                     eq_refl eq_refl) 24 80 eq_refl ltac:(lia) (or_introl eq_refl))
    as (u' & Hk & _ & _ & Hs & _ & _ & Hl).
  exists u'. split; [exact Hk|]. split; [exact Hs | exact Hl].
Defined.

Lemma draw_paints_content_rows_witness :
  exists u' row,
    @draw ascii_primitives [[atom_of "hello"]] default_Face default_Face (ready_ui []) =
      Some (tt, u') /\
    lines (m_window (display u')) !! 0%nat = Some row /\
    row = @drawn_row ascii_primitives (m_window ready_display) default_Face [atom_of "hello"].
Proof.
  destruct (@draw_paints_content_rows ascii_primitives (ready_ui []) [[atom_of "hello"]]
              default_Face default_Face ascii_column_length_laws eq_refl)
    as (c & ls & E & _ & Hrows & _).
  - split; [cbn; lia | reflexivity].
  - cbn. lia.
  - eexists _, _. split; [exact E|]. split; [|reflexivity].
    exact (Hrows 0%nat ltac:(cbn; lia)).
Defined.

Lemma draw_status_paints_status_row_witness :
  exists d' row,
    @draw_status ascii_primitives [atom_of "status"] [atom_of "mode"] default_Face
      ready_display = Some d' /\
    lines (m_window d') !! 23%nat = Some row /\
    @line_columns ascii_primitives row = 80.
Proof.
  destruct (@draw_status_paints_status_row ascii_primitives [atom_of "status"]
              [atom_of "mode"] default_Face ready_display
              ascii_column_length_laws ascii_truncation_law)
    as (c & ls & E & _ & _ & Hrow).
  - split; [cbn; lia | reflexivity].
  - reflexivity.
  - vm_compute. discriminate.
  - destruct (Hrow ltac:(clear; vm_compute; reflexivity)) as (row & Hr & Hw & _).
    eexists _, row. split; [exact E|]. split; [exact Hr | exact Hw].
Defined.

